(** * DualShock 4 / DualSense drivers of sc-controller: a shallow embedding

    The development follows [scc/drivers/ds4drv.py] and
    [scc/drivers/ds5drv.py].  Python integers are [Z]; the bytes of a
    [bytes]/[bytearray] value are a [list Z] whose elements lie in
    [0, 256); ctypes fields are [Z] wrapped to the width of the field;
    statements that mutate the controller object or raise are written in
    a small state-and-exception monad.

    The lightbar channels of [configure] are computed on binary64
    ([SpecFloat]), as Python computes them.  The other float computations
    are modelled by exact rationals ([Q]), with [int()] as truncation
    toward zero; where a claim is decided on inputs for which binary64
    rounding could matter, a second, bit-exact binary64 version of the
    function is evaluated next to the rational one. *)

From Stdlib Require Import ZArith QArith Qround List Bool String Ascii Lia Lqa.
From Stdlib Require Import Floats.SpecFloat.
From Stdlib Require DecimalString DecimalNat.
Import ListNotations.

Local Open Scope Z_scope.

(** ** Python results: a value, or a raised exception *)

Inductive exn : Set :=
| IndexError
| ValueError
| AttributeError
| OverflowError.

Inductive result (A : Type) : Type :=
| Ok (a : A)
| Raise (e : exn).

Arguments Ok {A} a.
Arguments Raise {A} e.

Definition result_bind {A B : Type} (r : result A) (k : A -> result B) : result B :=
  match r with
  | Ok a => k a
  | Raise e => Raise e
  end.

(** ** Statements of a method: they read and mutate the object [self]
    (and, through it, the host objects it talks to) and may raise.  The
    state reached when an exception is raised is kept: Python does not
    roll mutations back. *)

Definition M (S A : Type) : Type := S -> result A * S.

Definition ret {S A : Type} (a : A) : M S A := fun s => (Ok a, s).

Definition bind {S A B : Type} (m : M S A) (k : A -> M S B) : M S B :=
  fun s =>
    match m s with
    | (Ok a, s') => k a s'
    | (Raise e, s') => (Raise e, s')
    end.

Definition raise {S A : Type} (e : exn) : M S A := fun s => (Raise e, s).

Definition lift {S A : Type} (r : result A) : M S A := fun s => (r, s).

Definition get {S : Type} : M S S := fun s => (Ok s, s).

Definition put {S : Type} (s : S) : M S unit := fun _ => (Ok tt, s).

Definition modify {S : Type} (f : S -> S) : M S unit := fun s => (Ok tt, f s).

Declare Scope py_scope.
Delimit Scope py_scope with py.
Notation "x <- m ;; k" := (bind m (fun x => k))
  (at level 61, m at next level, right associativity) : py_scope.
Notation "m ;;; k" := (bind m (fun _ => k))
  (at level 61, right associativity) : py_scope.

(** ** Bytes and ctypes integer fields *)

Definition is_byte (b : Z) : bool := (0 <=? b) && (b <? 256).

Definition is_bytes (buf : list Z) : bool := forallb is_byte buf.

Definition c_ubyte (z : Z) : Z := z mod 2 ^ 8.
Definition c_uint16 (z : Z) : Z := z mod 2 ^ 16.
Definition c_uint32 (z : Z) : Z := z mod 2 ^ 32.
Definition c_int16 (z : Z) : Z := (z + 2 ^ 15) mod 2 ^ 16 - 2 ^ 15.
Definition c_int32 (z : Z) : Z := (z + 2 ^ 31) mod 2 ^ 32 - 2 ^ 31.

(** [buf[i]] on a bytes object: [IndexError] past the end. *)
Definition getitem (buf : list Z) (i : nat) : result Z :=
  match nth_error buf i with
  | Some b => Ok b
  | None => Raise IndexError
  end.

(** [buf[i] = v] on a bytearray: [IndexError] past the end, [ValueError]
    when [v] is not in [range(256)]. *)
Fixpoint setitem (buf : list Z) (i : nat) (v : Z) : result (list Z) :=
  match buf, i with
  | [], _ => Raise IndexError
  | b :: rest, O => if is_byte v then Ok (v :: rest) else Raise ValueError
  | b :: rest, S j =>
      match setitem rest j v with
      | Ok rest' => Ok (b :: rest')
      | Raise e => Raise e
      end
  end.

(** [b.ljust(width, fillchar)] on a bytes object: padded on the right to
    [width] bytes, unchanged when it is that long already. *)
Definition ljust (width : nat) (fillchar : Z) (b : list Z) : list Z :=
  b ++ repeat fillchar (width - List.length b).

(** [b.replace(old, b"")] for a one-byte [old]: every occurrence of the
    byte is removed. *)
Definition replace_byte_empty (old : Z) (b : list Z) : list Z :=
  filter (fun c => negb (c =? old)) b.

(** ** zlib.crc32

    The CRC-32 of zlib (reflected polynomial [0xEDB88320], register
    preset and final complement [0xFFFFFFFF]), bit by bit.
    [crc32 data value] continues a running checksum [value], as
    [zlib.crc32(data, value)] does; [crc32 data 0] is the checksum of
    [data]. *)

Module zlib.

Definition poly : Z := 0xEDB88320.
Definition mask32 : Z := 0xFFFFFFFF.

Definition crc_bit (c : Z) : Z :=
    if Z.testbit c 0 then Z.lxor (Z.shiftr c 1) poly else Z.shiftr c 1.

Definition crc_byte (c b : Z) : Z :=
    Nat.iter 8 crc_bit (Z.lxor c b).

Definition crc32 (data : list Z) (value : Z) : Z :=
    Z.lxor (fold_left crc_byte data (Z.lxor (Z.land value mask32) mask32)) mask32.

End zlib.

(** ** Python numbers *)

(** [int(x)] of a float: truncation toward zero. *)
Definition py_int (x : Q) : Z := Z.quot (Qnum x) (Z.pos (Qden x)).

(** [max(a, b)]: the first argument unless the second is greater. *)
Definition py_max (a b : Q) : Q := if Qle_bool b a then a else b.

(** ** Python floats, bit for bit

    [float] is IEEE 754 binary64; [SpecFloat] computes its operations
    with round-to-nearest-even. *)

Module binary64.

Definition prec : Z := 53.
Definition emax : Z := 1024.

(** The binary64 nearest to the integer [z]; an infinity when [z] is
    beyond the range. *)
Definition of_Z (z : Z) : spec_float := binary_normalize prec emax z 0 false.

(** [x + y], [x * y], [x / y] and [-x] *)
Definition add : spec_float -> spec_float -> spec_float := SFadd prec emax.
Definition mul : spec_float -> spec_float -> spec_float := SFmul prec emax.
Definition div : spec_float -> spec_float -> spec_float := SFdiv prec emax.
Definition neg : spec_float -> spec_float := SFopp.

(** The literal [0.5]. *)
Definition half : spec_float := binary_normalize prec emax 1 (-1) false.

(** A decimal literal: the binary64 nearest to its value.  The literal is
    given as the fraction that it spells ([0.4] as 4/10); the quotient of
    two integers below 2^53 is rounded once. *)
Definition literal (q : Q) : spec_float :=
  div (of_Z (Qnum q)) (of_Z (Z.pos (Qden q))).

(** [int(x)]: truncation toward zero; [ValueError] for NaN and
    [OverflowError] for an infinity. *)
Definition to_int (x : spec_float) : result Z :=
  match x with
  | S754_zero _ => Ok 0
  | S754_finite s m e =>
      let a := if 0 <=? e then Z.pos m * 2 ^ e else Z.pos m / 2 ^ (- e) in
      Ok (if s then - a else a)
  | S754_infinity _ => Raise OverflowError
  | S754_nan => Raise ValueError
  end.

End binary64.

(** A number as a caller passes it: an [int] or a [float]. *)
Inductive number : Type :=
| PyInt (z : Z)
| PyFloat (x : spec_float).

(** [float(n)]: [OverflowError] for an [int] beyond the range of
    binary64. *)
Definition py_float (n : number) : result spec_float :=
  match n with
  | PyInt z =>
      match binary64.of_Z z with
      | S754_infinity _ => Raise OverflowError
      | x => Ok x
      end
  | PyFloat x => Ok x
  end.

(** ** Python dictionaries, in insertion order

    [d[k] = v] replaces the value of an existing key in place and appends
    a new key; [d.popitem()] removes the entry inserted last. *)

Section Dict.
Context {V : Type}.

Definition dict : Type := list (string * V).

Fixpoint dict_set (d : dict) (k : string) (v : V) : dict :=
    match d with
    | [] => [(k, v)]
    | (k', v') :: rest =>
        if String.eqb k' k then (k', v) :: rest else (k', v') :: dict_set rest k v
    end.

Fixpoint dict_get (d : dict) (k : string) : option V :=
    match d with
    | [] => None
    | (k', v') :: rest => if String.eqb k' k then Some v' else dict_get rest k
    end.

  (** The entries in the order in which repeated [popitem] returns them. *)
Definition popitems (d : dict) : list (string * V) := rev d.
End Dict.

Arguments dict V : clear implicits.

(** ** Python strings: [str.rsplit(sep, 1)] and [int(str)] *)

(** Position of the last occurrence of the character [sep], if any. *)
Fixpoint rindex (sep : ascii) (s : string) : option nat :=
  match s with
  | EmptyString => None
  | String c rest =>
      match rindex sep rest with
      | Some i => Some (S i)
      | None => if Ascii.eqb c sep then Some O else None
      end
  end.

(** [s.rsplit(sep, 1)]: one element when [sep] does not occur, else the
    text before and after its last occurrence. *)
Definition rsplit1 (sep : ascii) (s : string) : list string :=
  match rindex sep s with
  | None => [s]
  | Some i => [substring 0 i s; substring (S i) (String.length s - S i) s]
  end.

(** Characters that [int()] skips around the number: ASCII white space
    and, among the code points below 256, NEL and NBSP. *)
Definition int_space (c : ascii) : bool :=
  let n := nat_of_ascii c in
  ((9 <=? n) && (n <=? 13) || (n =? 32) || (n =? 133) || (n =? 160))%nat.

Definition digit_of (c : ascii) : option Z :=
  let n := nat_of_ascii c in
  if ((48 <=? n) && (n <=? 57))%nat then Some (Z.of_nat n - 48) else None.

Fixpoint lstrip (s : string) : string :=
  match s with
  | String c rest => if int_space c then lstrip rest else s
  | EmptyString => s
  end.

(** Digits with single underscores between them, then trailing white
    space only; [acc] is the value of the digits read so far and
    [after_digit] tells whether the previous character was a digit. *)
Fixpoint int_digits (s : string) (acc : Z) (after_digit : bool) : option Z :=
  match s with
  | EmptyString => if after_digit then Some acc else None
  | String c rest =>
      match digit_of c with
      | Some d => int_digits rest (10 * acc + d) true
      | None =>
          if Ascii.eqb c "_"%char then
            if after_digit then int_digits rest acc false else None
          else if int_space c then
            if after_digit then
              match lstrip rest with
              | EmptyString => Some acc
              | _ => None
              end
            else None
          else None
      end
  end.

(** [int(s)] in base ten; [ValueError] when [s] is not a number. *)
Definition int_of_str (s : string) : result Z :=
  let body :=
    match lstrip s with
    | String c rest =>
        if Ascii.eqb c "-"%char then option_map Z.opp (int_digits rest 0 false)
        else if Ascii.eqb c "+"%char then int_digits rest 0 false
        else int_digits (String c rest) 0 false
    | EmptyString => None
    end in
  match body with
  | Some n => Ok n
  | None => Raise ValueError
  end.

(** [seq[i]] on a list or tuple, negative indices counting from the end. *)
Definition py_index {A : Type} (l : list A) (i : Z) : result A :=
  let n := Z.of_nat (List.length l) in
  let j := if i <? 0 then i + n else i in
  if (j <? 0) || (n <=? j) then Raise IndexError
  else match nth_error l (Z.to_nat j) with
       | Some a => Ok a
       | None => Raise IndexError
       end.

(** ** ctypes structures

    A [ctypes.Structure] is a table from its field names to the integers
    they hold; a new structure is zero everywhere, and an assignment wraps
    the value to the C type of the field. *)

Section CStruct.
Context {field : Type}.
Variable field_beq : field -> field -> bool.
Variable ctype : field -> Z -> Z.

Definition cstruct : Type := field -> Z.

Definition cstruct_new : cstruct := fun _ => 0.

Definition setattr (s : cstruct) (f : field) (v : Z) : cstruct :=
    fun g => if field_beq g f then ctype f v else s g.
End CStruct.

Arguments cstruct field : clear implicits.

(** ** scc.constants

    The driver modules import their constants from the host; their
    values are not part of the drivers, so they are parameters here. *)

Module SCButtons.
Inductive t : Set :=
  | RPADTOUCH | LPADTOUCH | RPAD | LPAD | STICKPRESS | START | C | BACK
  | A | X | B | Y | LB | RB | LT | RT | CPADTOUCH | CPADPRESS.
End SCButtons.

Module HapticPos.
Inductive t : Set := LEFT | RIGHT | BOTH.
End HapticPos.

Class scc_constants : Type := {
  STICK_PAD_MIN : Z;
  STICK_PAD_MAX : Z;
  STICK_PAD_RES : Z;
  (** the integer of a member of the [SCButtons] enumeration *)
  flag : SCButtons.t -> Z
}.

(** ** The [math] module: [sin], [cos] and [pi] of the C library. *)

Class math : Type := {
  math_sin : Q -> Q;
  math_cos : Q -> Q;
  math_pi : Q
}.

(** ** The host's scheduler

    Modelled from the spec: the host framework (not part of the drivers)
    offers [schedule(delay_seconds, callback)], which returns a cancelable
    handle; canceling a task before it fires suppresses its effect
    entirely, and a task fires at most once.  [pending] holds the tasks
    scheduled by one controller that have neither fired nor been canceled;
    each of them is that controller's [clear_feedback] closure. *)

Record Task : Type := {
  handle : nat;
  delay : Q
}.

Record Scheduler : Type := {
  pending : list Task;
  next_handle : nat
}.

Definition Scheduler_new : Scheduler := {| pending := []; next_handle := O |}.

Definition schedule (d : Q) (sch : Scheduler) : Task * Scheduler :=
  let t := {| handle := next_handle sch; delay := d |} in
  (t, {| pending := pending sch ++ [t]; next_handle := S (next_handle sch) |}).

Definition same_task (t u : Task) : bool := (handle t =? handle u)%nat.

Definition cancel (t : Task) (sch : Scheduler) : Scheduler :=
  {| pending := filter (fun u => negb (same_task u t)) (pending sch);
     next_handle := next_handle sch |}.

(** The task [t] leaves the queue when it fires. *)
Definition fired (t : Task) (sch : Scheduler) : Scheduler := cancel t sch.

Definition is_pending (t : Task) (sch : Scheduler) : bool :=
  existsb (same_task t) (pending sch).

(** ** The host's mapper

    Modelled from the spec: the mapper accepts (old-state, new-state)
    pairs; [received] lists the pairs passed to [mapper.input], oldest
    first. *)

Record Mapper (State : Type) : Type := {
  received : list (State * State)
}.

Arguments received {State} m.

Definition Mapper_input {State : Type} (old new : State) (m : Mapper State)
  : Mapper State :=
  {| received := received m ++ [(old, new)] |}.

(** ** Haptic feedback requests: [data.data] is the tuple
    [(position, amplitude, period, count)]. *)

Record HapticData : Type := {
  position : HapticPos.t;
  amplitude : Z;
  period : Z;
  count : Z
}.

(** ** scc.drivers.hiddrv: the generic HID report decoder

    Modelled from the spec: the decode engine is an external service
    consumed as an opaque [decode(descriptor, raw_bytes) -> success] call
    that leaves the previous and the new controller state in the decoder.
    Of a decoded state the drivers touch the button bitmask only (a 32-bit
    field); [axes] stands for the rest of it. *)

Record HIDControllerInput : Type := {
  hid_buttons : Z;
  hid_axes : list Z
}.

Record HIDDecoder : Type := {
  old_state : HIDControllerInput;
  state : HIDControllerInput
}.

Class hiddrv : Type := {
  decode : HIDDecoder -> list Z -> bool * HIDDecoder
}.

Definition set_state_buttons (d : HIDDecoder) (b : Z) : HIDDecoder :=
  {| old_state := old_state d;
     state := {| hid_buttons := c_uint32 b; hid_axes := hid_axes (state d) |} |}.

(** ** scc.sccdaemon: the registry of connected controllers

    Modelled from the spec: the daemon exposes [get_active_ids],
    [add_controller] and [remove_controller]; a controller is known to it
    by its ID from [add_controller] until [remove_controller]. *)

Record SCCDaemon : Type := {
  controllers : list string
}.

Definition get_active_ids (daemon : SCCDaemon) : list string := controllers daemon.

Definition add_controller (id : string) (daemon : SCCDaemon) : SCCDaemon :=
  {| controllers := controllers daemon ++ [id] |}.

Fixpoint remove_first (id : string) (l : list string) : list string :=
  match l with
  | [] => []
  | x :: rest => if String.eqb x id then rest else x :: remove_first id rest
  end.

Definition remove_controller (id : string) (daemon : SCCDaemon) : SCCDaemon :=
  {| controllers := remove_first id (controllers daemon) |}.

(** ** ID generation, as every controller class of both drivers writes it

    [[
      magic_number = 1
      id = base
      while id in self.daemon.get_active_ids():
          id = "base:%s" % (magic_number,)
          magic_number += 1
      return id
    ]]
    [fuel] bounds the number of tests of the loop condition; [None] means
    that the bound was reached. *)

Definition str_of_nat (n : nat) : string :=
  DecimalString.NilEmpty.string_of_uint (Nat.to_uint n).

Definition py_in (id : string) (ids : list string) : bool :=
  existsb (String.eqb id) ids.

Fixpoint generate_id_loop (base : string) (active : list string) (fuel : nat)
    (id : string) (magic_number : nat) : option string :=
  match fuel with
  | O => None
  | S fuel' =>
      if py_in id active
      then generate_id_loop base active fuel'
             (base ++ ":" ++ str_of_nat magic_number) (S magic_number)
      else Some id
  end.

(** ** scc.drivers.evdevdrv and the evdev library

    Modelled from the spec: the kernel's event interface delivers events
    with a type, a code and a value; a sub-device's [read()] yields the
    events that are waiting and raises [OSError] when the device cannot be
    read.  The evdev controller base class holds the current state, an
    immutable snapshot that is replaced as a whole, and the mapper.  The
    event codes are those of the kernel's headers and are parameters
    here. *)

Module evdevdrv.

Record InputEvent : Type := {
  type : Z;
  code : Z;
  value : Z
}.

(** What iterating over [device.read()] gives: the events it yields, and
    whether it then raises [OSError] instead of finishing. *)
Record Read : Type := {
  events : list InputEvent;
  raises_OSError : bool
}.

Class ECODES : Type := {
  EV_ABS : Z;
  ABS_X : Z;
  ABS_Y : Z;
  ABS_Z : Z;
  ABS_RX : Z;
  ABS_RY : Z;
  ABS_RZ : Z;
  ABS_MT_POSITION_X : Z;
  ABS_MT_POSITION_Y : Z;
  BTN_LEFT : Z;
  BTN_TOUCH : Z
}.

(** The state snapshot (a named tuple of Python integers): the fields
    that the drivers replace, and the others. *)
Record ControllerInput : Type := {
  buttons : Z;
  cpad_x : Z;
  cpad_y : Z;
  gpitch : Z;
  groll : Z;
  gyaw : Z;
  others : list Z
}.

(** The fields that the gyro table names. *)
Inductive axis : Set := axis_gpitch | axis_gyaw | axis_groll.

(** [state._replace] with the keyword argument named by [a] set to [v] *)
Definition replace_axis (a : axis) (v : Z) (s : ControllerInput) : ControllerInput :=
  match a with
  | axis_gpitch =>
      {| buttons := buttons s; cpad_x := cpad_x s; cpad_y := cpad_y s;
         gpitch := v; groll := groll s; gyaw := gyaw s; others := others s |}
  | axis_gyaw =>
      {| buttons := buttons s; cpad_x := cpad_x s; cpad_y := cpad_y s;
         gpitch := gpitch s; groll := groll s; gyaw := v; others := others s |}
  | axis_groll =>
      {| buttons := buttons s; cpad_x := cpad_x s; cpad_y := cpad_y s;
         gpitch := gpitch s; groll := v; gyaw := gyaw s; others := others s |}
  end.

(** [state._replace(cpad_x=v)], [state._replace(cpad_y=v)],
    [state._replace(buttons=b)] and
    [state._replace(buttons=b, cpad_x=x, cpad_y=y)] *)
Definition replace_cpad_x (v : Z) (s : ControllerInput) : ControllerInput :=
  {| buttons := buttons s; cpad_x := v; cpad_y := cpad_y s;
     gpitch := gpitch s; groll := groll s; gyaw := gyaw s; others := others s |}.

Definition replace_cpad_y (v : Z) (s : ControllerInput) : ControllerInput :=
  {| buttons := buttons s; cpad_x := cpad_x s; cpad_y := v;
     gpitch := gpitch s; groll := groll s; gyaw := gyaw s; others := others s |}.

Definition replace_buttons (b : Z) (s : ControllerInput) : ControllerInput :=
  {| buttons := b; cpad_x := cpad_x s; cpad_y := cpad_y s;
     gpitch := gpitch s; groll := groll s; gyaw := gyaw s; others := others s |}.

Definition replace_buttons_cpad (b x y : Z) (s : ControllerInput) : ControllerInput :=
  {| buttons := b; cpad_x := x; cpad_y := y;
     gpitch := gpitch s; groll := groll s; gyaw := gyaw s; others := others s |}.

(** class EvdevController: the attributes that the drivers use. *)
Module EvdevController.
Record t : Type := {
  _state : ControllerInput;
  mapper : option (Mapper ControllerInput)
}.
End EvdevController.

(** An exception that a handler lets through. *)
Inductive raised : Set :=
| KeyError (key : Z).

(** The value of a dictionary display [{k1: v1, k2: v2, ...}] at [key]:
    of the entries with that key, the last one written. *)
Definition display_get {V : Type} (display : list (Z * V)) (key : Z) : option V :=
  option_map snd (find (fun kv => fst kv =? key) (rev display)).

(** An evdev node as the registration code sees it: its physical address
    and the axes that [get_axes] reports for it. *)
Record InputDevice : Type := {
  phys : string;
  get_axes : list Z
}.

End evdevdrv.

(** ** Python strings: [str.split(sep)[0]] and [str.startswith] *)

(** [s.split(sep)[0]] for a one-character [sep]: the text before the
    first occurrence of [sep], all of [s] when there is none. *)
Fixpoint split_first (sep : ascii) (s : string) : string :=
  match s with
  | EmptyString => EmptyString
  | String c rest =>
      if Ascii.eqb c sep then EmptyString else String c (split_first sep rest)
  end.

(** [s.startswith(p)] *)
Definition startswith (s p : string) : bool := String.prefix p s.

(** * ds5drv.py *)

Module ds5drv.

Definition OPERATING_MODE_DS5_BT : Z := 0x31.

Module OperatingMode.
Definition DS4_COMPATIBILITY_MODE : Z := Z.shiftl 1 0.
Definition DS5_MODE : Z := Z.shiftl 1 1.
Definition DS5_MODE_BT : Z :=
      Z.lor (Z.lor (Z.shiftl 1 5) (Z.shiftl 1 4)) (Z.shiftl 1 0).
End OperatingMode.

Module PhysicalEffectControl.
Definition ENABLE_HAPTICS : Z := Z.lor (Z.shiftl 1 0) (Z.shiftl 1 1).
Definition TRIGGER_EFFECTS_RIGHT : Z := Z.shiftl 1 2.
Definition TRIGGER_EFFECTS_LEFT : Z := Z.shiftl 1 3.
End PhysicalEffectControl.

Module LightEffectControl.
Definition MIC_MUTE_LED_CONTROL_ENABLE : Z := Z.shiftl 1 0.
Definition POWER_SAVE_CONTROL_ENABLE : Z := Z.shiftl 1 1.
Definition LIGHTBAR_CONTROL_ENABLE : Z := Z.shiftl 1 2.
Definition RELEASE_LEDS : Z := Z.shiftl 1 3.
Definition PLAYER_INDICATOR_CONTROL_ENABLE : Z := Z.shiftl 1 4.
End LightEffectControl.

  (** A slot of a structure layout: a scalar field, or an array of [n]
      bytes that the driver never assigns. *)
Inductive slot (field : Type) : Type :=
  | Scalar (f : field)
  | Array (n : nat).
Arguments Scalar {field} f.
Arguments Array {field} n.

  (** [bytearray(structure)]: the bytes of the fields in layout order. *)
Definition bytearray {field : Type} (layout : list (slot field))
      (s : cstruct field) : list Z :=
    flat_map (fun sl => match sl with
                        | Scalar f => [c_ubyte (s f)]
                        | Array n => repeat 0 n
                        end) layout.

  (** *** class DualSenseHIDOutput (USB output report) *)
Module DualSenseHIDOutput.
Inductive field : Set :=
    | operating_mode | physical_effect_control | light_effect_control
    | motor_right | motor_left | mute_button_led | power_save_control
    | lightbar_control | lightbar_setup | led_brightness | player_leds
    | lightbar_red | lightbar_green | lightbar_blue.

Scheme Equality for field.

Definition _fields_ : list (slot field) :=
      [ Scalar operating_mode; Scalar physical_effect_control;
        Scalar light_effect_control;
        Scalar motor_right; Scalar motor_left;
        Array 4; Scalar mute_button_led; Scalar power_save_control;
        Array 11; Array 11;
        Array 8;
        Scalar lightbar_control; Scalar lightbar_setup; Scalar led_brightness;
        Scalar player_leds; Scalar lightbar_red; Scalar lightbar_green;
        Scalar lightbar_blue ].

Definition t : Type := cstruct field.
Definition new : t := cstruct_new.
Definition set : t -> field -> Z -> t := setattr field_beq (fun _ => c_ubyte).
End DualSenseHIDOutput.

  (** *** class DualSenseHIDOutputBT (Bluetooth output report, 78 bytes) *)
Module DualSenseHIDOutputBT.
Inductive field : Set :=
    | operating_mode | data_id_byte | physical_effect_control
    | light_effect_control | motor_right | motor_left | mute_button_led
    | power_save_control | brightlite | lightbar_control | led_brightness
    | player_leds | lightbar_red | lightbar_green | lightbar_blue.

Scheme Equality for field.

Definition _fields_ : list (slot field) :=
      [ Scalar operating_mode; Scalar data_id_byte;
        Scalar physical_effect_control; Scalar light_effect_control;
        Scalar motor_right; Scalar motor_left;
        Array 4; Scalar mute_button_led; Scalar power_save_control;
        Array 11; Array 11;
        Array 6;
        Scalar brightlite; Array 2;
        Scalar lightbar_control; Scalar led_brightness;
        Scalar player_leds; Scalar lightbar_red; Scalar lightbar_green;
        Scalar lightbar_blue;
        Array 25; Array 4 ].

Definition c_byte (z : Z) : Z := (z + 2 ^ 7) mod 2 ^ 8 - 2 ^ 7.

Definition t : Type := cstruct field.
Definition new : t := cstruct_new.
Definition set : t -> field -> Z -> t := setattr field_beq (fun _ => c_byte).
End DualSenseHIDOutputBT.

  (** *** class DualSenseBTControllerInput (decoded controller state) *)
Module DualSenseBTControllerInput.
Inductive field : Set :=
    | type | buttons | ltrig | rtrig
    | stick_x | stick_y | lpad_x | lpad_y | rpad_x | rpad_y
    | accel_x | accel_y | accel_z | gpitch | groll | gyaw
    | q1 | q2 | q3 | q4 | cpad_x | cpad_y.

Scheme Equality for field.

Definition ctype (f : field) : Z -> Z :=
      match f with
      | type | cpad_x | cpad_y => c_uint16
      | buttons => c_uint32
      | ltrig | rtrig => c_ubyte
      | _ => c_int32
      end.

Definition t : Type := cstruct field.
Definition new : t := cstruct_new.
Definition set : t -> field -> Z -> t := setattr field_beq ctype.
End DualSenseBTControllerInput.

Definition ICON_COLORS : list (Q * Q * Q) :=
    [ (0, 1, 0);
      (0, 0, 1);
      (1, 0, 0);
      (1, 1, 0);
      (0, 1, 1);
      (1, 4 # 10, 0);
      (1, 0, 1) ]%Q.

(** *** class DS5Controller (USB) *)

Module DS5Controller.

(** A value of the [_outputs] dictionary: the controller's own
    [_feedback_output] object (staged by reference, so later writes to
    its fields show in the staged entry), or a structure built for the
    occasion. *)
Inductive output : Type :=
| the_feedback_output
| fresh_output (o : DualSenseHIDOutput.t).

Record t : Type := {
  _outputs : dict output;
  _feedback_output : DualSenseHIDOutput.t;
  _feedback_cancel_task : option Task;
  _decoder : HIDDecoder;
  mapper : option (Mapper HIDControllerInput);
  scheduler : Scheduler
}.

Definition set_outputs (v : dict output) (self : t) : t :=
  {| _outputs := v; _feedback_output := _feedback_output self;
     _feedback_cancel_task := _feedback_cancel_task self;
     _decoder := _decoder self; mapper := mapper self;
     scheduler := scheduler self |}.

Definition set_feedback_output (v : DualSenseHIDOutput.t) (self : t) : t :=
  {| _outputs := _outputs self; _feedback_output := v;
     _feedback_cancel_task := _feedback_cancel_task self;
     _decoder := _decoder self; mapper := mapper self;
     scheduler := scheduler self |}.

Definition set_feedback_cancel_task (v : option Task) (self : t) : t :=
  {| _outputs := _outputs self; _feedback_output := _feedback_output self;
     _feedback_cancel_task := v;
     _decoder := _decoder self; mapper := mapper self;
     scheduler := scheduler self |}.

Definition set_decoder (v : HIDDecoder) (self : t) : t :=
  {| _outputs := _outputs self; _feedback_output := _feedback_output self;
     _feedback_cancel_task := _feedback_cancel_task self;
     _decoder := v; mapper := mapper self;
     scheduler := scheduler self |}.

Definition set_mapper (v : option (Mapper HIDControllerInput)) (self : t) : t :=
  {| _outputs := _outputs self; _feedback_output := _feedback_output self;
     _feedback_cancel_task := _feedback_cancel_task self;
     _decoder := _decoder self; mapper := v;
     scheduler := scheduler self |}.

Definition set_scheduler (v : Scheduler) (self : t) : t :=
  {| _outputs := _outputs self; _feedback_output := _feedback_output self;
     _feedback_cancel_task := _feedback_cancel_task self;
     _decoder := _decoder self; mapper := mapper self;
     scheduler := v |}.

(** The attributes set by [__init__]. *)
Definition init (decoder : HIDDecoder) : t :=
  {| _outputs := [];
     _feedback_output :=
       DualSenseHIDOutput.set
         (DualSenseHIDOutput.set
            (DualSenseHIDOutput.set
               (DualSenseHIDOutput.set DualSenseHIDOutput.new
                  DualSenseHIDOutput.operating_mode OperatingMode.DS5_MODE)
               DualSenseHIDOutput.physical_effect_control
               PhysicalEffectControl.ENABLE_HAPTICS)
            DualSenseHIDOutput.motor_left 0)
         DualSenseHIDOutput.motor_right 0;
     _feedback_cancel_task := None;
     _decoder := decoder;
     mapper := None;
     scheduler := Scheduler_new |}.

Section Methods.
Context {K : scc_constants} {H : hiddrv}.
Local Open Scope py_scope.

Definition schedule_output (output_id : string) (o : output) : M t unit :=
  modify (fun self => set_outputs (dict_set (_outputs self) output_id o) self).

(** [self.mapper.schedule(duration, callback)]: [AttributeError] when no
    mapper is attached. *)
Definition mapper_schedule (duration : Q) : M t Task :=
  self <- get ;;
  match mapper self with
  | None => raise AttributeError
  | Some _ =>
      let '(task, sch) := schedule duration (scheduler self) in
      put (set_scheduler sch self) ;;;
      ret task
  end.

Definition input (endpoint : Z) (data : list Z) : M t unit :=
  self <- get ;;
  let '(ok, decoder) := decode (_decoder self) data in
  put (set_decoder decoder self) ;;;
  if ok then
    match mapper self with
    | Some m =>
        d33 <- lift (getitem data 33) ;;
        (if negb (Z.shiftr d33 7 =? 0) then
           (* cpad is not touched *)
           modify (fun self =>
             set_decoder (set_state_buttons (_decoder self)
               (Z.land (hid_buttons (state (_decoder self)))
                       (Z.lnot (flag SCButtons.CPADTOUCH)))) self)
         else
           modify (fun self =>
             set_decoder (set_state_buttons (_decoder self)
               (Z.lor (hid_buttons (state (_decoder self)))
                      (flag SCButtons.CPADTOUCH))) self)) ;;;
        modify (fun self =>
          set_mapper (Some (Mapper_input (old_state (_decoder self))
                                         (state (_decoder self)) m)) self)
    | None => ret tt
    end
  else ret tt.

Definition set_motor (f : DualSenseHIDOutput.field) (v : Z) : M t unit :=
  modify (fun self =>
    set_feedback_output (DualSenseHIDOutput.set (_feedback_output self) f v) self).

(** The closure [clear_feedback] that [feedback] hands to the scheduler. *)
Definition clear_feedback : M t unit :=
  set_motor DualSenseHIDOutput.motor_right 0 ;;;
  set_motor DualSenseHIDOutput.motor_left 0 ;;;
  schedule_output "feedback" the_feedback_output.

Definition feedback (data : HapticData) : M t unit :=
  let normalized_amp := (inject_Z (amplitude data) / 0x8000)%Q in
  let clamped_amp := py_int (normalized_amp * 0xff)%Q in
  let half_amp := py_int (normalized_amp * 0x80)%Q in
  match position data with
  | HapticPos.LEFT =>
      (* NOTE: the left motor is heavier, so we must give it less oomph *)
      set_motor DualSenseHIDOutput.motor_left half_amp
  | HapticPos.RIGHT =>
      set_motor DualSenseHIDOutput.motor_right clamped_amp
  | HapticPos.BOTH =>
      set_motor DualSenseHIDOutput.motor_right clamped_amp ;;;
      set_motor DualSenseHIDOutput.motor_left half_amp
  end ;;;
  let duration := (inject_Z (period data) * inject_Z (count data) / 0x10000)%Q in
  (* The motors don't seem to perform reliably when shut off under 20ms *)
  let duration := py_max duration 0.02%Q in
  schedule_output "feedback" the_feedback_output ;;;
  self <- get ;;
  match _feedback_cancel_task self with
  | Some task => put (set_scheduler (cancel task (scheduler self)) self)
  | None => ret tt
  end ;;;
  task <- mapper_schedule duration ;;
  modify (set_feedback_cancel_task (Some task)).

(** The scheduler runs the task [task] when its delay has elapsed,
    unless it was canceled (or has fired) before. *)
Definition timer_fires (task : Task) : M t unit :=
  self <- get ;;
  if is_pending task (scheduler self) then
    put (set_scheduler (fired task (scheduler self)) self) ;;;
    clear_feedback
  else ret tt.

(** [basename, ext = icon.rsplit('.', 1)]: unpacking a list that has not
    two elements raises [ValueError]. *)
Definition unpack2 (l : list string) : result (string * string) :=
  match l with
  | [a; b] => Ok (a, b)
  | _ => Raise ValueError
  end.

(** [configure]: the colors are the decimal literals of the source
    (as fractions, made floats where they are used); the channels are
    computed on binary64, the red one first. *)
Definition configure (icon : option string) (led_level : number) : M t unit :=
  let lightbar_color := (0.0, 0.0, 1.0)%Q in (* blue by default *)
  lightbar_color <-
    match icon with
    | None | Some EmptyString => ret lightbar_color
    | Some icon =>
        split <- lift (unpack2 (rsplit1 "." icon)) ;;
        let '(basename, ext) := split in
        let parts := rsplit1 "-" basename in
        match parts with
        | [] => ret lightbar_color
        | _ =>
            raw_idx <- lift (py_index parts (-1)) ;;
            match int_of_str raw_idx with
            | Raise ValueError => ret lightbar_color
            | Raise e => raise e
            | Ok icon_idx =>
                if icon_idx <? Z.of_nat (List.length ICON_COLORS)
                then lift (py_index ICON_COLORS icon_idx)
                else ret lightbar_color
            end
        end
    end ;;
  float_led_level <- lift (py_float led_level) ;;
  let led_level_norm := binary64.div float_led_level (binary64.of_Z 100) in
  let to_byte := fun color_norm : Q =>
    binary64.to_int
      (binary64.mul (binary64.mul (binary64.literal color_norm) led_level_norm)
         (binary64.of_Z 255)) in
  let '(red, green, blue) := lightbar_color in
  red <- lift (to_byte red) ;;
  green <- lift (to_byte green) ;;
  blue <- lift (to_byte blue) ;;
  let lightbar_color_bytes := (red, green, blue) in
  let output :=
    DualSenseHIDOutput.set
      (DualSenseHIDOutput.set
         (DualSenseHIDOutput.set
            (DualSenseHIDOutput.set
               (DualSenseHIDOutput.set DualSenseHIDOutput.new
                  DualSenseHIDOutput.operating_mode OperatingMode.DS5_MODE)
               DualSenseHIDOutput.light_effect_control
               LightEffectControl.LIGHTBAR_CONTROL_ENABLE)
            DualSenseHIDOutput.lightbar_red (fst (fst lightbar_color_bytes)))
         DualSenseHIDOutput.lightbar_green (snd (fst lightbar_color_bytes)))
      DualSenseHIDOutput.lightbar_blue (snd lightbar_color_bytes) in
  schedule_output "lightbar" (fresh_output output).

(** [fuel] bounds the iterations of the loop; see [generate_id_loop]. *)
Definition _generate_id (daemon : SCCDaemon) : option string :=
  let active := get_active_ids daemon in
  generate_id_loop "ds5" active (S (List.length active)) "ds5" 1.

(** The structure behind a staged entry when [flush] serializes it. *)
Definition resolve (self : t) (o : output) : DualSenseHIDOutput.t :=
  match o with
  | the_feedback_output => _feedback_output self
  | fresh_output o => o
  end.

(** [flush], after the base class's own flush (the host's): pops every
    staged record and writes it, padded to 64 bytes, to endpoint 3.  The
    value returned lists the calls [self.handle.interruptWrite(endpoint,
    data)] in the order in which they are made. *)
Definition flush : M t (list (Z * list Z)) :=
  self <- get ;;
  let writes :=
    map (fun '(output_id, output) =>
           let data :=
             ljust 64 0 (bytearray DualSenseHIDOutput._fields_
                           (resolve self output)) in
           (3, data))
        (popitems (_outputs self)) in
  put (set_outputs [] self) ;;;
  ret writes.

End Methods.
End DS5Controller.

(** *** class DS5HidRawController (Bluetooth, raw HID) *)

Module DS5HidRawController.

Record _DPadOutputValues : Type := {
  x : Z;
  y : Z
}.

Definition Quat : Type := (Q * Q * Q * Q)%type.

(** [_hidrawdev] is the log of the frames written to the raw HID node,
    oldest first. *)
Record t : Type := {
  _feedback_output : DualSenseHIDOutputBT.t;
  _feedback_cancel_task : option Task;
  _outputs : dict (list Z);
  _old_state : DualSenseBTControllerInput.t;
  _previous_quat : Quat;
  _delta_time : Q;
  _previous_time : Q;
  _hidrawdev : list (list Z);
  mapper : option (Mapper DualSenseBTControllerInput.t);
  scheduler : Scheduler
}.

Definition set_feedback_output (v : DualSenseHIDOutputBT.t) (self : t) : t :=
  {| _feedback_output := v;
     _feedback_cancel_task := _feedback_cancel_task self;
     _outputs := _outputs self; _old_state := _old_state self;
     _previous_quat := _previous_quat self; _delta_time := _delta_time self;
     _previous_time := _previous_time self; _hidrawdev := _hidrawdev self;
     mapper := mapper self; scheduler := scheduler self |}.

Definition set_feedback_cancel_task (v : option Task) (self : t) : t :=
  {| _feedback_output := _feedback_output self;
     _feedback_cancel_task := v;
     _outputs := _outputs self; _old_state := _old_state self;
     _previous_quat := _previous_quat self; _delta_time := _delta_time self;
     _previous_time := _previous_time self; _hidrawdev := _hidrawdev self;
     mapper := mapper self; scheduler := scheduler self |}.

Definition set_outputs (v : dict (list Z)) (self : t) : t :=
  {| _feedback_output := _feedback_output self;
     _feedback_cancel_task := _feedback_cancel_task self;
     _outputs := v; _old_state := _old_state self;
     _previous_quat := _previous_quat self; _delta_time := _delta_time self;
     _previous_time := _previous_time self; _hidrawdev := _hidrawdev self;
     mapper := mapper self; scheduler := scheduler self |}.

Definition set_old_state (v : DualSenseBTControllerInput.t) (self : t) : t :=
  {| _feedback_output := _feedback_output self;
     _feedback_cancel_task := _feedback_cancel_task self;
     _outputs := _outputs self; _old_state := v;
     _previous_quat := _previous_quat self; _delta_time := _delta_time self;
     _previous_time := _previous_time self; _hidrawdev := _hidrawdev self;
     mapper := mapper self; scheduler := scheduler self |}.

Definition set_previous_quat (v : Quat) (self : t) : t :=
  {| _feedback_output := _feedback_output self;
     _feedback_cancel_task := _feedback_cancel_task self;
     _outputs := _outputs self; _old_state := _old_state self;
     _previous_quat := v; _delta_time := _delta_time self;
     _previous_time := _previous_time self; _hidrawdev := _hidrawdev self;
     mapper := mapper self; scheduler := scheduler self |}.

Definition set_delta_time (v : Q) (self : t) : t :=
  {| _feedback_output := _feedback_output self;
     _feedback_cancel_task := _feedback_cancel_task self;
     _outputs := _outputs self; _old_state := _old_state self;
     _previous_quat := _previous_quat self; _delta_time := v;
     _previous_time := _previous_time self; _hidrawdev := _hidrawdev self;
     mapper := mapper self; scheduler := scheduler self |}.

Definition set_previous_time (v : Q) (self : t) : t :=
  {| _feedback_output := _feedback_output self;
     _feedback_cancel_task := _feedback_cancel_task self;
     _outputs := _outputs self; _old_state := _old_state self;
     _previous_quat := _previous_quat self; _delta_time := _delta_time self;
     _previous_time := v; _hidrawdev := _hidrawdev self;
     mapper := mapper self; scheduler := scheduler self |}.

Definition set_hidrawdev (v : list (list Z)) (self : t) : t :=
  {| _feedback_output := _feedback_output self;
     _feedback_cancel_task := _feedback_cancel_task self;
     _outputs := _outputs self; _old_state := _old_state self;
     _previous_quat := _previous_quat self; _delta_time := _delta_time self;
     _previous_time := _previous_time self; _hidrawdev := v;
     mapper := mapper self; scheduler := scheduler self |}.

Definition set_mapper (v : option (Mapper DualSenseBTControllerInput.t))
    (self : t) : t :=
  {| _feedback_output := _feedback_output self;
     _feedback_cancel_task := _feedback_cancel_task self;
     _outputs := _outputs self; _old_state := _old_state self;
     _previous_quat := _previous_quat self; _delta_time := _delta_time self;
     _previous_time := _previous_time self; _hidrawdev := _hidrawdev self;
     mapper := v; scheduler := scheduler self |}.

Definition set_scheduler (v : Scheduler) (self : t) : t :=
  {| _feedback_output := _feedback_output self;
     _feedback_cancel_task := _feedback_cancel_task self;
     _outputs := _outputs self; _old_state := _old_state self;
     _previous_quat := _previous_quat self; _delta_time := _delta_time self;
     _previous_time := _previous_time self; _hidrawdev := _hidrawdev self;
     mapper := mapper self; scheduler := v |}.

(** The attributes set by [__init__]; [t0] and [t1] are its two readings
    of the clock. *)
Definition init (t0 t1 : Q) : t :=
  {| _feedback_output :=
       DualSenseHIDOutputBT.set
         (DualSenseHIDOutputBT.set
            (DualSenseHIDOutputBT.set
               (DualSenseHIDOutputBT.set
                  (DualSenseHIDOutputBT.set DualSenseHIDOutputBT.new
                     DualSenseHIDOutputBT.operating_mode OperatingMode.DS5_MODE_BT)
                  DualSenseHIDOutputBT.data_id_byte 0x02)
               DualSenseHIDOutputBT.physical_effect_control
               PhysicalEffectControl.ENABLE_HAPTICS)
            DualSenseHIDOutputBT.motor_left 0)
         DualSenseHIDOutputBT.motor_right 0;
     _feedback_cancel_task := None;
     _outputs := [];
     (* Use empty struct for starting state *)
     _old_state := DualSenseBTControllerInput.new;
     _previous_quat := (1.0, 0.0, 0.0, 0.0)%Q;
     _delta_time := t0;
     _previous_time := t1;
     _hidrawdev := [];
     mapper := None;
     scheduler := Scheduler_new |}.

(** The initialisation record that [_set_operational] builds and sends. *)
Definition init_output : DualSenseHIDOutputBT.t :=
  DualSenseHIDOutputBT.set
    (DualSenseHIDOutputBT.set
       (DualSenseHIDOutputBT.set
          (DualSenseHIDOutputBT.set
             (DualSenseHIDOutputBT.set
                (DualSenseHIDOutputBT.set DualSenseHIDOutputBT.new
                   DualSenseHIDOutputBT.operating_mode OperatingMode.DS5_MODE_BT)
                DualSenseHIDOutputBT.data_id_byte 0x02)
             DualSenseHIDOutputBT.light_effect_control 0x55)
          DualSenseHIDOutputBT.lightbar_red 0)
       DualSenseHIDOutputBT.lightbar_green 0)
    DualSenseHIDOutputBT.lightbar_blue 200.

(** Leading byte not included in sent output report data. *)
Definition BT_CRC32_HEAD : list Z := [0xA2].

Definition _prepare_buffer_crc (buf : list Z) : result (list Z) :=
  let calcCrc32 := Z.land (zlib.crc32 BT_CRC32_HEAD 0) 0xFFFFFFFF in
  let calcCrc32 := Z.land (zlib.crc32 (firstn 74 buf) calcCrc32) 0xFFFFFFFF in
  result_bind (setitem buf 74 (Z.land calcCrc32 0xFF)) (fun buf =>
  result_bind (setitem buf 75 (Z.land (Z.shiftr calcCrc32 8) 0xFF)) (fun buf =>
  result_bind (setitem buf 76 (Z.land (Z.shiftr calcCrc32 16) 0xFF)) (fun buf =>
  setitem buf 77 (Z.land (Z.shiftr calcCrc32 24) 0xFF)))).

Section Methods.
Context {K : scc_constants} {libm : math}.
Local Open Scope py_scope.

(** (x, y) values *)
Definition DPAD_STATE_TYPES : list (Z * _DPadOutputValues) :=
  [ (0, {| x := 0; y := STICK_PAD_MAX |});             (* Up *)
    (1, {| x := STICK_PAD_MAX; y := STICK_PAD_MAX |}); (* UpRight *)
    (2, {| x := STICK_PAD_MAX; y := 0 |});             (* Right *)
    (3, {| x := STICK_PAD_MAX; y := STICK_PAD_MIN |}); (* DownRight *)
    (4, {| x := 0; y := STICK_PAD_MIN |});             (* Down *)
    (5, {| x := STICK_PAD_MIN; y := STICK_PAD_MIN |}); (* DownLeft *)
    (6, {| x := STICK_PAD_MIN; y := 0 |});             (* Left *)
    (7, {| x := STICK_PAD_MIN; y := STICK_PAD_MAX |}); (* UpLeft *)
    (8, {| x := 0; y := 0 |}) ].                       (* Centered *)

Definition DPAD_CENTERED_STATE : _DPadOutputValues := {| x := 0; y := 0 |}.

(** [table.get(key, default)] *)
Fixpoint dict_get_default {V : Type} (table : list (Z * V)) (key : Z)
    (default : V) : V :=
  match table with
  | [] => default
  | (k, v) :: rest => if k =? key then v else dict_get_default rest key default
  end.

Definition schedule_output (output_id : string) (output : list Z) : M t unit :=
  modify (fun self => set_outputs (dict_set (_outputs self) output_id output) self).

(** [flush]: pops every staged record and writes it to the raw HID node. *)
Definition flush : M t unit :=
  modify (fun self =>
    set_outputs []
      (set_hidrawdev (_hidrawdev self ++ map snd (popitems (_outputs self))) self)).

Definition _stick_axis_scale (value : Z) (invert : bool) : Z :=
  let result := value - 128 in
  let tempRatio :=
    if 128 <=? value then (inject_Z result / 127.0)%Q
    else (inject_Z result / 128.0)%Q in
  let tempRatio := if invert then (- tempRatio)%Q else tempRatio in
  let tempRatio := ((tempRatio + 1.0) * 0.5)%Q in
  let result :=
    py_int (tempRatio * inject_Z STICK_PAD_RES + inject_Z STICK_PAD_MIN)%Q in
  result.

Definition _calculate_quaternion (state : DualSenseBTControllerInput.t)
  : M t DualSenseBTControllerInput.t :=
  self <- get ;;
  (* Convert raw gyro values to degrees per second *)
  let GYRO_RES_IN_DEG_SEC := 16%Q in
  let yaw := (inject_Z (state DualSenseBTControllerInput.gyaw) / GYRO_RES_IN_DEG_SEC)%Q in
  let pitch := (inject_Z (state DualSenseBTControllerInput.gpitch) / GYRO_RES_IN_DEG_SEC)%Q in
  let roll := (inject_Z (state DualSenseBTControllerInput.groll) / GYRO_RES_IN_DEG_SEC)%Q in
  (* Remove time delta element to get gyro angles and convert to radians *)
  let yaw := (yaw * _delta_time self)%Q in
  let yaw_rad := (yaw * math_pi / 180.0)%Q in
  let pitch := (pitch * _delta_time self)%Q in
  let pitch_rad := (pitch * math_pi / 180.0)%Q in
  let roll := (roll * _delta_time self)%Q in
  let roll_rad := (roll * math_pi / 180.0)%Q in
  (* qx (Roll), qy (Pitch), qz (Yaw), qw (Theta) *)
  let qx := (math_sin (roll_rad/2) * math_cos (pitch_rad/2) * math_cos (yaw_rad/2)
             - math_cos (roll_rad/2) * math_sin (pitch_rad/2) * math_sin (yaw_rad/2))%Q in
  let qy := (math_cos (roll_rad/2) * math_sin (pitch_rad/2) * math_cos (yaw_rad/2)
             + math_sin (roll_rad/2) * math_cos (pitch_rad/2) * math_sin (yaw_rad/2))%Q in
  let qz := (math_cos (roll_rad/2) * math_cos (pitch_rad/2) * math_sin (yaw_rad/2)
             - math_sin (roll_rad/2) * math_sin (pitch_rad/2) * math_cos (yaw_rad/2))%Q in
  let qw := (math_cos (roll_rad/2) * math_cos (pitch_rad/2) * math_cos (yaw_rad/2)
             + math_sin (roll_rad/2) * math_sin (pitch_rad/2) * math_sin (yaw_rad/2))%Q in
  (* Multiply previous calculated quaternion by new quaternion *)
  let '(old_qw, old_qx, old_qy, old_qz) := _previous_quat self in
  let Q0Q1_w := (old_qw * qw - old_qx * qx - old_qy * qy - old_qz * qz)%Q in
  let Q0Q1_x := (old_qw * qx + old_qx * qw + old_qy * qz - old_qz * qy)%Q in
  let Q0Q1_y := (old_qw * qy - old_qx * qz + old_qy * qw + old_qz * qx)%Q in
  let Q0Q1_z := (old_qw * qz + old_qx * qy - old_qy * qx + old_qz * qw)%Q in
  (* q1 (Theta), q2 (Pitch), q3 (Roll), q4 (Yaw) *)
  let state := DualSenseBTControllerInput.set state DualSenseBTControllerInput.q1
                 (py_int (Q0Q1_w * 32767.0)%Q) in
  let state := DualSenseBTControllerInput.set state DualSenseBTControllerInput.q2
                 (py_int (Q0Q1_y * 32767.0)%Q) in
  let state := DualSenseBTControllerInput.set state DualSenseBTControllerInput.q3
                 (py_int (Q0Q1_x * 32767.0)%Q) in
  (* Invert Yaw to match Steam Controller *)
  let state := DualSenseBTControllerInput.set state DualSenseBTControllerInput.q4
                 (py_int (Q0Q1_z * -32767.0)%Q) in
  (* Store calculated quaternion for next poll *)
  put (set_previous_quat (Q0Q1_w, Q0Q1_x, Q0Q1_y, Q0Q1_z) self) ;;;
  ret state.

(** [state.buttons |= m] *)
Definition ior_buttons (state : DualSenseBTControllerInput.t) (m : Z)
  : DualSenseBTControllerInput.t :=
  DualSenseBTControllerInput.set state DualSenseBTControllerInput.buttons
    (Z.lor (state DualSenseBTControllerInput.buttons) m).

(** [(tempbyte & (1 << n)) != 0] *)
Definition bit_is_set (tempbyte : Z) (n : Z) : bool :=
  negb (Z.land tempbyte (Z.shiftl 1 n) =? 0).

(** [if (tempbyte & (1 << n)) != 0: state.buttons |= b] *)
Definition button_bit (tempbyte n : Z) (b : SCButtons.t)
    (state : DualSenseBTControllerInput.t) : DualSenseBTControllerInput.t :=
  if bit_is_set tempbyte n then ior_buttons state (flag b) else state.

(** [ctypes.c_int16((hi << 8) | lo).value] *)
Definition int16_le (hi lo : Z) : Z := c_int16 (Z.lor (Z.shiftl hi 8) lo).

Definition _convert_input_data (data : list Z)
  : M t DualSenseBTControllerInput.t :=
  let set := DualSenseBTControllerInput.set in
  let state := DualSenseBTControllerInput.new in
  d <- lift (getitem data 2) ;;
  let state := set state DualSenseBTControllerInput.stick_x (_stick_axis_scale d false) in
  d <- lift (getitem data 3) ;;
  let state := set state DualSenseBTControllerInput.stick_y (_stick_axis_scale d true) in
  d <- lift (getitem data 4) ;;
  let state := set state DualSenseBTControllerInput.rpad_x (_stick_axis_scale d false) in
  d <- lift (getitem data 5) ;;
  let state := set state DualSenseBTControllerInput.rpad_y (_stick_axis_scale d true) in
  d <- lift (getitem data 6) ;;
  let state := set state DualSenseBTControllerInput.ltrig d in
  d <- lift (getitem data 7) ;;
  let state := set state DualSenseBTControllerInput.rtrig d in
  tempbyte <- lift (getitem data 9) ;;
  let state := button_bit tempbyte 7 SCButtons.Y state in
  let state := button_bit tempbyte 6 SCButtons.B state in
  let state := button_bit tempbyte 5 SCButtons.A state in
  let state := button_bit tempbyte 4 SCButtons.X state in
  d <- lift (getitem data 9) ;;
  let dpad_state := Z.land d 0x0F in
  let state :=
    if negb (dpad_state =? 8) then
      let state := ior_buttons state
                     (Z.lor (flag SCButtons.LPAD) (flag SCButtons.LPADTOUCH)) in
      let tempDPad := dict_get_default DPAD_STATE_TYPES dpad_state
                        DPAD_CENTERED_STATE in
      let state := set state DualSenseBTControllerInput.lpad_x (x tempDPad) in
      set state DualSenseBTControllerInput.lpad_y (y tempDPad)
    else state in
  tempbyte <- lift (getitem data 10) ;;
  let state := button_bit tempbyte 7 SCButtons.RPAD state in
  let state := button_bit tempbyte 6 SCButtons.STICKPRESS state in
  let state := button_bit tempbyte 5 SCButtons.START state in
  let state := button_bit tempbyte 4 SCButtons.BACK state in
  let state := button_bit tempbyte 3 SCButtons.RT state in
  let state := button_bit tempbyte 2 SCButtons.LT state in
  let state := button_bit tempbyte 1 SCButtons.RB state in
  let state := button_bit tempbyte 0 SCButtons.LB state in
  tempbyte <- lift (getitem data 11) ;;
  let state := button_bit tempbyte 0 SCButtons.C state in
  let state := button_bit tempbyte 1 SCButtons.CPADPRESS state in
  (* Change gyro dir values to match Steam Controller *)
  hi <- lift (getitem data 18) ;; lo <- lift (getitem data 17) ;;
  let state := set state DualSenseBTControllerInput.gpitch (int16_le hi lo) in
  hi <- lift (getitem data 20) ;; lo <- lift (getitem data 19) ;;
  let state := set state DualSenseBTControllerInput.gyaw (int16_le hi lo * -1) in
  hi <- lift (getitem data 22) ;; lo <- lift (getitem data 21) ;;
  let state := set state DualSenseBTControllerInput.groll (int16_le hi lo * -1) in
  (* Scale values for 2G instead of 1G *)
  hi <- lift (getitem data 24) ;; lo <- lift (getitem data 23) ;;
  let state := set state DualSenseBTControllerInput.accel_x (int16_le hi lo * 2) in
  (* Invert pitch *)
  hi <- lift (getitem data 28) ;; lo <- lift (getitem data 27) ;;
  let state := set state DualSenseBTControllerInput.accel_y (int16_le hi lo * -2) in
  hi <- lift (getitem data 26) ;; lo <- lift (getitem data 25) ;;
  let state := set state DualSenseBTControllerInput.accel_z (int16_le hi lo * 2) in
  (* Calculate quaternion for gyro data *)
  state <- _calculate_quaternion state ;;
  (* Check for CPAD touch *)
  d <- lift (getitem data 34) ;;
  let state :=
    if Z.land d 0x80 =? 0 then ior_buttons state (flag SCButtons.CPADTOUCH)
    else state in
  d36 <- lift (getitem data 36) ;; d35 <- lift (getitem data 35) ;;
  let state := set state DualSenseBTControllerInput.cpad_x
                 (Z.lor (Z.shiftl (Z.land d36 0x0F) 8) d35) in
  d37 <- lift (getitem data 37) ;; d36 <- lift (getitem data 36) ;;
  let state := set state DualSenseBTControllerInput.cpad_y
                 (Z.lor (Z.shiftl (Z.land d37 0x0F) 4)
                        (Z.shiftr (Z.land d36 0xF0) 4)) in
  ret state.

(** [_input]: [tempdata] is what [self._hidrawdev.read(78)] returned and
    [current_time] what [time.time()] returned. *)
Definition _input (tempdata : list Z) (current_time : Q) : M t unit :=
  d0 <- lift (getitem tempdata 0) ;;
  (* Skip over packet if not a DS5 mode input packet *)
  if negb (d0 =? 0x31) then ret tt
  else
    self <- get ;;
    let old_state := _old_state self in
    put (set_delta_time (current_time - _previous_time self)%Q self) ;;;
    state_data <- _convert_input_data tempdata ;;
    self <- get ;;
    match mapper self with
    | Some m => put (set_mapper (Some (Mapper_input old_state state_data m)) self)
    | None => ret tt
    end ;;;
    modify (set_old_state state_data) ;;;
    (* Check for pending output data *)
    flush ;;;
    modify (set_previous_time current_time).

Definition set_motor (f : DualSenseHIDOutputBT.field) (v : Z) : M t unit :=
  modify (fun self =>
    set_feedback_output (DualSenseHIDOutputBT.set (_feedback_output self) f v) self).

(** [self.mapper.schedule(duration, callback)]: [AttributeError] when no
    mapper is attached. *)
Definition mapper_schedule (duration : Q) : M t Task :=
  self <- get ;;
  match mapper self with
  | None => raise AttributeError
  | Some _ =>
      let '(task, sch) := schedule duration (scheduler self) in
      put (set_scheduler sch self) ;;;
      ret task
  end.

(** [tempman = bytearray(self._feedback_output)]; CRC; stage; flush. *)
Definition send_feedback_output : M t unit :=
  self <- get ;;
  let tempman := bytearray DualSenseHIDOutputBT._fields_ (_feedback_output self) in
  tempman <- lift (_prepare_buffer_crc tempman) ;;
  schedule_output "feedback" tempman ;;;
  flush.

(** The closure [clear_feedback] that [feedback] hands to the scheduler. *)
Definition clear_feedback : M t unit :=
  set_motor DualSenseHIDOutputBT.motor_right 0 ;;;
  set_motor DualSenseHIDOutputBT.motor_left 0 ;;;
  send_feedback_output.

Definition feedback (data : HapticData) : M t unit :=
  let normalized_amp := (inject_Z (amplitude data) / 0x8000)%Q in
  let clamped_amp := py_int (normalized_amp * 0xff)%Q in
  let half_amp := py_int (normalized_amp * 0x80)%Q in
  match position data with
  | HapticPos.LEFT =>
      (* NOTE: the left motor is heavier, so we must give it less oomph *)
      set_motor DualSenseHIDOutputBT.motor_left half_amp
  | HapticPos.RIGHT =>
      set_motor DualSenseHIDOutputBT.motor_right clamped_amp
  | HapticPos.BOTH =>
      set_motor DualSenseHIDOutputBT.motor_right clamped_amp ;;;
      set_motor DualSenseHIDOutputBT.motor_left half_amp
  end ;;;
  let duration := (inject_Z (period data) * inject_Z (count data) / 0x10000)%Q in
  (* The motors don't seem to perform reliably when shut off under 50ms *)
  let duration := py_max duration 0.05%Q in
  send_feedback_output ;;;
  self <- get ;;
  match _feedback_cancel_task self with
  | Some task => put (set_scheduler (cancel task (scheduler self)) self)
  | None => ret tt
  end ;;;
  task <- mapper_schedule duration ;;
  modify (set_feedback_cancel_task (Some task)).

(** The scheduler runs the task [task] when its delay has elapsed,
    unless it was canceled (or has fired) before. *)
Definition timer_fires (task : Task) : M t unit :=
  self <- get ;;
  if is_pending task (scheduler self) then
    put (set_scheduler (fired task (scheduler self)) self) ;;;
    clear_feedback
  else ret tt.

(** [fuel] bounds the iterations of the loop; see [generate_id_loop]. *)
Definition _generate_id (daemon : SCCDaemon) : option string :=
  let active := get_active_ids daemon in
  generate_id_loop "ds5" active (S (List.length active)) "ds5" 1.

Definition configure (icon : option string) (led_level : number) : M t unit :=
  let lightbar_color := (0.0, 0.0, 1.0)%Q in (* blue by default *)
  lightbar_color <-
    match icon with
    | None | Some EmptyString => ret lightbar_color
    | Some icon =>
        split <- lift (DS5Controller.unpack2 (rsplit1 "." icon)) ;;
        let '(basename, ext) := split in
        let parts := rsplit1 "-" basename in
        match parts with
        | [] => ret lightbar_color
        | _ =>
            raw_idx <- lift (py_index parts (-1)) ;;
            match int_of_str raw_idx with
            | Raise ValueError => ret lightbar_color
            | Raise e => raise e
            | Ok icon_idx =>
                if icon_idx <? Z.of_nat (List.length ICON_COLORS)
                then lift (py_index ICON_COLORS icon_idx)
                else ret lightbar_color
            end
        end
    end ;;
  float_led_level <- lift (py_float led_level) ;;
  let led_level_norm := binary64.div float_led_level (binary64.of_Z 100) in
  let to_byte := fun color_norm : Q =>
    binary64.to_int
      (binary64.mul (binary64.mul (binary64.literal color_norm) led_level_norm)
         (binary64.of_Z 255)) in
  let '(red, green, blue) := lightbar_color in
  red <- lift (to_byte red) ;;
  green <- lift (to_byte green) ;;
  blue <- lift (to_byte blue) ;;
  let lightbar_color_bytes := (red, green, blue) in
  let output :=
    DualSenseHIDOutputBT.set
      (DualSenseHIDOutputBT.set
         (DualSenseHIDOutputBT.set
            (DualSenseHIDOutputBT.set
               (DualSenseHIDOutputBT.set
                  (DualSenseHIDOutputBT.set DualSenseHIDOutputBT.new
                     DualSenseHIDOutputBT.operating_mode OperatingMode.DS5_MODE_BT)
                  DualSenseHIDOutputBT.data_id_byte 0x02)
               DualSenseHIDOutputBT.light_effect_control
               LightEffectControl.LIGHTBAR_CONTROL_ENABLE)
            DualSenseHIDOutputBT.lightbar_red (fst (fst lightbar_color_bytes)))
         DualSenseHIDOutputBT.lightbar_green (snd (fst lightbar_color_bytes)))
      DualSenseHIDOutputBT.lightbar_blue (snd lightbar_color_bytes) in
  let tempbuffer := bytearray DualSenseHIDOutputBT._fields_ output in
  tempbuffer <- lift (_prepare_buffer_crc tempbuffer) ;;
  schedule_output "lightbar" tempbuffer ;;;
  flush.

(** [_set_operational]: the feature report read before and the frame read
    after the write are taken from the device and dropped. *)
Definition _set_operational : M t unit :=
  let tempman := bytearray DualSenseHIDOutputBT._fields_ init_output in
  tempman <- lift (_prepare_buffer_crc tempman) ;;
  schedule_output "init" tempman ;;;
  flush.

(** [read_serial]: the value stored in [_serial], given what
    [getPhysicalAddress()] returned. *)
Definition read_serial (physical_address : list Z) : list Z :=
  replace_byte_empty 58 physical_address.

End Methods.
End DS5HidRawController.

(** *** class DS5EvdevController (evdev fallback) *)

Module DS5EvdevController.
Import evdevdrv.

Section Methods.
Context {K : scc_constants} {E : ECODES}.

Definition TOUCH_FACTOR_X : Q := (inject_Z STICK_PAD_MAX / 940.0)%Q.
Definition TOUCH_FACTOR_Y : Q := (inject_Z STICK_PAD_MAX / 470.0)%Q.

Definition GYRO_MAP : list (Z * (option axis * Q)) :=
  [ (ABS_RX, (Some axis_gpitch, 0.01%Q));
    (ABS_RY, (Some axis_gyaw, 0.01%Q));
    (ABS_RZ, (Some axis_groll, 0.01%Q));
    (ABS_X, (None, 1%Q));     (* 'q2' *)
    (ABS_Y, (None, 1%Q));     (* 'q3' *)
    (ABS_Z, (None, (-1)%Q)) ] (* 'q1' *).

(** The tail of both handlers: when the loop has replaced the state, the
    new state is stored and, if a mapper is attached, handed to it with
    the old one. *)
Definition store (new_state : ControllerInput) (self : EvdevController.t)
  : EvdevController.t :=
  let old_state := EvdevController._state self in
  {| EvdevController._state := new_state;
     EvdevController.mapper :=
       match EvdevController.mapper self with
       | Some m => Some (Mapper_input old_state new_state m)
       | None => None
       end |}.

(** The loop of [_gyro_input]; [replaced] tells whether [new_state] is a
    new object ([new_state is not self._state]). *)
Fixpoint gyro_events (evs : list InputEvent) (new_state : ControllerInput)
    (replaced : bool) : raised + ControllerInput * bool :=
  match evs with
  | [] => inr (new_state, replaced)
  | event :: rest =>
      if type event =? EV_ABS then
        match display_get GYRO_MAP (code event) with
        | None => inl (KeyError (code event))
        | Some (axis, factor) =>
            match axis with
            | Some axis =>
                gyro_events rest
                  (replace_axis axis
                     (py_int (inject_Z (value event) * factor)%Q) new_state)
                  true
            | None => gyro_events rest new_state replaced
            end
        end
      else gyro_events rest new_state replaced
  end.

Definition _gyro_input (read : Read) (self : EvdevController.t)
  : (raised + unit) * EvdevController.t :=
  let new_state := EvdevController._state self in
  match gyro_events (events read) new_state false with
  | inl e => (inl e, self)
  | inr (new_state, replaced) =>
      if raises_OSError read then
        (* Errors here are not even reported, evdev class handles important ones *)
        (inr tt, self)
      else if replaced then (inr tt, store new_state self)
      else (inr tt, self)
  end.

(** The loop of [_touchpad_input]. *)
Fixpoint touchpad_events (evs : list InputEvent) (new_state : ControllerInput)
    (replaced : bool) : ControllerInput * bool :=
  match evs with
  | [] => (new_state, replaced)
  | event :: rest =>
      if type event =? EV_ABS then
        if code event =? ABS_MT_POSITION_X then
          let value := (inject_Z (value event) * TOUCH_FACTOR_X)%Q in
          let value := STICK_PAD_MIN + py_int value in
          touchpad_events rest (replace_cpad_x value new_state) true
        else if code event =? ABS_MT_POSITION_Y then
          let value := (inject_Z (value event) * TOUCH_FACTOR_Y)%Q in
          let value := STICK_PAD_MAX - py_int value in
          touchpad_events rest (replace_cpad_y value new_state) true
        else touchpad_events rest new_state replaced
      else if type event =? 0 then touchpad_events rest new_state replaced
      else if code event =? BTN_LEFT then
        if value event =? 1 then
          let b := Z.lor (buttons new_state) (flag SCButtons.CPADPRESS) in
          touchpad_events rest (replace_buttons b new_state) true
        else
          let b := Z.land (buttons new_state) (Z.lnot (flag SCButtons.CPADPRESS)) in
          touchpad_events rest (replace_buttons b new_state) true
      else if code event =? BTN_TOUCH then
        if value event =? 1 then
          let b := Z.lor (buttons new_state) (flag SCButtons.CPADTOUCH) in
          touchpad_events rest (replace_buttons b new_state) true
        else
          let b := Z.land (buttons new_state) (Z.lnot (flag SCButtons.CPADTOUCH)) in
          touchpad_events rest (replace_buttons_cpad b 0 0 new_state) true
      else touchpad_events rest new_state replaced
  end.

Definition _touchpad_input (read : Read) (self : EvdevController.t)
  : EvdevController.t :=
  let new_state := EvdevController._state self in
  let '(new_state, replaced) := touchpad_events (events read) new_state false in
  if raises_OSError read then
    (* Errors here are not even reported, evdev class handles important ones *)
    self
  else if replaced then store new_state self
  else self.

(** [fuel] bounds the iterations of the loop; see [generate_id_loop]. *)
Definition _generate_id (daemon : SCCDaemon) : option string :=
  let active := get_active_ids daemon in
  generate_id_loop "ds5" active (S (List.length active)) "ds5" 1.

End Methods.
End DS5EvdevController.

(** *** init: the evdev fallback [make_evdev_device] *)

Section Init.
Context {E : evdevdrv.ECODES}.

(** [make_evdev_device]: [devices] is what
    [get_evdev_devices_from_syspath(syspath)] returned; the value is the
    controller, gyro and touchpad nodes that are handed to
    [make_new_device], or [None]. *)
Definition make_evdev_device (devices : list evdevdrv.InputDevice)
  : option (evdevdrv.InputDevice * evdevdrv.InputDevice * evdevdrv.InputDevice) :=
  (* 1st, determining which one is actual controller is needed *)
  let controllerdevice :=
    fold_left (fun controllerdevice device =>
                 let count := List.length (evdevdrv.get_axes device) in
                 if (count =? 8)%nat then Some device else controllerdevice)
              devices None in
  match controllerdevice with
  | None => None
  | Some controllerdevice =>
      (* 2nd, find motion sensor and touchpad; [device] is still the last
         node of the first loop *)
      match last (map Some devices) None with
      | None => None
      | Some device =>
          let phys := split_first "/" (evdevdrv.phys device) in
          let '(gyro, touchpad) :=
            fold_left (fun '(gyro, touchpad) device =>
                         if startswith (evdevdrv.phys device) phys then
                           let axes := evdevdrv.get_axes device in
                           let count := List.length axes in
                           if (count =? 6)%nat then
                             if existsb (Z.eqb evdevdrv.ABS_MT_POSITION_X) axes
                             then (gyro, Some device)
                             else (Some device, touchpad)
                           else if (count =? 4)%nat then (gyro, Some device)
                           else (gyro, touchpad)
                         else (gyro, touchpad))
                      devices (None, None) in
          (* 3rd, do a magic *)
          match gyro, touchpad with
          | Some gyro, Some touchpad => Some (controllerdevice, gyro, touchpad)
          | _, _ => None
          end
      end
  end.

End Init.

End ds5drv.

(** * ds4drv.py *)

Module ds4drv.

(** *** class DS4Controller *)

Module DS4Controller.

Record t : Type := {
  _decoder : HIDDecoder;
  mapper : option (Mapper HIDControllerInput)
}.

Section Methods.
Context {K : scc_constants} {H : hiddrv}.
Local Open Scope py_scope.

Definition set_buttons (b : Z) (self : t) : t :=
  {| _decoder := set_state_buttons (_decoder self) b; mapper := mapper self |}.

Definition input (endpoint : Z) (data : list Z) : M t unit :=
  self <- get ;;
  (* Special override for CPAD touch button *)
  let '(ok, decoder) := decode (_decoder self) data in
  put {| _decoder := decoder; mapper := mapper self |} ;;;
  if ok then
    match mapper self with
    | Some m =>
        d35 <- lift (getitem data 35) ;;
        (if negb (Z.shiftr d35 7 =? 0) then
           (* cpad is not touched *)
           modify (fun self =>
             set_buttons (Z.land (hid_buttons (state (_decoder self)))
                                 (Z.lnot (flag SCButtons.CPADTOUCH))) self)
         else
           modify (fun self =>
             set_buttons (Z.lor (hid_buttons (state (_decoder self)))
                                (flag SCButtons.CPADTOUCH)) self)) ;;;
        modify (fun self =>
          {| _decoder := _decoder self;
             mapper := Some (Mapper_input (old_state (_decoder self))
                                          (state (_decoder self)) m) |})
    | None => ret tt
    end
  else ret tt.

(** [fuel] bounds the iterations of the loop; see [generate_id_loop]. *)
Definition _generate_id (daemon : SCCDaemon) : option string :=
  let active := get_active_ids daemon in
  generate_id_loop "ds4" active (S (List.length active)) "ds4" 1.

End Methods.
End DS4Controller.

(** *** class DS4HIDRawController(DS4Controller, Controller) *)

Module DS4HIDRawController.

Section Methods.
Context {K : scc_constants} {H : hiddrv}.
Local Open Scope py_scope.

Definition _packet_size : nat := 78.

(** [_input]: [data] is what [self._hidrawdev.read(self._packet_size)]
    returned; [_fileno] is the descriptor of the raw HID node. *)
Definition _input (_fileno : Z) (data : list Z) : M DS4Controller.t unit :=
  d0 <- lift (getitem data 0) ;;
  if negb (d0 =? 0x11) then ret tt
  else DS4Controller.input _fileno (skipn 2 data).

End Methods.
End DS4HIDRawController.

(** *** class DS4EvdevController (evdev fallback) *)

Module DS4EvdevController.
Import evdevdrv.

Section Methods.
Context {K : scc_constants} {E : ECODES}.

Definition TOUCH_FACTOR_X : Q := (inject_Z STICK_PAD_MAX / 940.0)%Q.
Definition TOUCH_FACTOR_Y : Q := (inject_Z STICK_PAD_MAX / 470.0)%Q.

Definition GYRO_MAP : list (Z * (option axis * Q)) :=
  [ (ABS_RX, (Some axis_gpitch, 0.01%Q));
    (ABS_RY, (Some axis_gyaw, 0.01%Q));
    (ABS_RZ, (Some axis_groll, 0.01%Q));
    (ABS_X, (None, 1%Q));     (* 'q2' *)
    (ABS_Y, (None, 1%Q));     (* 'q3' *)
    (ABS_Z, (None, (-1)%Q)) ] (* 'q1' *).

(** The tail of both handlers: when the loop has replaced the state, the
    new state is stored and, if a mapper is attached, handed to it with
    the old one. *)
Definition store (new_state : ControllerInput) (self : EvdevController.t)
  : EvdevController.t :=
  let old_state := EvdevController._state self in
  {| EvdevController._state := new_state;
     EvdevController.mapper :=
       match EvdevController.mapper self with
       | Some m => Some (Mapper_input old_state new_state m)
       | None => None
       end |}.

(** The loop of [_gyro_input]; [replaced] tells whether [new_state] is a
    new object ([new_state is not self._state]). *)
Fixpoint gyro_events (evs : list InputEvent) (new_state : ControllerInput)
    (replaced : bool) : raised + ControllerInput * bool :=
  match evs with
  | [] => inr (new_state, replaced)
  | event :: rest =>
      if type event =? EV_ABS then
        match display_get GYRO_MAP (code event) with
        | None => inl (KeyError (code event))
        | Some (axis, factor) =>
            match axis with
            | Some axis =>
                gyro_events rest
                  (replace_axis axis
                     (py_int (inject_Z (value event) * factor)%Q) new_state)
                  true
            | None => gyro_events rest new_state replaced
            end
        end
      else gyro_events rest new_state replaced
  end.

Definition _gyro_input (read : Read) (self : EvdevController.t)
  : (raised + unit) * EvdevController.t :=
  let new_state := EvdevController._state self in
  match gyro_events (events read) new_state false with
  | inl e => (inl e, self)
  | inr (new_state, replaced) =>
      if raises_OSError read then
        (* Errors here are not even reported, evdev class handles important ones *)
        (inr tt, self)
      else if replaced then (inr tt, store new_state self)
      else (inr tt, self)
  end.

(** The loop of [_touchpad_input]. *)
Fixpoint touchpad_events (evs : list InputEvent) (new_state : ControllerInput)
    (replaced : bool) : ControllerInput * bool :=
  match evs with
  | [] => (new_state, replaced)
  | event :: rest =>
      if type event =? EV_ABS then
        if code event =? ABS_MT_POSITION_X then
          let value := (inject_Z (value event) * TOUCH_FACTOR_X)%Q in
          let value := STICK_PAD_MIN + py_int value in
          touchpad_events rest (replace_cpad_x value new_state) true
        else if code event =? ABS_MT_POSITION_Y then
          let value := (inject_Z (value event) * TOUCH_FACTOR_Y)%Q in
          let value := STICK_PAD_MAX - py_int value in
          touchpad_events rest (replace_cpad_y value new_state) true
        else touchpad_events rest new_state replaced
      else if type event =? 0 then touchpad_events rest new_state replaced
      else if code event =? BTN_LEFT then
        if value event =? 1 then
          let b := Z.lor (buttons new_state) (flag SCButtons.CPADPRESS) in
          touchpad_events rest (replace_buttons b new_state) true
        else
          let b := Z.land (buttons new_state) (Z.lnot (flag SCButtons.CPADPRESS)) in
          touchpad_events rest (replace_buttons b new_state) true
      else if code event =? BTN_TOUCH then
        if value event =? 1 then
          let b := Z.lor (buttons new_state) (flag SCButtons.CPADTOUCH) in
          touchpad_events rest (replace_buttons b new_state) true
        else
          let b := Z.land (buttons new_state) (Z.lnot (flag SCButtons.CPADTOUCH)) in
          touchpad_events rest (replace_buttons_cpad b 0 0 new_state) true
      else touchpad_events rest new_state replaced
  end.

Definition _touchpad_input (read : Read) (self : EvdevController.t)
  : EvdevController.t :=
  let new_state := EvdevController._state self in
  let '(new_state, replaced) := touchpad_events (events read) new_state false in
  if raises_OSError read then
    (* Errors here are not even reported, evdev class handles important ones *)
    self
  else if replaced then store new_state self
  else self.

(** [fuel] bounds the iterations of the loop; see [generate_id_loop]. *)
Definition _generate_id (daemon : SCCDaemon) : option string :=
  let active := get_active_ids daemon in
  generate_id_loop "ds4" active (S (List.length active)) "ds4" 1.

End Methods.
End DS4EvdevController.

(** *** init: the evdev fallback [make_evdev_device] *)

Section Init.
Context {E : evdevdrv.ECODES}.

(** [make_evdev_device]: [devices] is what
    [get_evdev_devices_from_syspath(syspath)] returned; the value is the
    controller, gyro and touchpad nodes that are handed to
    [make_new_device], or [None]. *)
Definition make_evdev_device (devices : list evdevdrv.InputDevice)
  : option (evdevdrv.InputDevice * evdevdrv.InputDevice * evdevdrv.InputDevice) :=
  (* 1st, determining which one is actual controller is needed *)
  let controllerdevice :=
    fold_left (fun controllerdevice device =>
                 let count := List.length (evdevdrv.get_axes device) in
                 if (count =? 8)%nat then Some device else controllerdevice)
              devices None in
  match controllerdevice with
  | None => None
  | Some controllerdevice =>
      (* 2nd, find motion sensor and touchpad; [device] is still the last
         node of the first loop *)
      match last (map Some devices) None with
      | None => None
      | Some device =>
          let phys := split_first "/" (evdevdrv.phys device) in
          let '(gyro, touchpad) :=
            fold_left (fun '(gyro, touchpad) device =>
                         if startswith (evdevdrv.phys device) phys then
                           let axes := evdevdrv.get_axes device in
                           let count := List.length axes in
                           if (count =? 6)%nat then
                             if existsb (Z.eqb evdevdrv.ABS_MT_POSITION_X) axes
                             then (gyro, Some device)
                             else (Some device, touchpad)
                           else if (count =? 4)%nat then (gyro, Some device)
                           else (gyro, touchpad)
                         else (gyro, touchpad))
                      devices (None, None) in
          (* 3rd, do a magic *)
          match gyro, touchpad with
          | Some gyro, Some touchpad => Some (controllerdevice, gyro, touchpad)
          | _, _ => None
          end
      end
  end.

End Init.

End ds4drv.

(** * Connecting and disconnecting controllers

    A controller's constructor takes its ID from [_generate_id] and then
    registers the controller with the daemon ([add_controller]); [close]
    unregisters it ([remove_controller]).  [None]: ID generation gave up. *)

Inductive hotplug : Set :=
| Connect
| Disconnect (id : string).

Definition hotplug_step (generate : SCCDaemon -> option string)
    (daemon : SCCDaemon) (ev : hotplug) : option SCCDaemon :=
  match ev with
  | Connect =>
      match generate daemon with
      | Some id => Some (add_controller id daemon)
      | None => None
      end
  | Disconnect id => Some (remove_controller id daemon)
  end.

Fixpoint hotplug_run (generate : SCCDaemon -> option string)
    (daemon : SCCDaemon) (evs : list hotplug) : option SCCDaemon :=
  match evs with
  | [] => Some daemon
  | ev :: rest =>
      match hotplug_step generate daemon ev with
      | Some daemon' => hotplug_run generate daemon' rest
      | None => None
      end
  end.

(** The IDs the spec lists for [n] controllers of one family:
    [base], [base:1], ..., [base:(n-1)]. *)
Definition nth_id (base : string) (k : nat) : string :=
  match k with
  | O => base
  | S _ => base ++ ":" ++ str_of_nat k
  end.

Definition family_ids (base : string) (n : nat) : list string :=
  map (nth_id base) (seq 0 n).

(** * A host configuration to run the drivers on

    The stick range is that of a signed 16-bit integer and every button
    has a bit of its own in a 32-bit mask. *)

Definition host16_flag (b : SCButtons.t) : Z :=
  match b with
  | SCButtons.RPADTOUCH => Z.shiftl 1 28
  | SCButtons.LPADTOUCH => Z.shiftl 1 27
  | SCButtons.RPAD => Z.shiftl 1 26
  | SCButtons.LPAD => Z.shiftl 1 25
  | SCButtons.STICKPRESS => Z.shiftl 1 30
  | SCButtons.START => Z.shiftl 1 22
  | SCButtons.C => Z.shiftl 1 21
  | SCButtons.BACK => Z.shiftl 1 20
  | SCButtons.A => Z.shiftl 1 15
  | SCButtons.X => Z.shiftl 1 14
  | SCButtons.B => Z.shiftl 1 13
  | SCButtons.Y => Z.shiftl 1 12
  | SCButtons.LB => Z.shiftl 1 11
  | SCButtons.RB => Z.shiftl 1 10
  | SCButtons.LT => Z.shiftl 1 9
  | SCButtons.RT => Z.shiftl 1 8
  | SCButtons.CPADTOUCH => Z.shiftl 1 2
  | SCButtons.CPADPRESS => Z.shiftl 1 1
  end.

Definition host16 : scc_constants :=
  {| STICK_PAD_MIN := -32768;
     STICK_PAD_MAX := 32767;
     STICK_PAD_RES := 65535;
     flag := host16_flag |}.

(** Polynomial stand-ins for [sin] and [cos], exact at zero. *)
Definition poly_math : math :=
  {| math_sin := fun a => (a - a * a * a / 6)%Q;
     math_cos := fun a => (1 - a * a / 2)%Q;
     math_pi := (355 # 113)%Q |}.

(** A decoder that accepts every report and keeps its bytes as axes. *)
Definition raw_hiddrv : hiddrv :=
  {| decode := fun d data =>
       (true, {| old_state := state d;
                 state := {| hid_buttons := 0; hid_axes := data |} |}) |}.

(** What the claims ask of the host's constants: the stick bounds fit the
    32-bit fields they are stored in, and the button flags are non-zero
    32-bit masks that share no bit. *)
Record constants_ok (K : scc_constants) : Prop := {
  MIN_int32 : - 2 ^ 31 <= STICK_PAD_MIN < 2 ^ 31;
  MAX_int32 : - 2 ^ 31 <= STICK_PAD_MAX < 2 ^ 31;
  flag_range : forall b, 0 < flag b < 2 ^ 32;
  flag_disjoint : forall b b', b <> b' -> Z.land (flag b) (flag b') = 0
}.

(** [b in buttons]: every bit of the flag [b] is set in the mask. *)
Definition pressed {K : scc_constants} (buttons : Z) (b : SCButtons.t) : bool :=
  Z.land buttons (flag b) =? flag b.

(** The value of a byte string read as a little-endian number. *)
Definition little_endian (bytes : list Z) : Z :=
  fold_right (fun b acc => b + 256 * acc) 0 bytes.

(** * Driver computations on binary64

    The functions below repeat, on binary64, driver computations that the
    development otherwise carries out on rationals, so that the two can be
    compared by evaluation. *)

(** [DS5HidRawController._stick_axis_scale] on binary64. *)
Definition _stick_axis_scale_binary64 {K : scc_constants}
    (value : Z) (invert : bool) : result Z :=
  let result := value - 128 in
  let tempRatio :=
    if 128 <=? value
    then binary64.div (binary64.of_Z result) (binary64.of_Z 127)
    else binary64.div (binary64.of_Z result) (binary64.of_Z 128) in
  let tempRatio := if invert then binary64.neg tempRatio else tempRatio in
  let tempRatio :=
    binary64.mul (binary64.add tempRatio (binary64.of_Z 1)) binary64.half in
  binary64.to_int
    (binary64.add (binary64.mul tempRatio (binary64.of_Z STICK_PAD_RES))
                  (binary64.of_Z STICK_PAD_MIN)).

(** The position in [0, 1] that [_stick_axis_scale] computes first. *)
Definition tempRatio (value : Z) (invert : bool) : Q :=
  let r := if 128 <=? value then (inject_Z (value - 128) / 127.0)%Q
           else (inject_Z (value - 128) / 128.0)%Q in
  (((if invert then - r else r) + 1.0) * 0.5)%Q.

(** Two quaternions with equal components (equal as rationals). *)
Definition quat_eq (p q : ds5drv.DS5HidRawController.Quat) : Prop :=
  let '(pw, px, py, pz) := p in
  let '(qw, qx, qy, qz) := q in
  (pw == qw /\ px == qx /\ py == qy /\ pz == qz)%Q.

(** The D-pad state table in the words of the spec: 0=Up(0,MAX),
    1=UpRight(MAX,MAX), 2=Right(MAX,0), 3=DownRight(MAX,MIN),
    4=Down(0,MIN), 5=DownLeft(MIN,MIN), 6=Left(MIN,0), 7=UpLeft(MIN,MAX),
    8=Centered(0,0), and the centered pair for any other value. *)
Definition dpad_table {K : scc_constants} (nibble : Z) : Z * Z :=
  match nibble with
  | 0 => (0, STICK_PAD_MAX)
  | 1 => (STICK_PAD_MAX, STICK_PAD_MAX)
  | 2 => (STICK_PAD_MAX, 0)
  | 3 => (STICK_PAD_MAX, STICK_PAD_MIN)
  | 4 => (0, STICK_PAD_MIN)
  | 5 => (STICK_PAD_MIN, STICK_PAD_MIN)
  | 6 => (STICK_PAD_MIN, 0)
  | 7 => (STICK_PAD_MIN, STICK_PAD_MAX)
  | 8 => (0, 0)
  | _ => (0, 0)
  end.

(** ** Sample input

    A Bluetooth input frame of a DualSense at rest (sticks centered,
    touchpad not touched) whose byte 9 is [byte9], and a USB report of 64
    zero bytes. *)
Definition bt_frame (byte9 : Z) : list Z :=
  [0x31; 0; 128; 128; 128; 128; 0; 0; 0; byte9; 0; 0]
  ++ repeat 0 22 ++ [0x80] ++ repeat 0 43.

Definition usb_zero_report : list Z := repeat 0 64.

(** A USB controller with a mapper attached. *)
Definition usb_with_mapper : ds5drv.DS5Controller.t :=
  ds5drv.DS5Controller.set_mapper (Some {| received := [] |})
    (ds5drv.DS5Controller.init
       {| old_state := {| hid_buttons := 0; hid_axes := [] |};
          state := {| hid_buttons := 0; hid_axes := [] |} |}).

(** A Bluetooth controller with a mapper attached. *)
Definition bt_with_mapper : ds5drv.DS5HidRawController.t :=
  ds5drv.DS5HidRawController.set_mapper (Some {| received := [] |})
    (ds5drv.DS5HidRawController.init 0 0).

(** The left pad and its two flags that the sample frame with the given
    byte 9 decodes to on the 16-bit host. *)
Definition lpad_of (byte9 : Z) : option (Z * Z * bool * bool) :=
  match ds5drv.DS5HidRawController._convert_input_data (K := host16) (libm := poly_math)
          (bt_frame byte9) bt_with_mapper with
  | (Ok st, _) =>
      Some (st ds5drv.DualSenseBTControllerInput.lpad_x,
            st ds5drv.DualSenseBTControllerInput.lpad_y,
            pressed (K := host16) (st ds5drv.DualSenseBTControllerInput.buttons)
              SCButtons.LPAD,
            pressed (K := host16) (st ds5drv.DualSenseBTControllerInput.buttons)
              SCButtons.LPADTOUCH)
  | _ => None
  end.

(** ** Histories of a controller

    What the host can do to a controller between its construction and
    any later moment: attach or detach the mapper, deliver input, ask for
    feedback or a lightbar configuration, and let a scheduled task come
    due.  A call that raises leaves the controller as the exception found
    it. *)

Inductive usb_event : Type :=
| UsbAttach
| UsbDetach
| UsbInput (endpoint : Z) (data : list Z)
| UsbFeedback (data : HapticData)
| UsbConfigure (icon : option string) (led_level : number)
| UsbTimer (task : Task).

Definition usb_step {K : scc_constants} {H : hiddrv} (ev : usb_event)
  : M ds5drv.DS5Controller.t unit :=
  match ev with
  | UsbAttach => modify (ds5drv.DS5Controller.set_mapper (Some {| received := [] |}))
  | UsbDetach => modify (ds5drv.DS5Controller.set_mapper None)
  | UsbInput endpoint data => ds5drv.DS5Controller.input endpoint data
  | UsbFeedback data => ds5drv.DS5Controller.feedback data
  | UsbConfigure icon led_level => ds5drv.DS5Controller.configure icon led_level
  | UsbTimer task => ds5drv.DS5Controller.timer_fires task
  end.

Definition usb_run {K : scc_constants} {H : hiddrv} (evs : list usb_event)
    (self : ds5drv.DS5Controller.t) : ds5drv.DS5Controller.t :=
  fold_left (fun s ev => snd (usb_step ev s)) evs self.

Inductive bt_event : Type :=
| BtAttach
| BtDetach
| BtInput (frame : list Z) (now : Q)
| BtFeedback (data : HapticData)
| BtTimer (task : Task).

Definition bt_step {K : scc_constants} {libm : math} (ev : bt_event)
  : M ds5drv.DS5HidRawController.t unit :=
  match ev with
  | BtAttach =>
      modify (ds5drv.DS5HidRawController.set_mapper (Some {| received := [] |}))
  | BtDetach => modify (ds5drv.DS5HidRawController.set_mapper None)
  | BtInput frame now => ds5drv.DS5HidRawController._input frame now
  | BtFeedback data => ds5drv.DS5HidRawController.feedback data
  | BtTimer task => ds5drv.DS5HidRawController.timer_fires task
  end.

Definition bt_run {K : scc_constants} {libm : math} (evs : list bt_event)
    (self : ds5drv.DS5HidRawController.t) : ds5drv.DS5HidRawController.t :=
  fold_left (fun s ev => snd (bt_step ev s)) evs self.








(** A short pulse on both motors (its computed duration, 1/64 s, is
    below both floors) and a long one (2 s). *)
Definition short_pulse : HapticData :=
  {| position := HapticPos.BOTH; amplitude := 0x4000; period := 1024; count := 1 |}.

Definition long_pulse : HapticData :=
  {| position := HapticPos.LEFT; amplitude := 0x8000; period := 0x8000; count := 4 |}.

Definition decoder0 : HIDDecoder :=
  {| old_state := {| hid_buttons := 0; hid_axes := [] |};
     state := {| hid_buttons := 0; hid_axes := [] |} |}.

(** ** The lightbar color in the words of the spec

    The numeric suffix after the final '-' of the icon's basename (the
    icon name up to its final '.') indexes the palette; a suffix that is
    not a number or not an index of the palette, and no icon at all, give
    blue. *)

Fixpoint contains (c : ascii) (s : string) : bool :=
  match s with
  | EmptyString => false
  | String a rest => Ascii.eqb a c || contains c rest
  end.




Definition blue : Q * Q * Q := (0.0, 0.0, 1.0)%Q.


(** A color channel scaled by [led_level / 100] and mapped to 0-255, in
    exact arithmetic. *)
Definition scaled_channel (color_norm led_level : Q) : Z :=
  py_int (color_norm * (led_level / 100) * 255)%Q.

(** [int(color_norm * led_level_norm * 255)] with
    [led_level_norm = float(led_level) / 100], as [configure] computes a
    channel: on binary64. *)
Definition lightbar_channel (color_norm : Q) (led_level : number) : result Z :=
  match py_float led_level with
  | Ok x =>
      let led_level_norm := binary64.div x (binary64.of_Z 100) in
      binary64.to_int
        (binary64.mul (binary64.mul (binary64.literal color_norm) led_level_norm)
           (binary64.of_Z 255))
  | Raise e => Raise e
  end.




(** A USB controller as [__init__] leaves it. *)
Definition usb0 : ds5drv.DS5Controller.t := ds5drv.DS5Controller.init decoder0.



(** The three channels staged under "lightbar", if any. *)
Definition staged_lightbar (self : ds5drv.DS5Controller.t) : option (Z * Z * Z) :=
  match dict_get (ds5drv.DS5Controller._outputs self) "lightbar" with
  | Some (ds5drv.DS5Controller.fresh_output o) =>
      Some (o ds5drv.DualSenseHIDOutput.lightbar_red,
            o ds5drv.DualSenseHIDOutput.lightbar_green,
            o ds5drv.DualSenseHIDOutput.lightbar_blue)
  | _ => None
  end.

(** [id] is the first of [base], [base:1], [base:2], ... that is not
    active. *)
Definition first_free_id (base : string) (active : list string) (id : string)
  : Prop :=
  exists k,
    id = nth_id base k /\
    ~ In id active /\
    forall j, (j < k)%nat -> In (nth_id base j) active.

(** A daemon with no controller. *)
Definition no_controllers : SCCDaemon := {| controllers := [] |}.

(** ** Frames of the Bluetooth output protocol

    A frame is well formed when it has 78 bytes of which the last four,
    read as a little-endian number, are the CRC-32 of the byte 0xA2
    followed by the first 74; an output report also starts with the
    report id 0x31 and the data id 0x02. *)

Definition framed (frame : list Z) : bool :=
  (List.length frame =? 78)%nat && is_bytes frame &&
  (little_endian (skipn 74 frame) =? zlib.crc32 (0xA2 :: firstn 74 frame) 0).

Definition bt_output_report (frame : list Z) : bool :=
  framed frame && (nth 0 frame 0 =? 0x31) && (nth 1 frame 0 =? 0x02).

(** The calls of a Bluetooth controller's life, [configure] and
    [_set_operational] included. *)
Inductive bt_op : Type :=
| BtEvent (ev : bt_event)
| BtConfigure (icon : option string) (led_level : number)
| BtSetOperational.

Definition bt_op_step {K : scc_constants} {libm : math} (op : bt_op)
  : M ds5drv.DS5HidRawController.t unit :=
  match op with
  | BtEvent ev => bt_step ev
  | BtConfigure icon led_level =>
      ds5drv.DS5HidRawController.configure icon led_level
  | BtSetOperational => ds5drv.DS5HidRawController._set_operational
  end.

Definition bt_ops_run {K : scc_constants} {libm : math} (ops : list bt_op)
    (self : ds5drv.DS5HidRawController.t) : ds5drv.DS5HidRawController.t :=
  fold_left (fun s op => snd (bt_op_step op s)) ops self.

(** What the controller has written and what it has staged are output
    reports, and its feedback record still carries the two ids. *)
Definition bt_wf (self : ds5drv.DS5HidRawController.t) : Prop :=
  forallb bt_output_report (ds5drv.DS5HidRawController._hidrawdev self) = true /\
  forallb bt_output_report
    (map snd (ds5drv.DS5HidRawController._outputs self)) = true /\
  c_ubyte (ds5drv.DS5HidRawController._feedback_output self
             ds5drv.DualSenseHIDOutputBT.operating_mode) = 0x31 /\
  c_ubyte (ds5drv.DS5HidRawController._feedback_output self
             ds5drv.DualSenseHIDOutputBT.data_id_byte) = 0x02.

(** A computation that keeps a property of the object, whether it returns
    or raises. *)
Definition preserves {S A : Type} (P : S -> Prop) (m : M S A) : Prop :=
  forall s, P s -> P (snd (m s)).


(** The frame that [_set_operational] sends. *)
Definition bt_init_frame : list Z :=
  [0x31; 0x02; 0; 0x55] ++ repeat 0 44 ++ [200] ++ repeat 0 25
  ++ [212; 22; 39; 115].

(** ** The USB output path

    The calls of a USB controller's life, the output cycle ([flush])
    included; what [flush] writes goes to the device and is not kept. *)
Inductive usb_op : Type :=
| UsbEvent (ev : usb_event)
| UsbFlush.

Definition usb_op_step {K : scc_constants} {H : hiddrv} (op : usb_op)
  : M ds5drv.DS5Controller.t unit :=
  match op with
  | UsbEvent ev => usb_step ev
  | UsbFlush => bind ds5drv.DS5Controller.flush (fun _ => ret tt)
  end.

Definition usb_ops_run {K : scc_constants} {H : hiddrv} (ops : list usb_op)
    (self : ds5drv.DS5Controller.t) : ds5drv.DS5Controller.t :=
  fold_left (fun s op => snd (usb_op_step op s)) ops self.

(** A staged entry as the methods make them: the controller's own
    feedback record under "feedback", or under "lightbar" a record built
    for the occasion, with the lightbar-control flag and no motor level. *)
Definition usb_entry_ok (kv : string * ds5drv.DS5Controller.output) : bool :=
  match snd kv with
  | ds5drv.DS5Controller.the_feedback_output => String.eqb (fst kv) "feedback"
  | ds5drv.DS5Controller.fresh_output o =>
      String.eqb (fst kv) "lightbar"
      && (o ds5drv.DualSenseHIDOutput.motor_right =? 0)
      && (o ds5drv.DualSenseHIDOutput.motor_left =? 0)
      && (o ds5drv.DualSenseHIDOutput.light_effect_control =? 4)
  end.

(** The staged records of a USB controller: one per purpose, each as the
    methods make them; the feedback record never carries a light-effect
    flag. *)
Definition usb_wf (self : ds5drv.DS5Controller.t) : Prop :=
  NoDup (map fst (ds5drv.DS5Controller._outputs self)) /\
  forallb usb_entry_ok (ds5drv.DS5Controller._outputs self) = true /\
  ds5drv.DS5Controller._feedback_output self
    ds5drv.DualSenseHIDOutput.light_effect_control = 0.

(** An interrupt transfer as [flush] makes them: 64 bytes to endpoint 3. *)
Definition usb_packet (w : Z * list Z) : bool :=
  (fst w =? 3) && (List.length (snd w) =? 64)%nat && is_bytes (snd w).


(** ** The buttons of a Bluetooth input frame

    Where [_convert_input_data] reads each push button: the index of the
    byte and the number of the bit.  The four touch and pad flags are
    decided otherwise (or never set). *)
Definition bt_button_bit (b : SCButtons.t) : option (nat * Z) :=
  match b with
  | SCButtons.Y => Some (9%nat, 7)
  | SCButtons.B => Some (9%nat, 6)
  | SCButtons.A => Some (9%nat, 5)
  | SCButtons.X => Some (9%nat, 4)
  | SCButtons.RPAD => Some (10%nat, 7)
  | SCButtons.STICKPRESS => Some (10%nat, 6)
  | SCButtons.START => Some (10%nat, 5)
  | SCButtons.BACK => Some (10%nat, 4)
  | SCButtons.RT => Some (10%nat, 3)
  | SCButtons.LT => Some (10%nat, 2)
  | SCButtons.RB => Some (10%nat, 1)
  | SCButtons.LB => Some (10%nat, 0)
  | SCButtons.C => Some (11%nat, 0)
  | SCButtons.CPADPRESS => Some (11%nat, 1)
  | SCButtons.LPAD | SCButtons.LPADTOUCH
  | SCButtons.RPADTOUCH | SCButtons.CPADTOUCH => None
  end.

(** The pairs that a mapper has received form a chain that ends in
    [last]: each pair's old state is the new state of the pair before it,
    and the last new state is [last]. *)
Fixpoint chained {State : Type} (l : list (State * State)) (last : State) : Prop :=
  match l with
  | [] => True
  | (_, new) :: rest =>
      match rest with
      | [] => new = last
      | (old, _) :: _ => new = old /\ chained rest last
      end
  end.

(** The chain of the mapper that is attached, if one is. *)
Definition bt_chain (self : ds5drv.DS5HidRawController.t) : Prop :=
  match ds5drv.DS5HidRawController.mapper self with
  | Some m => chained (received m) (ds5drv.DS5HidRawController._old_state self)
  | None => True
  end.

(** A DualShock 4 controller with a mapper attached. *)
Definition ds4_with_mapper : ds4drv.DS4Controller.t :=
  {| ds4drv.DS4Controller._decoder := decoder0;
     ds4drv.DS4Controller.mapper := Some {| received := [] |} |}.

(** A Bluetooth frame of a DualShock 4 (report 0x11) whose byte 37 is
    [byte37]. *)
Definition ds4_frame (byte37 : Z) : list Z :=
  [0x11; 0xC0] ++ repeat 0 35 ++ [byte37] ++ repeat 0 40.

(** * The evdev fallback: what to compare the handlers with *)

(** The event codes of the Linux kernel's [input-event-codes.h]. *)
Definition linux_ecodes : evdevdrv.ECODES :=
  {| evdevdrv.EV_ABS := 0x03;
     evdevdrv.ABS_X := 0x00;
     evdevdrv.ABS_Y := 0x01;
     evdevdrv.ABS_Z := 0x02;
     evdevdrv.ABS_RX := 0x03;
     evdevdrv.ABS_RY := 0x04;
     evdevdrv.ABS_RZ := 0x05;
     evdevdrv.ABS_MT_POSITION_X := 0x35;
     evdevdrv.ABS_MT_POSITION_Y := 0x36;
     evdevdrv.BTN_LEFT := 0x110;
     evdevdrv.BTN_TOUCH := 0x14a |}.

(** A touchpad event that makes the handler replace the state: a touch
    position, or a BTN_LEFT or BTN_TOUCH event of a type other than
    EV_ABS and 0. *)
Definition touch_effective {E : evdevdrv.ECODES} (e : evdevdrv.InputEvent) : bool :=
  if evdevdrv.type e =? evdevdrv.EV_ABS then
    (evdevdrv.code e =? evdevdrv.ABS_MT_POSITION_X)
    || (evdevdrv.code e =? evdevdrv.ABS_MT_POSITION_Y)
  else
    negb (evdevdrv.type e =? 0)
    && ((evdevdrv.code e =? evdevdrv.BTN_LEFT)
        || (evdevdrv.code e =? evdevdrv.BTN_TOUCH)).

(** The codes that the gyro table has an entry for. *)
Definition gyro_codes {E : evdevdrv.ECODES} : list Z :=
  [evdevdrv.ABS_RX; evdevdrv.ABS_RY; evdevdrv.ABS_RZ;
   evdevdrv.ABS_X; evdevdrv.ABS_Y; evdevdrv.ABS_Z].

(** The value of the last EV_ABS event of a batch with the code [c]. *)
Definition last_abs {E : evdevdrv.ECODES} (c : Z) (evs : list evdevdrv.InputEvent)
  : option Z :=
  option_map evdevdrv.value
    (find (fun e => (evdevdrv.type e =? evdevdrv.EV_ABS) && (evdevdrv.code e =? c))
          (rev evs)).

(** The code of the first EV_ABS event of a batch that the gyro table
    has no entry for. *)
Definition first_unknown {E : evdevdrv.ECODES} (evs : list evdevdrv.InputEvent)
  : option Z :=
  option_map evdevdrv.code
    (find (fun e => (evdevdrv.type e =? evdevdrv.EV_ABS)
                    && negb (existsb (fun c => c =? evdevdrv.code e) gyro_codes))
          evs).

(** An evdev controller at rest, with a mapper attached. *)
Definition evdev_idle : evdevdrv.EvdevController.t :=
  {| evdevdrv.EvdevController._state :=
       {| evdevdrv.buttons := 0; evdevdrv.cpad_x := 0; evdevdrv.cpad_y := 0;
          evdevdrv.gpitch := 0; evdevdrv.groll := 0; evdevdrv.gyaw := 0;
          evdevdrv.others := [] |};
     evdevdrv.EvdevController.mapper := Some {| received := [] |} |}.

(** Sample events, with the kernel's numbers: an EV_KEY event for
    BTN_TOUCH, and EV_ABS events for a touch column and for a gyro axis. *)
Definition touch_key (value : Z) : evdevdrv.InputEvent :=
  {| evdevdrv.type := 0x01; evdevdrv.code := 0x14a; evdevdrv.value := value |}.

Definition touch_column (value : Z) : evdevdrv.InputEvent :=
  {| evdevdrv.type := 0x03; evdevdrv.code := 0x35; evdevdrv.value := value |}.

Definition gyro_axis (code value : Z) : evdevdrv.InputEvent :=
  {| evdevdrv.type := 0x03; evdevdrv.code := code; evdevdrv.value := value |}.

(** A read that yields [evs] and ends normally. *)
Definition batch (evs : list evdevdrv.InputEvent) : evdevdrv.Read :=
  {| evdevdrv.events := evs; evdevdrv.raises_OSError := false |}.

(** The touch coordinates and the gyro values on binary64. *)
Definition touch_x_binary64 {K : scc_constants} (value : Z) : result Z :=
  let TOUCH_FACTOR_X :=
    binary64.div (binary64.of_Z STICK_PAD_MAX) (binary64.of_Z 940) in
  match binary64.to_int (binary64.mul (binary64.of_Z value) TOUCH_FACTOR_X) with
  | Ok i => Ok (STICK_PAD_MIN + i)
  | Raise e => Raise e
  end.

Definition touch_y_binary64 {K : scc_constants} (value : Z) : result Z :=
  let TOUCH_FACTOR_Y :=
    binary64.div (binary64.of_Z STICK_PAD_MAX) (binary64.of_Z 470) in
  match binary64.to_int (binary64.mul (binary64.of_Z value) TOUCH_FACTOR_Y) with
  | Ok i => Ok (STICK_PAD_MAX - i)
  | Raise e => Raise e
  end.

Definition gyro_binary64 (value : Z) : result Z :=
  let factor := binary64.div (binary64.of_Z 1) (binary64.of_Z 100) in
  binary64.to_int (binary64.mul (binary64.of_Z value) factor).

(** * The evdev nodes of a controller: what [make_evdev_device] looks for *)

(** The node with 8 axes is the controller. *)
Definition controller_node (d : evdevdrv.InputDevice) : bool :=
  (List.length (evdevdrv.get_axes d) =? 8)%nat.

(** A node at the address [prefix] with 6 axes, none of them
    ABS_MT_POSITION_X, is the motion sensor. *)
Definition gyro_node {E : evdevdrv.ECODES} (prefix : string)
    (d : evdevdrv.InputDevice) : bool :=
  startswith (evdevdrv.phys d) prefix
  && (List.length (evdevdrv.get_axes d) =? 6)%nat
  && negb (existsb (Z.eqb evdevdrv.ABS_MT_POSITION_X) (evdevdrv.get_axes d)).

(** A node at the address [prefix] with 6 axes, one of them
    ABS_MT_POSITION_X, or with 4 axes, is the touchpad. *)
Definition touchpad_node {E : evdevdrv.ECODES} (prefix : string)
    (d : evdevdrv.InputDevice) : bool :=
  startswith (evdevdrv.phys d) prefix
  && (((List.length (evdevdrv.get_axes d) =? 6)%nat
       && existsb (Z.eqb evdevdrv.ABS_MT_POSITION_X) (evdevdrv.get_axes d))
      || (List.length (evdevdrv.get_axes d) =? 4)%nat).

(** The last element of a list that satisfies [f]. *)
Definition last_match {A : Type} (f : A -> bool) (l : list A) : option A :=
  find f (rev l).

(** Nodes as the kernel presents a controller: the pad with 8 axes, the
    motion sensor with 6, and the touchpad with 4 axes, or with 6 that
    include ABS_MT_POSITION_X (0x35). *)
Definition pad_node (phys : string) : evdevdrv.InputDevice :=
  {| evdevdrv.phys := phys;
     evdevdrv.get_axes := [0x00; 0x01; 0x02; 0x03; 0x04; 0x05; 0x10; 0x11] |}.

Definition motion_node (phys : string) : evdevdrv.InputDevice :=
  {| evdevdrv.phys := phys;
     evdevdrv.get_axes := [0x00; 0x01; 0x02; 0x03; 0x04; 0x05] |}.

Definition touch_node (phys : string) : evdevdrv.InputDevice :=
  {| evdevdrv.phys := phys;
     evdevdrv.get_axes := [0x00; 0x01; 0x2f; 0x35; 0x36; 0x39] |}.

Definition touch_node_old (phys : string) : evdevdrv.InputDevice :=
  {| evdevdrv.phys := phys;
     evdevdrv.get_axes := [0x2f; 0x35; 0x36; 0x39] |}.

(** * Controllers of every class on one daemon

    As in [hotplug_step]: a constructor takes the ID that its class
    generates and registers it; [close] unregisters it. *)

(** The classes that define [_generate_id]: [DS4Controller] (for
    [DS4HIDController] and [DS4HIDRawController] too),
    [DS4EvdevController], [DS5Controller], [DS5HidRawController] and
    [DS5EvdevController]. *)
Inductive controller_class : Set :=
| ds4_hid
| ds4_evdev
| ds5_hid
| ds5_hidraw
| ds5_evdev.

Definition generate_id_of (c : controller_class) : SCCDaemon -> option string :=
  match c with
  | ds4_hid => ds4drv.DS4Controller._generate_id
  | ds4_evdev => ds4drv.DS4EvdevController._generate_id
  | ds5_hid => ds5drv.DS5Controller._generate_id
  | ds5_hidraw => ds5drv.DS5HidRawController._generate_id
  | ds5_evdev => ds5drv.DS5EvdevController._generate_id
  end.

Inductive plug : Set :=
| Plug (c : controller_class)
| Unplug (id : string).

Definition plug_step (daemon : SCCDaemon) (ev : plug) : option SCCDaemon :=
  match ev with
  | Plug c => hotplug_step (generate_id_of c) daemon Connect
  | Unplug id => Some (remove_controller id daemon)
  end.

Fixpoint plug_run (daemon : SCCDaemon) (evs : list plug) : option SCCDaemon :=
  match evs with
  | [] => Some daemon
  | ev :: rest =>
      match plug_step daemon ev with
      | Some daemon' => plug_run daemon' rest
      | None => None
      end
  end.

(** * Properties *)

(** ** Python numbers *)

Lemma py_int_floor_ceiling (x : Q) :
  py_int x = if Qle_bool 0 x then Qfloor x else Qceiling x.
Proof.
  destruct x as [n d]. unfold py_int, Qceiling, Qfloor, Qle_bool.
  cbn [Qnum Qden Qopp]. rewrite Z.mul_1_r. change (0 * Z.pos d) with 0.
  destruct (Z.leb_spec 0 n) as [Hn | Hn].
  - apply Z.quot_div_nonneg; lia.
  - replace n with (- - n) at 1 by lia.
    rewrite Z.quot_opp_l by lia.
    rewrite Z.quot_div_nonneg by lia. reflexivity.
Qed.

Lemma py_int_compat (x y : Q) : (x == y)%Q -> py_int x = py_int y.
Proof.
  intro E. rewrite !py_int_floor_ceiling.
  assert (Qle_bool 0 x = Qle_bool 0 y) as ->.
  { destruct (Qle_bool 0 y) eqn:Hy.
    - apply Qle_bool_iff. rewrite E. now apply Qle_bool_iff.
    - destruct (Qle_bool 0 x) eqn:Hx; [|reflexivity].
      apply Qle_bool_iff in Hx. rewrite E in Hx.
      apply Qle_bool_iff in Hx. congruence. }
  destruct (Qle_bool 0 y).
  - now apply Qfloor_comp.
  - now apply Qceiling_comp.
Qed.

Lemma py_int_inject_Z (n : Z) : py_int (inject_Z n) = n.
Proof. unfold py_int. cbn. apply Z.quot_1_r. Qed.

Lemma py_int_monotone (x y : Q) : (x <= y)%Q -> py_int x <= py_int y.
Proof.
  intro L. rewrite !py_int_floor_ceiling.
  destruct (Qle_bool 0 x) eqn:Hx, (Qle_bool 0 y) eqn:Hy.
  - now apply Qfloor_resp_le.
  - apply Qle_bool_iff in Hx.
    assert (0 <= y)%Q as Hy' by (eapply Qle_trans; eauto).
    apply Qle_bool_iff in Hy'. congruence.
  - apply Qle_bool_iff in Hy.
    assert (~ (0 <= x)%Q) as Hx' by (rewrite <- Qle_bool_iff; congruence).
    apply Qnot_le_lt in Hx'.
    apply Z.le_trans with 0.
    + change 0 with (Qceiling 0). apply Qceiling_resp_le.
      now apply Qlt_le_weak.
    + change 0 with (Qfloor 0). now apply Qfloor_resp_le.
  - now apply Qceiling_resp_le.
Qed.

(** ** CRC-32 *)

Lemma lxor_range (n a b : Z) :
  0 <= n -> 0 <= a < 2 ^ n -> 0 <= b < 2 ^ n -> 0 <= Z.lxor a b < 2 ^ n.
Proof.
  intros Hn [Ha0 Ha] [Hb0 Hb].
  assert (0 <= Z.lxor a b) as Hnn by (apply Z.lxor_nonneg; tauto).
  split; [exact Hnn|].
  destruct (Z.eq_dec (Z.lxor a b) 0) as [E | Hne].
  - rewrite E. apply Z.le_lt_trans with a; assumption.
  - assert (0 < n) as Hpos.
    { destruct (Z.eq_dec n 0) as [-> | ?]; [|lia].
      change (2 ^ 0) with 1 in *.
      assert (a = 0) by lia. assert (b = 0) by lia. subst.
      cbn in Hne. congruence. }
    apply Z.log2_lt_pow2; [lia|].
    eapply Z.le_lt_trans; [apply Z.log2_lxor; assumption|].
    apply Z.max_lub_lt.
    + destruct (Z.eq_dec a 0) as [-> | ?]; [cbn; lia | apply Z.log2_lt_pow2; lia].
    + destruct (Z.eq_dec b 0) as [-> | ?]; [cbn; lia | apply Z.log2_lt_pow2; lia].
Qed.

Lemma crc_bit_range (c : Z) : 0 <= c < 2 ^ 32 -> 0 <= zlib.crc_bit c < 2 ^ 32.
Proof.
  intro Hc. unfold zlib.crc_bit.
  assert (0 <= Z.shiftr c 1 < 2 ^ 32) as Hs.
  { rewrite Z.shiftr_div_pow2 by lia. change (2 ^ 1) with 2.
    split; [apply Z.div_pos; lia|]. apply Z.div_lt_upper_bound; lia. }
  destruct (Z.testbit c 0); [|exact Hs].
  apply lxor_range; [lia | exact Hs | unfold zlib.poly; lia].
Qed.

Lemma crc_byte_range (c b : Z) :
  0 <= c < 2 ^ 32 -> is_byte b = true -> 0 <= zlib.crc_byte c b < 2 ^ 32.
Proof.
  intros Hc Hb. unfold zlib.crc_byte.
  assert (0 <= Z.lxor c b < 2 ^ 32) as H0.
  { apply lxor_range; [lia | exact Hc |].
    unfold is_byte in Hb. apply andb_prop in Hb as [H1 H2].
    apply Z.leb_le in H1. apply Z.ltb_lt in H2. lia. }
  cbn [Nat.iter nat_rect].
  do 8 apply crc_bit_range. exact H0.
Qed.

Lemma crc_fold_range (data : list Z) (c : Z) :
  0 <= c < 2 ^ 32 -> is_bytes data = true ->
  0 <= fold_left zlib.crc_byte data c < 2 ^ 32.
Proof.
  revert c. induction data as [|b data IH]; intros c Hc Hd; [exact Hc|].
  cbn in Hd. apply andb_prop in Hd as [Hb Hd].
  cbn [fold_left]. apply IH; [|exact Hd]. now apply crc_byte_range.
Qed.

Lemma crc32_range (data : list Z) (value : Z) :
  is_bytes data = true -> 0 <= zlib.crc32 data value < 2 ^ 32.
Proof.
  intro Hd. unfold zlib.crc32.
  apply lxor_range; [lia | | unfold zlib.mask32; lia].
  apply crc_fold_range; [|exact Hd].
  apply lxor_range; [lia | | unfold zlib.mask32; lia].
  unfold zlib.mask32. change 0xFFFFFFFF with (Z.ones 32).
  rewrite Z.land_ones by lia. apply Z.mod_pos_bound. lia.
Qed.

Lemma land_mask32 (c : Z) : 0 <= c < 2 ^ 32 -> Z.land c 0xFFFFFFFF = c.
Proof.
  intro Hc. change 0xFFFFFFFF with (Z.ones 32).
  rewrite Z.land_ones by lia. apply Z.mod_small. exact Hc.
Qed.

(** A running checksum continues where the checksum of the first part
    stopped. *)
Lemma crc32_app (a b : list Z) :
  is_bytes a = true ->
  zlib.crc32 b (zlib.crc32 a 0) = zlib.crc32 (a ++ b) 0.
Proof.
  intro Ha. unfold zlib.crc32 at 1 3. rewrite fold_left_app. do 2 f_equal.
  rewrite land_mask32 by now apply crc32_range.
  unfold zlib.crc32. rewrite Z.lxor_assoc, Z.lxor_nilpotent, Z.lxor_0_r.
  reflexivity.
Qed.

(** ** Item assignment *)

Lemma firstn_exact {A : Type} (n : nat) (l r : list A) :
  List.length l = n -> firstn n (l ++ r) = l.
Proof.
  intros <-. rewrite firstn_app, firstn_all, Nat.sub_diag. cbn.
  apply app_nil_r.
Qed.

Lemma skipn_exact {A : Type} (n : nat) (l r : list A) :
  List.length l = n -> skipn n (l ++ r) = r.
Proof.
  intros <-. rewrite skipn_app, skipn_all, Nat.sub_diag. reflexivity.
Qed.

Lemma setitem_app (pre rest : list Z) (j : nat) (v : Z) :
  setitem (pre ++ rest) (List.length pre + j) v =
  result_bind (setitem rest j v) (fun r => Ok (pre ++ r)).
Proof.
  induction pre as [|p pre IH]; cbn [app List.length Nat.add setitem].
  - destruct (setitem rest j v); reflexivity.
  - rewrite IH. destruct (setitem rest j v); reflexivity.
Qed.

Lemma setitem_at (pre rest : list Z) (i j : nat) (v : Z) :
  i = (List.length pre + j)%nat ->
  setitem (pre ++ rest) i v =
  result_bind (setitem rest j v) (fun r => Ok (pre ++ r)).
Proof. intros ->. apply setitem_app. Qed.

Lemma is_byte_land_ff (z : Z) : is_byte (Z.land z 0xFF) = true.
Proof.
  unfold is_byte. change 0xFF with (Z.ones 8). rewrite Z.land_ones by lia.
  pose proof (Z.mod_pos_bound z (2 ^ 8) eq_refl) as [H0 H1].
  apply andb_true_intro. split; [apply Z.leb_le | apply Z.ltb_lt]; lia.
Qed.

Lemma is_bytes_cons (b : Z) (l : list Z) :
  is_bytes (b :: l) = is_byte b && is_bytes l.
Proof. reflexivity. Qed.

Lemma is_bytes_app (a b : list Z) :
  is_bytes (a ++ b) = is_bytes a && is_bytes b.
Proof. apply forallb_app. Qed.

Lemma is_bytes_firstn (n : nat) (l : list Z) :
  is_bytes l = true -> is_bytes (firstn n l) = true.
Proof.
  intro H. rewrite <- (firstn_skipn n l), is_bytes_app in H.
  now apply andb_prop in H.
Qed.

(** The four bytes that [_prepare_buffer_crc] stores spell the checksum. *)
Lemma little_endian_crc (c : Z) :
  0 <= c < 2 ^ 32 ->
  little_endian [Z.land c 0xFF; Z.land (Z.shiftr c 8) 0xFF;
                 Z.land (Z.shiftr c 16) 0xFF; Z.land (Z.shiftr c 24) 0xFF] = c.
Proof.
  intro Hc. unfold little_endian, fold_right.
  change 0xFF with (Z.ones 8). rewrite !Z.land_ones, !Z.shiftr_div_pow2 by lia.
  change (2 ^ 8) with 256. change (2 ^ 16) with 65536.
  change (2 ^ 24) with 16777216. change (2 ^ 32) with 4294967296 in Hc.
  Z.to_euclidean_division_equations. lia.
Qed.

(** ** C1: CRC framing of a Bluetooth output report *)

Import ds5drv.

(** What [_prepare_buffer_crc] does to a buffer whose first 74 bytes are
    [body] and which has four more bytes. *)
Lemma prepare_buffer_crc_body (body : list Z) (a b c d : Z) :
  List.length body = 74%nat ->
  is_bytes body = true ->
  let crc := zlib.crc32 (0xA2 :: body) 0 in
  DS5HidRawController._prepare_buffer_crc (body ++ [a; b; c; d]) =
  Ok (body ++ [Z.land crc 0xFF; Z.land (Z.shiftr crc 8) 0xFF;
               Z.land (Z.shiftr crc 16) 0xFF; Z.land (Z.shiftr crc 24) 0xFF]).
Proof.
  intros Hlen Hbody crc. unfold DS5HidRawController._prepare_buffer_crc.
  rewrite (firstn_exact 74) by exact Hlen.
  change DS5HidRawController.BT_CRC32_HEAD with [0xA2].
  rewrite (land_mask32 (zlib.crc32 [0xA2] 0)) by (now apply crc32_range).
  rewrite crc32_app by reflexivity.
  change ([0xA2] ++ body) with (0xA2 :: body). fold crc.
  rewrite (land_mask32 crc).
  2:{ apply crc32_range. rewrite is_bytes_cons, Hbody. reflexivity. }
  rewrite (setitem_at body _ 74 0) by (now rewrite Hlen).
  cbn [setitem]. rewrite is_byte_land_ff. cbn [result_bind].
  rewrite (setitem_at body _ 75 1) by (now rewrite Hlen).
  cbn [setitem]. rewrite is_byte_land_ff. cbn [result_bind].
  rewrite (setitem_at body _ 76 2) by (now rewrite Hlen).
  cbn [setitem]. rewrite is_byte_land_ff. cbn [result_bind].
  rewrite (setitem_at body _ 77 3) by (now rewrite Hlen).
  cbn [setitem]. rewrite is_byte_land_ff. cbn [result_bind].
  reflexivity.
Qed.

Lemma split_at_74 (buf : list Z) :
  List.length buf = 78%nat ->
  exists a b c d, buf = firstn 74 buf ++ [a; b; c; d] /\
                  List.length (firstn 74 buf) = 74%nat.
Proof.
  intro Hlen.
  assert (List.length (skipn 74 buf) = 4%nat) as Hs by (rewrite length_skipn; lia).
  destruct (skipn 74 buf) as [|a [|b [|c [|d [|? ?]]]]] eqn:E; try discriminate.
  exists a, b, c, d. split.
  - rewrite <- E. symmetry. apply firstn_skipn.
  - rewrite length_firstn. lia.
Qed.

(** C1. For every 78-byte buffer, [_prepare_buffer_crc] returns normally
    with a 78-byte buffer whose bytes 0-73 are those of the input and
    whose bytes 74-77, read as a little-endian number, are the CRC-32 of
    the byte 0xA2 followed by bytes 0-73; running it again on the result
    changes nothing. *)
Theorem prepare_buffer_crc_frames (buf : list Z) :
  List.length buf = 78%nat ->
  is_bytes buf = true ->
  exists buf',
    DS5HidRawController._prepare_buffer_crc buf = Ok buf' /\
    List.length buf' = 78%nat /\
    is_bytes buf' = true /\
    firstn 74 buf' = firstn 74 buf /\
    little_endian (skipn 74 buf') = zlib.crc32 (0xA2 :: firstn 74 buf) 0 /\
    DS5HidRawController._prepare_buffer_crc buf' = Ok buf'.
Proof.
  intros Hlen Hbytes.
  destruct (split_at_74 buf Hlen) as (a & b & c & d & Hbuf & Hbody).
  pose proof (is_bytes_firstn 74 buf Hbytes) as Hb.
  set (body := firstn 74 buf) in *.
  pose proof (prepare_buffer_crc_body body a b c d Hbody Hb) as Hrun.
  cbv zeta in Hrun.
  set (crc := zlib.crc32 (0xA2 :: body) 0) in *.
  assert (0 <= crc < 2 ^ 32) as Hcrc.
  { apply crc32_range. rewrite is_bytes_cons, Hb. reflexivity. }
  eexists. rewrite Hbuf at 1. split; [exact Hrun|].
  assert (firstn 74 (body ++ [Z.land crc 255; Z.land (Z.shiftr crc 8) 255;
            Z.land (Z.shiftr crc 16) 255; Z.land (Z.shiftr crc 24) 255]) = body)
    as Hfirst.
  { now apply firstn_exact. }
  repeat split.
  - rewrite length_app, Hbody. reflexivity.
  - rewrite is_bytes_app, Hb, !is_bytes_cons, !is_byte_land_ff.
    reflexivity.
  - exact Hfirst.
  - rewrite (skipn_exact 74) by exact Hbody.
    now apply little_endian_crc.
  - pose proof (prepare_buffer_crc_body body (Z.land crc 255)
      (Z.land (Z.shiftr crc 8) 255) (Z.land (Z.shiftr crc 16) 255)
      (Z.land (Z.shiftr crc 24) 255) Hbody Hb) as Hagain.
    exact Hagain.
Qed.

Lemma prepare_buffer_crc_frames_witness :
  exists buf',
    DS5HidRawController._prepare_buffer_crc
      (bytearray DualSenseHIDOutputBT._fields_ DS5HidRawController.init_output)
    = Ok buf' /\
    List.length buf' = 78%nat /\
    is_bytes buf' = true /\
    firstn 74 buf' =
    firstn 74 (bytearray DualSenseHIDOutputBT._fields_
                 DS5HidRawController.init_output) /\
    little_endian (skipn 74 buf') =
    zlib.crc32 (0xA2 :: firstn 74 (bytearray DualSenseHIDOutputBT._fields_
                                     DS5HidRawController.init_output)) 0 /\
    DS5HidRawController._prepare_buffer_crc buf' = Ok buf'.
Proof.
  apply (prepare_buffer_crc_frames
           (bytearray DualSenseHIDOutputBT._fields_
              DS5HidRawController.init_output)); reflexivity.
Defined.

(** The check value of the CRC-32 catalogue (the digits 1 to 9), the
    checksum of the header byte alone, and the trailer of the
    initialisation report. *)
Example crc32_check_value :
  zlib.crc32 [49; 50; 51; 52; 53; 54; 55; 56; 57] 0 = 0xCBF43926.
Proof. vm_compute. reflexivity. Qed.

Example crc32_bt_head : zlib.crc32 [0xA2] 0 = 0xeada2d49.
Proof. vm_compute. reflexivity. Qed.

Example init_output_framed :
  option_map (skipn 74)
    (match DS5HidRawController._prepare_buffer_crc
             (bytearray DualSenseHIDOutputBT._fields_
                DS5HidRawController.init_output) with
     | Ok b => Some b | Raise _ => None end) = Some [212; 22; 39; 115].
Proof. vm_compute. reflexivity. Qed.

(** ** C2, C10: scaling a stick byte *)

Section StickAxisScale.
Context {K : scc_constants}.

Lemma stick_axis_scale_unfold (value : Z) (invert : bool) :
  DS5HidRawController._stick_axis_scale value invert =
  py_int (tempRatio value invert * inject_Z STICK_PAD_RES
          + inject_Z STICK_PAD_MIN)%Q.
Proof. reflexivity. Qed.

Lemma inject_Z_sub_128 (v : Z) : (inject_Z (v - 128) == inject_Z v - 128)%Q.
Proof.
  unfold Z.sub. rewrite inject_Z_plus. change (inject_Z (- (128))) with (-128)%Q.
  lra.
Qed.

Lemma div_127 (q : Q) : (q / 127.0 == q * (1 # 127))%Q.
Proof. field. Qed.

Lemma div_128 (q : Q) : (q / 128.0 == q * (1 # 128))%Q.
Proof. field. Qed.

Lemma tempRatio_monotone (a b : Z) :
  a <= b ->
  (tempRatio a false <= tempRatio b false)%Q /\
  (tempRatio b true <= tempRatio a true)%Q.
Proof.
  intro Hab. unfold tempRatio.
  pose proof (inject_Z_sub_128 a) as Ea. pose proof (inject_Z_sub_128 b) as Eb.
  assert (inject_Z a <= inject_Z b)%Q as Hq by (now rewrite <- Zle_Qle).
  destruct (Z.leb_spec 128 a) as [Ha | Ha], (Z.leb_spec 128 b) as [Hb | Hb];
    try lia.
  - rewrite !div_127, Ea, Eb. split; lra.
  - assert (inject_Z a < 128)%Q as Ha' by (rewrite Zlt_Qlt in Ha; exact Ha).
    assert (128 <= inject_Z b)%Q as Hb' by (rewrite Zle_Qle in Hb; exact Hb).
    rewrite div_127, div_128, Ea, Eb. split; lra.
  - rewrite !div_128, Ea, Eb. split; lra.
Qed.

Lemma tempRatio_range (v : Z) (invert : bool) :
  0 <= v <= 255 -> (0 <= tempRatio v invert <= 1)%Q.
Proof.
  intros [H0 H255]. unfold tempRatio.
  pose proof (inject_Z_sub_128 v) as Ev.
  assert (0 <= inject_Z v)%Q as Hq0 by (rewrite Zle_Qle in H0; exact H0).
  assert (inject_Z v <= 255)%Q as Hq1 by (rewrite Zle_Qle in H255; exact H255).
  destruct (Z.leb_spec 128 v) as [Hv | Hv].
  - assert (128 <= inject_Z v)%Q by (rewrite Zle_Qle in Hv; exact Hv).
    destruct invert; rewrite div_127, Ev; split; lra.
  - assert (inject_Z v < 128)%Q by (rewrite Zlt_Qlt in Hv; exact Hv).
    destruct invert; rewrite div_128, Ev; split; lra.
Qed.

Lemma scale_le (s t : Q) :
  0 <= STICK_PAD_RES -> (s <= t)%Q ->
  py_int (s * inject_Z STICK_PAD_RES + inject_Z STICK_PAD_MIN)%Q <=
  py_int (t * inject_Z STICK_PAD_RES + inject_Z STICK_PAD_MIN)%Q.
Proof.
  intros HR Hst. apply py_int_monotone.
  apply Qplus_le_l. apply Qmult_le_compat_r; [exact Hst|].
  rewrite Zle_Qle in HR. exact HR.
Qed.

Lemma stick_axis_scale_bounds (v : Z) (invert : bool) :
  0 <= STICK_PAD_RES -> 0 <= v <= 255 ->
  STICK_PAD_MIN <= DS5HidRawController._stick_axis_scale v invert
                <= STICK_PAD_MIN + STICK_PAD_RES.
Proof.
  intros HR Hv. rewrite stick_axis_scale_unfold.
  destruct (tempRatio_range v invert Hv) as [H0 H1].
  split.
  - rewrite <- (py_int_inject_Z STICK_PAD_MIN) at 1.
    rewrite (py_int_compat (inject_Z STICK_PAD_MIN)
               (0 * inject_Z STICK_PAD_RES + inject_Z STICK_PAD_MIN)%Q) by lra.
    now apply scale_le.
  - rewrite <- (py_int_inject_Z (STICK_PAD_MIN + STICK_PAD_RES)).
    rewrite (py_int_compat (inject_Z (STICK_PAD_MIN + STICK_PAD_RES))
               (1 * inject_Z STICK_PAD_RES + inject_Z STICK_PAD_MIN)%Q)
      by (rewrite inject_Z_plus; lra).
    now apply scale_le.
Qed.

End StickAxisScale.

(** C10. With a non-negative range, [_stick_axis_scale] is monotone on the
    raw bytes, increasing when [invert] is off and decreasing when it is
    on, and its result lies in [STICK_PAD_MIN, STICK_PAD_MIN+STICK_PAD_RES]
    for every raw byte and either [invert] flag. *)
Theorem stick_axis_scale_monotone {K : scc_constants} (a b : Z) (invert : bool) :
  0 <= STICK_PAD_RES ->
  0 <= a -> a <= b -> b <= 255 ->
  DS5HidRawController._stick_axis_scale a false
    <= DS5HidRawController._stick_axis_scale b false /\
  DS5HidRawController._stick_axis_scale a true
    >= DS5HidRawController._stick_axis_scale b true /\
  STICK_PAD_MIN <= DS5HidRawController._stick_axis_scale a invert
                <= STICK_PAD_MIN + STICK_PAD_RES.
Proof.
  intros HR Ha Hab Hb.
  destruct (tempRatio_monotone a b Hab) as [Hinc Hdec].
  rewrite !stick_axis_scale_unfold. repeat split.
  - now apply scale_le.
  - apply Z.le_ge. now apply scale_le.
  - rewrite <- stick_axis_scale_unfold. apply stick_axis_scale_bounds; lia.
  - rewrite <- stick_axis_scale_unfold. apply stick_axis_scale_bounds; lia.
Qed.

Lemma stick_axis_scale_monotone_witness :
  DS5HidRawController._stick_axis_scale (K := host16) 100 false
    <= DS5HidRawController._stick_axis_scale (K := host16) 200 false /\
  DS5HidRawController._stick_axis_scale (K := host16) 100 true
    >= DS5HidRawController._stick_axis_scale (K := host16) 200 true /\
  -32768 <= DS5HidRawController._stick_axis_scale (K := host16) 100 true
         <= -32768 + 65535.
Proof.
  apply (stick_axis_scale_monotone (K := host16) 100 200 true);
    cbn; lia.
Defined.

(** C2, as the code has it.  With a non-negative range and [invert] off,
    raw 0 maps to [STICK_PAD_MIN], raw 255 to
    [STICK_PAD_MIN + STICK_PAD_RES], raw 128 to the center of that
    interval truncated toward zero (the exact center when
    [STICK_PAD_RES] is even), and no raw byte maps outside the
    interval. *)
Theorem stick_axis_scale_landmarks {K : scc_constants} :
  0 <= STICK_PAD_RES ->
  DS5HidRawController._stick_axis_scale 0 false = STICK_PAD_MIN /\
  DS5HidRawController._stick_axis_scale 255 false
    = STICK_PAD_MIN + STICK_PAD_RES /\
  DS5HidRawController._stick_axis_scale 128 false
    = (2 * STICK_PAD_MIN + STICK_PAD_RES) ÷ 2 /\
  (Z.even STICK_PAD_RES = true ->
   2 * DS5HidRawController._stick_axis_scale 128 false
     = 2 * STICK_PAD_MIN + STICK_PAD_RES) /\
  (forall value, 0 <= value <= 255 ->
     STICK_PAD_MIN <= DS5HidRawController._stick_axis_scale value false
                   <= STICK_PAD_MIN + STICK_PAD_RES).
Proof.
  intro HR.
  assert (tempRatio 0 false == 0)%Q as T0 by (vm_compute; reflexivity).
  assert (tempRatio 128 false == 1 # 2)%Q as T128 by (vm_compute; reflexivity).
  assert (tempRatio 255 false == 1)%Q as T255 by (vm_compute; reflexivity).
  assert (DS5HidRawController._stick_axis_scale 128 false
          = (2 * STICK_PAD_MIN + STICK_PAD_RES) ÷ 2) as Hmid.
  { rewrite stick_axis_scale_unfold.
    rewrite (py_int_compat _ ((2 * STICK_PAD_MIN + STICK_PAD_RES) # 2)).
    - reflexivity.
    - rewrite T128, (Qmake_Qdiv (2 * STICK_PAD_MIN + STICK_PAD_RES) 2).
      rewrite inject_Z_plus, inject_Z_mult.
      change (inject_Z 2) with 2%Q. change (inject_Z (Z.pos 2)) with 2%Q.
      field. }
  repeat split.
  - rewrite stick_axis_scale_unfold.
    rewrite (py_int_compat _ (inject_Z STICK_PAD_MIN)).
    + apply py_int_inject_Z.
    + rewrite T0. ring.
  - rewrite stick_axis_scale_unfold.
    rewrite (py_int_compat _ (inject_Z (STICK_PAD_MIN + STICK_PAD_RES))).
    + apply py_int_inject_Z.
    + rewrite T255, inject_Z_plus. ring.
  - exact Hmid.
  - intro Heven. rewrite Hmid.
    apply Z.even_spec in Heven. destruct Heven as [k Hk]. rewrite Hk.
    replace (2 * STICK_PAD_MIN + 2 * k) with ((STICK_PAD_MIN + k) * 2) by lia.
    rewrite Z.quot_mul by lia. lia.
  - apply stick_axis_scale_bounds; assumption.
  - apply stick_axis_scale_bounds; assumption.
Qed.

Lemma stick_axis_scale_landmarks_witness :
  DS5HidRawController._stick_axis_scale (K := host16) 0 false = -32768 /\
  DS5HidRawController._stick_axis_scale (K := host16) 255 false
    = -32768 + 65535 /\
  DS5HidRawController._stick_axis_scale (K := host16) 128 false
    = (2 * -32768 + 65535) ÷ 2 /\
  (Z.even 65535 = true ->
   2 * DS5HidRawController._stick_axis_scale (K := host16) 128 false
     = 2 * -32768 + 65535) /\
  (forall value, 0 <= value <= 255 ->
     -32768 <= DS5HidRawController._stick_axis_scale (K := host16) value false
            <= -32768 + 65535).
Proof.
  apply (stick_axis_scale_landmarks (K := host16)). cbn. lia.
Defined.

(** C2, as the spec words it, fails for the 16-bit host: raw 128 maps
    to 0, and the center of [-32768, 32767] is -1/2. *)
Lemma stick_axis_scale_center_not_exact :
  DS5HidRawController._stick_axis_scale (K := host16) 128 false = 0 /\
  ~ (inject_Z (DS5HidRawController._stick_axis_scale (K := host16) 128 false)
     == inject_Z (STICK_PAD_MIN (scc_constants := host16))
        + inject_Z (STICK_PAD_RES (scc_constants := host16)) / 2)%Q.
Proof.
  split; [reflexivity|]. vm_compute. discriminate.
Qed.

Example stick_axis_scale_host16 :
  map (fun v => DS5HidRawController._stick_axis_scale (K := host16) v false)
      [0; 1; 64; 127; 128; 129; 192; 254; 255]
  = [-32768; -32512; -16384; -256; 0; 257; 16512; 32508; 32767] /\
  map (fun v => DS5HidRawController._stick_axis_scale (K := host16) v true)
      [0; 1; 64; 127; 128; 129; 192; 254; 255]
  = [32767; 32511; 16383; 255; 0; -258; -16513; -32509; -32768].
Proof. vm_compute. split; reflexivity. Qed.

(** On the 16-bit host, evaluating [_stick_axis_scale] in binary64 and on
    rationals gives the same integer for every raw byte and both
    [invert] flags. *)
Lemma stick_axis_scale_binary64_agrees (value : Z) (invert : bool) :
  0 <= value <= 255 ->
  _stick_axis_scale_binary64 (K := host16) value invert
  = Ok (DS5HidRawController._stick_axis_scale (K := host16) value invert).
Proof.
  intro Hv.
  assert (forallb (fun n =>
            let v := Z.of_nat n in
            match _stick_axis_scale_binary64 (K := host16) v false,
                  _stick_axis_scale_binary64 (K := host16) v true with
            | Ok f, Ok t =>
                (f =? DS5HidRawController._stick_axis_scale (K := host16) v false)
                && (t =? DS5HidRawController._stick_axis_scale (K := host16) v true)
            | _, _ => false
            end) (seq 0 256) = true) as Hall by (vm_compute; reflexivity).
  rewrite forallb_forall in Hall.
  specialize (Hall (Z.to_nat value)).
  rewrite Z2Nat.id in Hall by lia.
  cbv zeta in Hall.
  assert (In (Z.to_nat value) (seq 0 256)) as Hin by (apply in_seq; lia).
  specialize (Hall Hin).
  destruct (_stick_axis_scale_binary64 value false) as [f|] eqn:Ef; [|discriminate].
  destruct (_stick_axis_scale_binary64 value true) as [t|] eqn:Et; [|discriminate].
  apply andb_prop in Hall as [Hf Ht].
  apply Z.eqb_eq in Hf. apply Z.eqb_eq in Ht.
  destruct invert; congruence.
Qed.

(** ** C3: integrating a zero rotation *)

Section Quaternion.
Context {K : scc_constants} {libm : math}.
Import DS5HidRawController.

Lemma half_angle_zero (g : Z) (dt : Q) :
  g = 0 \/ (dt == 0)%Q ->
  (inject_Z g / 16 * dt * math_pi / 180.0 / 2 == 0)%Q.
Proof.
  intros [-> | E].
  - change (inject_Z 0) with 0%Q. field.
  - rewrite E. field.
Qed.

(** C3. When the three gyro values of the state are zero, or the elapsed
    time is zero, [_calculate_quaternion] returns normally and the stored
    cumulative quaternion keeps its value; if that quaternion is the
    identity (1, 0, 0, 0), the scaled outputs are q1 = 32767 and
    q2 = q3 = q4 = 0.  The C library's [sin] and [cos] enter through
    their values at zero only. *)
Theorem calculate_quaternion_at_rest (self : t)
    (state : DualSenseBTControllerInput.t) :
  (forall a, a == 0 -> math_sin a == 0)%Q ->
  (forall a, a == 0 -> math_cos a == 1)%Q ->
  (state DualSenseBTControllerInput.gyaw = 0 /\
   state DualSenseBTControllerInput.gpitch = 0 /\
   state DualSenseBTControllerInput.groll = 0) \/ (_delta_time self == 0)%Q ->
  exists state' self',
    _calculate_quaternion state self = (Ok state', self') /\
    quat_eq (_previous_quat self') (_previous_quat self) /\
    (quat_eq (_previous_quat self) (1, 0, 0, 0)%Q ->
     state' DualSenseBTControllerInput.q1 = 32767 /\
     state' DualSenseBTControllerInput.q2 = 0 /\
     state' DualSenseBTControllerInput.q3 = 0 /\
     state' DualSenseBTControllerInput.q4 = 0).
Proof.
  intros Hsin Hcos Hrest.
  unfold _calculate_quaternion.
  destruct (_previous_quat self) as [[[ow ox] oy] oz] eqn:Eq.
  unfold bind, get, put, ret. rewrite Eq.
  set (hr := (inject_Z (state DualSenseBTControllerInput.groll) / 16
              * _delta_time self * math_pi / 180.0 / 2)%Q).
  set (hp := (inject_Z (state DualSenseBTControllerInput.gpitch) / 16
              * _delta_time self * math_pi / 180.0 / 2)%Q).
  set (hy := (inject_Z (state DualSenseBTControllerInput.gyaw) / 16
              * _delta_time self * math_pi / 180.0 / 2)%Q).
  assert (hr == 0)%Q as Hr by (apply half_angle_zero; tauto).
  assert (hp == 0)%Q as Hp by (apply half_angle_zero; tauto).
  assert (hy == 0)%Q as Hy by (apply half_angle_zero; tauto).
  pose proof (Hsin hr Hr) as Sr. pose proof (Hsin hp Hp) as Sp.
  pose proof (Hsin hy Hy) as Sy. pose proof (Hcos hr Hr) as Cr.
  pose proof (Hcos hp Hp) as Cp. pose proof (Hcos hy Hy) as Cy.
  clearbody hr hp hy.
  set (sr := math_sin hr) in *. set (sp := math_sin hp) in *.
  set (sy := math_sin hy) in *. set (cr := math_cos hr) in *.
  set (cp := math_cos hp) in *. set (cy := math_cos hy) in *.
  clearbody sr sp sy cr cp cy.
  do 2 eexists. split; [reflexivity|]. split.
  - cbn [_previous_quat set_previous_quat]. unfold quat_eq.
    repeat split; rewrite Sr, Sp, Sy, Cr, Cp, Cy; ring.
  - unfold quat_eq. intros (Hw & Hx & Hy' & Hz).
    cbv [DualSenseBTControllerInput.set setattr
         DualSenseBTControllerInput.field_beq DualSenseBTControllerInput.ctype].
    repeat split.
    + rewrite (py_int_compat _ (inject_Z 32767)).
      * reflexivity.
      * rewrite Sr, Sp, Sy, Cr, Cp, Cy, Hw, Hx, Hy', Hz.
        change (inject_Z 32767) with 32767%Q. field.
    + rewrite (py_int_compat _ (inject_Z 0)).
      * reflexivity.
      * rewrite Sr, Sp, Sy, Cr, Cp, Cy, Hw, Hx, Hy', Hz.
        change (inject_Z 0) with 0%Q. field.
    + rewrite (py_int_compat _ (inject_Z 0)).
      * reflexivity.
      * rewrite Sr, Sp, Sy, Cr, Cp, Cy, Hw, Hx, Hy', Hz.
        change (inject_Z 0) with 0%Q. field.
    + rewrite (py_int_compat _ (inject_Z 0)).
      * reflexivity.
      * rewrite Sr, Sp, Sy, Cr, Cp, Cy, Hw, Hx, Hy', Hz.
        change (inject_Z 0) with 0%Q. field.
Qed.

End Quaternion.

Lemma poly_math_sin_0 (a : Q) : (a == 0 -> math_sin (math := poly_math) a == 0)%Q.
Proof. intro E. cbn. rewrite E. reflexivity. Qed.

Lemma poly_math_cos_0 (a : Q) : (a == 0 -> math_cos (math := poly_math) a == 1)%Q.
Proof. intro E. cbn. rewrite E. reflexivity. Qed.

Lemma calculate_quaternion_at_rest_witness :
  exists state' self',
    DS5HidRawController._calculate_quaternion (libm := poly_math)
      DualSenseBTControllerInput.new (DS5HidRawController.init 0 0)
    = (Ok state', self') /\
    quat_eq (DS5HidRawController._previous_quat self')
            (DS5HidRawController._previous_quat (DS5HidRawController.init 0 0)) /\
    (quat_eq (DS5HidRawController._previous_quat (DS5HidRawController.init 0 0))
             (1, 0, 0, 0)%Q ->
     state' DualSenseBTControllerInput.q1 = 32767 /\
     state' DualSenseBTControllerInput.q2 = 0 /\
     state' DualSenseBTControllerInput.q3 = 0 /\
     state' DualSenseBTControllerInput.q4 = 0).
Proof.
  apply (calculate_quaternion_at_rest (libm := poly_math)
           (DS5HidRawController.init 0 0) DualSenseBTControllerInput.new).
  - exact poly_math_sin_0.
  - exact poly_math_cos_0.
  - left. repeat split; reflexivity.
Defined.

(** ** Button masks *)

Lemma c_uint32_land (z : Z) : c_uint32 z = Z.land z (Z.ones 32).
Proof. unfold c_uint32. now rewrite Z.land_ones by lia. Qed.

Lemma land_ones32 (m : Z) : 0 <= m < 2 ^ 32 -> Z.land m (Z.ones 32) = m.
Proof. intro H. rewrite Z.land_ones by lia. now apply Z.mod_small. Qed.

Lemma land_c_uint32 (z m : Z) :
  0 <= m < 2 ^ 32 -> Z.land (c_uint32 z) m = Z.land z m.
Proof.
  intro Hm. rewrite c_uint32_land, <- Z.land_assoc.
  rewrite (Z.land_comm (Z.ones 32)), land_ones32 by exact Hm. reflexivity.
Qed.

Section Pressed.
Context {K : scc_constants}.
Hypothesis HK : constants_ok K.

Lemma flag_32 (b : SCButtons.t) : 0 <= flag b < 2 ^ 32.
Proof. pose proof (flag_range K HK b). lia. Qed.

Lemma pressed_0 (b : SCButtons.t) : pressed 0 b = false.
Proof.
  unfold pressed. rewrite Z.land_0_l. apply Z.eqb_neq.
  pose proof (flag_range K HK b). lia.
Qed.

Lemma pressed_c_uint32 (z : Z) (b : SCButtons.t) :
  pressed (c_uint32 z) b = pressed z b.
Proof. unfold pressed. now rewrite land_c_uint32 by apply flag_32. Qed.

Lemma pressed_lor_same (z : Z) (b : SCButtons.t) :
  pressed (Z.lor z (flag b)) b = true.
Proof.
  unfold pressed. apply Z.eqb_eq. apply Z.bits_inj'. intros n Hn.
  rewrite Z.land_spec, Z.lor_spec.
  destruct (Z.testbit z n), (Z.testbit (flag b) n); reflexivity.
Qed.

Lemma pressed_lor_other (z : Z) (b b' : SCButtons.t) :
  b' <> b -> pressed (Z.lor z (flag b')) b = pressed z b.
Proof.
  intro Hne. unfold pressed.
  rewrite Z.land_lor_distr_l, (flag_disjoint K HK b' b Hne), Z.lor_0_r.
  reflexivity.
Qed.

Lemma pressed_land_lnot_same (z : Z) (b : SCButtons.t) :
  pressed (Z.land z (Z.lnot (flag b))) b = false.
Proof.
  unfold pressed. rewrite <- Z.land_assoc, (Z.land_comm (Z.lnot _)).
  rewrite Z.land_lnot_diag, Z.land_0_r. apply Z.eqb_neq.
  pose proof (flag_range K HK b). lia.
Qed.

End Pressed.

(** ** Decoding a Bluetooth input frame *)

Section Decode.
Context {K : scc_constants} {libm : math}.
Hypothesis HK : constants_ok K.
Import DS5HidRawController.

Lemma set_same (st : DualSenseBTControllerInput.t)
    (f : DualSenseBTControllerInput.field) (v : Z) :
  DualSenseBTControllerInput.set st f v f = DualSenseBTControllerInput.ctype f v.
Proof. destruct f; reflexivity. Qed.

Lemma set_other (st : DualSenseBTControllerInput.t)
    (f g : DualSenseBTControllerInput.field) (v : Z) :
  f <> g -> DualSenseBTControllerInput.set st f v g = st g.
Proof. intro Hne. destruct f, g; try reflexivity; congruence. Qed.

Lemma ior_buttons_field (st : DualSenseBTControllerInput.t) (m : Z)
    (g : DualSenseBTControllerInput.field) :
  DualSenseBTControllerInput.buttons <> g -> ior_buttons st m g = st g.
Proof. intro Hne. unfold ior_buttons. now apply set_other. Qed.

Lemma button_bit_field (tempbyte n : Z) (b : SCButtons.t)
    (st : DualSenseBTControllerInput.t) (g : DualSenseBTControllerInput.field) :
  DualSenseBTControllerInput.buttons <> g -> button_bit tempbyte n b st g = st g.
Proof.
  intro Hne. unfold button_bit.
  destruct (bit_is_set tempbyte n); [now apply ior_buttons_field | reflexivity].
Qed.

Lemma ior_buttons_pressed_same (st : DualSenseBTControllerInput.t)
    (b : SCButtons.t) :
  pressed (ior_buttons st (flag b) DualSenseBTControllerInput.buttons) b = true.
Proof.
  unfold ior_buttons. rewrite set_same. cbn [DualSenseBTControllerInput.ctype].
  rewrite pressed_c_uint32 by exact HK. apply pressed_lor_same.
Qed.

Lemma ior_buttons_pressed_other (st : DualSenseBTControllerInput.t)
    (b b' : SCButtons.t) :
  b' <> b ->
  pressed (ior_buttons st (flag b') DualSenseBTControllerInput.buttons) b
  = pressed (st DualSenseBTControllerInput.buttons) b.
Proof.
  intro Hne. unfold ior_buttons. rewrite set_same.
  cbn [DualSenseBTControllerInput.ctype].
  rewrite pressed_c_uint32 by exact HK. now apply pressed_lor_other.
Qed.

Lemma button_bit_pressed_other (tempbyte n : Z) (b b' : SCButtons.t)
    (st : DualSenseBTControllerInput.t) :
  b' <> b ->
  pressed (button_bit tempbyte n b' st DualSenseBTControllerInput.buttons) b
  = pressed (st DualSenseBTControllerInput.buttons) b.
Proof.
  intro Hne. unfold button_bit.
  destruct (bit_is_set tempbyte n); [now apply ior_buttons_pressed_other|].
  reflexivity.
Qed.

(** [state.buttons |= LPAD | LPADTOUCH] *)
Lemma ior_two_pressed (st : DualSenseBTControllerInput.t)
    (b1 b2 b : SCButtons.t) :
  pressed (ior_buttons st (Z.lor (flag b1) (flag b2))
             DualSenseBTControllerInput.buttons) b
  = pressed (ior_buttons (ior_buttons st (flag b1)) (flag b2)
               DualSenseBTControllerInput.buttons) b.
Proof.
  unfold ior_buttons. rewrite !set_same. cbn [DualSenseBTControllerInput.ctype].
  rewrite !pressed_c_uint32 by exact HK.
  unfold pressed at 2. rewrite Z.land_lor_distr_l, land_c_uint32 by apply flag_32, HK.
  rewrite <- Z.land_lor_distr_l, <- Z.lor_assoc. reflexivity.
Qed.

(** [_calculate_quaternion] assigns the four quaternion fields of the
    state and the controller's running quaternion, and nothing else. *)
Lemma calculate_quaternion_frame (st : DualSenseBTControllerInput.t) (self : t) :
  exists v1 v2 v3 v4 q,
    _calculate_quaternion st self
    = (Ok (DualSenseBTControllerInput.set
             (DualSenseBTControllerInput.set
                (DualSenseBTControllerInput.set
                   (DualSenseBTControllerInput.set st
                      DualSenseBTControllerInput.q1 v1)
                   DualSenseBTControllerInput.q2 v2)
                DualSenseBTControllerInput.q3 v3)
             DualSenseBTControllerInput.q4 v4),
       set_previous_quat q self).
Proof.
  unfold _calculate_quaternion, bind, get, put, ret.
  destruct (_previous_quat self) as [[[ow ox] oy] oz].
  do 5 eexists. reflexivity.
Qed.

Lemma c_int32_small (v : Z) : - 2 ^ 31 <= v < 2 ^ 31 -> c_int32 v = v.
Proof. intro H. unfold c_int32. rewrite Z.mod_small; lia. Qed.

(** The table of the code, looked up with its default, is the table of
    the spec. *)
Lemma dpad_lookup (n : Z) :
  let tempDPad := dict_get_default DPAD_STATE_TYPES n DPAD_CENTERED_STATE in
  (x tempDPad, y tempDPad) = dpad_table n.
Proof.
  destruct n as [|p|p]; try reflexivity.
  do 4 (try destruct p as [p|p|]); reflexivity.
Qed.

Lemma dpad_values_int32 (n : Z) :
  - 2 ^ 31 <= fst (dpad_table n) < 2 ^ 31 /\
  - 2 ^ 31 <= snd (dpad_table n) < 2 ^ 31.
Proof.
  pose proof (MIN_int32 K HK). pose proof (MAX_int32 K HK).
  destruct n as [|p|p]; cbn; try lia.
  do 4 (try destruct p as [p|p|]); cbn; lia.
Qed.

Ltac walk :=
  repeat first
    [ rewrite set_other by discriminate
    | rewrite button_bit_field by discriminate
    | rewrite ior_buttons_field by discriminate
    | rewrite button_bit_pressed_other by discriminate
    | rewrite ior_buttons_pressed_other by discriminate
    | rewrite ior_two_pressed
    | rewrite ior_buttons_pressed_same
    | rewrite set_same ].

(** A 78-byte frame decodes without an exception; the left pad and the
    two touch flags of the decoded state. *)
Lemma convert_input_data_78 (data : list Z) (self : t) :
  List.length data = 78%nat ->
  exists st self',
    _convert_input_data data self = (Ok st, self') /\
    let nibble := Z.land (nth 9 data 0) 0x0F in
    (st DualSenseBTControllerInput.lpad_x, st DualSenseBTControllerInput.lpad_y)
      = (if nibble =? 8 then (0, 0) else dpad_table nibble) /\
    pressed (st DualSenseBTControllerInput.buttons) SCButtons.LPAD
      = negb (nibble =? 8) /\
    pressed (st DualSenseBTControllerInput.buttons) SCButtons.LPADTOUCH
      = negb (nibble =? 8) /\
    pressed (st DualSenseBTControllerInput.buttons) SCButtons.CPADTOUCH
      = (Z.land (nth 34 data 0) 0x80 =? 0).
Proof.
  intro Hlen.
  do 78 (destruct data as [|? data]; [discriminate|]).
  destruct data; [|discriminate]. clear Hlen.
  unfold _convert_input_data.
  cbv [bind lift getitem nth_error ret].
  match goal with
  | |- context [_calculate_quaternion ?front self] =>
      destruct (calculate_quaternion_frame front self)
        as (v1 & v2 & v3 & v4 & q & Equat); rewrite Equat; clear Equat
  end.
  cbv beta iota.
  do 2 eexists. split; [reflexivity|].
  cbn [nth]. cbv zeta.
  match goal with
  | |- context [Z.land ?d 15 =? 8] => set (nibble := Z.land d 15)
  end.
  match goal with
  | |- context [Z.land ?d 128 =? 0] => set (touch := Z.land d 128 =? 0)
  end.
  pose proof (dpad_lookup nibble) as Htab. cbv zeta in Htab.
  pose proof (dpad_values_int32 nibble) as [Hx Hy].
  rewrite <- Htab in Hx, Hy. cbn [fst snd] in Hx, Hy.
  destruct touch; destruct (nibble =? 8); cbn [negb];
    (split; [| split; [| split]]); walk;
    cbn [DualSenseBTControllerInput.ctype];
    try (change (DualSenseBTControllerInput.new DualSenseBTControllerInput.buttons)
           with 0; now apply pressed_0);
    try reflexivity;
    try (rewrite !c_int32_small by assumption; exact Htab).
Qed.

End Decode.

Lemma host16_ok : constants_ok host16.
Proof.
  split.
  - cbn. lia.
  - cbn. lia.
  - intro b. destruct b; cbn; lia.
  - intros b b' Hne. destruct b, b'; try reflexivity; congruence.
Qed.

Lemma dpad_table_centered {K : scc_constants} (n : Z) :
  n = 8 \/ ~ 0 <= n <= 8 -> dpad_table n = (0, 0).
Proof.
  intros [-> | Hout]; [reflexivity|].
  destruct n as [|p|p]; try reflexivity; [lia|].
  do 4 (try destruct p as [p|p|]); try reflexivity; lia.
Qed.

(** ** C4: the D-pad nibble *)

(** C4. For every 78-byte Bluetooth input frame, decoding succeeds and
    the low nibble of byte 9 gives the left-pad position of the spec's
    table; the LPAD and LPADTOUCH flags are set exactly when the nibble is
    not 8; nibble 8 and every nibble outside 0-8 give position (0, 0). *)
Theorem dpad_nibble_decodes {K : scc_constants} {libm : math}
    (data : list Z) (self : DS5HidRawController.t) :
  constants_ok K ->
  List.length data = 78%nat ->
  exists state self',
    DS5HidRawController._convert_input_data data self = (Ok state, self') /\
    let nibble := Z.land (nth 9 data 0) 0x0F in
    (state DualSenseBTControllerInput.lpad_x,
     state DualSenseBTControllerInput.lpad_y) = dpad_table nibble /\
    pressed (state DualSenseBTControllerInput.buttons) SCButtons.LPAD
      = negb (nibble =? 8) /\
    pressed (state DualSenseBTControllerInput.buttons) SCButtons.LPADTOUCH
      = negb (nibble =? 8) /\
    (nibble = 8 \/ ~ 0 <= nibble <= 8 ->
     (state DualSenseBTControllerInput.lpad_x,
      state DualSenseBTControllerInput.lpad_y) = (0, 0)).
Proof.
  intros HK Hlen.
  destruct (convert_input_data_78 HK data self Hlen)
    as (st & self' & Hrun & Hpad & Hl & Hlt & _).
  exists st, self'. split; [exact Hrun|]. cbv zeta in *.
  assert ((st DualSenseBTControllerInput.lpad_x,
           st DualSenseBTControllerInput.lpad_y)
          = dpad_table (Z.land (nth 9 data 0) 15)) as Htab.
  { rewrite Hpad. destruct (Z.eqb_spec (Z.land (nth 9 data 0) 15) 8) as [-> |];
      reflexivity. }
  repeat split; try assumption.
  intro Hout. rewrite Htab. now apply dpad_table_centered.
Qed.

Lemma dpad_nibble_decodes_witness :
  exists state self',
    DS5HidRawController._convert_input_data (K := host16) (libm := poly_math)
      (bt_frame 0x02) bt_with_mapper = (Ok state, self') /\
    let nibble := Z.land (nth 9 (bt_frame 0x02) 0) 0x0F in
    (state DualSenseBTControllerInput.lpad_x,
     state DualSenseBTControllerInput.lpad_y) = dpad_table (K := host16) nibble /\
    pressed (K := host16) (state DualSenseBTControllerInput.buttons) SCButtons.LPAD
      = negb (nibble =? 8) /\
    pressed (K := host16) (state DualSenseBTControllerInput.buttons)
      SCButtons.LPADTOUCH = negb (nibble =? 8) /\
    (nibble = 8 \/ ~ 0 <= nibble <= 8 ->
     (state DualSenseBTControllerInput.lpad_x,
      state DualSenseBTControllerInput.lpad_y) = (0, 0)).
Proof.
  apply (dpad_nibble_decodes (K := host16) (libm := poly_math)
           (bt_frame 0x02) bt_with_mapper).
  - exact host16_ok.
  - reflexivity.
Defined.

(** The left pad and its two flags for the nibbles 0-9 and 15. *)
Example lpad_of_each_nibble :
  map lpad_of [0; 1; 2; 3; 4; 5; 6; 7; 8; 9; 15] =
  [ Some (0, 32767, true, true); Some (32767, 32767, true, true);
    Some (32767, 0, true, true); Some (32767, -32768, true, true);
    Some (0, -32768, true, true); Some (-32768, -32768, true, true);
    Some (-32768, 0, true, true); Some (-32768, 32767, true, true);
    Some (0, 0, false, false);
    Some (0, 0, true, true); Some (0, 0, true, true) ].
Proof. vm_compute. reflexivity. Qed.

(** ** C6: the center-pad touch bit *)

Lemma land_128_testbit (d : Z) : (Z.land d 0x80 =? 0) = negb (Z.testbit d 7).
Proof.
  change 0x80 with (2 ^ 7).
  destruct (Z.testbit d 7) eqn:E; cbn [negb].
  - apply Z.eqb_neq. intro H0.
    assert (Z.testbit (Z.land d (2 ^ 7)) 7 = true) as Hb.
    { rewrite Z.land_spec, E, Z.pow2_bits_true by lia. reflexivity. }
    rewrite H0 in Hb. discriminate.
  - apply Z.eqb_eq. apply Z.bits_inj'. intros n Hn.
    rewrite Z.land_spec, Z.bits_0, Z.pow2_bits_eqb by lia.
    destruct (Z.eqb_spec 7 n) as [<- |]; [now rewrite E | apply andb_false_r].
Qed.

Lemma shiftr_7_testbit (d : Z) :
  0 <= d < 256 -> (Z.shiftr d 7 =? 0) = negb (Z.testbit d 7).
Proof.
  intro Hd.
  assert (Z.testbit d 7 = Z.odd (Z.shiftr d 7)) as ->.
  { rewrite <- Z.bit0_odd, Z.shiftr_spec by lia. reflexivity. }
  rewrite Z.shiftr_div_pow2 by lia. change (2 ^ 7) with 128.
  assert (d / 128 = 0 \/ d / 128 = 1) as [-> | ->]
    by (Z.to_euclidean_division_equations; lia); reflexivity.
Qed.

(** The USB path: when the decoder accepts the report and a mapper is
    attached, the CPADTOUCH flag of the dispatched state is set exactly
    when bit 7 of byte 33 is clear. *)
Lemma usb_input_cpad_touch {K : scc_constants} {H : hiddrv}
    (endpoint : Z) (data : list Z) (self : DS5Controller.t)
    (m : Mapper HIDControllerInput) (d33 : Z) :
  constants_ok K ->
  DS5Controller.mapper self = Some m ->
  fst (decode (DS5Controller._decoder self) data) = true ->
  nth_error data 33 = Some d33 -> 0 <= d33 < 256 ->
  exists self',
    DS5Controller.input endpoint data self = (Ok tt, self') /\
    pressed (hid_buttons (state (DS5Controller._decoder self')))
            SCButtons.CPADTOUCH = negb (Z.testbit d33 7) /\
    DS5Controller.mapper self'
    = Some (Mapper_input (old_state (DS5Controller._decoder self'))
                         (state (DS5Controller._decoder self')) m).
Proof.
  intros HK Hm Hok H33 Hd.
  unfold DS5Controller.input, bind, get, put, lift, modify, getitem.
  destruct (decode (DS5Controller._decoder self) data) as [ok dec].
  cbn [fst] in Hok. subst ok.
  cbn [DS5Controller.mapper DS5Controller.set_decoder]. rewrite Hm, H33.
  rewrite shiftr_7_testbit by exact Hd.
  destruct (Z.testbit d33 7); cbn [negb]; eexists; (split; [reflexivity|]);
    cbn [DS5Controller._decoder DS5Controller.set_decoder DS5Controller.set_mapper
         DS5Controller.mapper set_state_buttons state hid_buttons old_state];
    (split; [|reflexivity]); rewrite pressed_c_uint32 by exact HK.
  - now apply pressed_land_lnot_same.
  - apply pressed_lor_same.
Qed.

(** C6, as the code has it.  On the Bluetooth path the CPADTOUCH flag is
    set exactly when bit 7 of byte 34 is clear; on the USB path it is set
    exactly when bit 7 of byte 33 is clear: the same polarity. *)
Theorem cpad_touch_polarity {K : scc_constants} {libm : math} {H : hiddrv}
    (frame : list Z) (bt : DS5HidRawController.t)
    (endpoint : Z) (report : list Z) (usb : DS5Controller.t)
    (m : Mapper HIDControllerInput) (d33 : Z) :
  constants_ok K ->
  List.length frame = 78%nat ->
  DS5Controller.mapper usb = Some m ->
  fst (decode (DS5Controller._decoder usb) report) = true ->
  nth_error report 33 = Some d33 -> 0 <= d33 < 256 ->
  (exists state bt',
     DS5HidRawController._convert_input_data frame bt = (Ok state, bt') /\
     pressed (state DualSenseBTControllerInput.buttons) SCButtons.CPADTOUCH
       = negb (Z.testbit (nth 34 frame 0) 7)) /\
  (exists usb',
     DS5Controller.input endpoint report usb = (Ok tt, usb') /\
     pressed (hid_buttons (state (DS5Controller._decoder usb')))
             SCButtons.CPADTOUCH = negb (Z.testbit d33 7)).
Proof.
  intros HK Hlen Hm Hok H33 Hd. split.
  - destruct (convert_input_data_78 HK frame bt Hlen)
      as (st & bt' & Hrun & _ & _ & _ & Htouch).
    exists st, bt'. split; [exact Hrun|].
    rewrite Htouch. apply land_128_testbit.
  - destruct (usb_input_cpad_touch endpoint report usb m d33 HK Hm Hok H33 Hd)
      as (usb' & Hrun & Htouch & _).
    exists usb'. split; assumption.
Qed.

Lemma cpad_touch_polarity_witness :
  (exists state bt',
     DS5HidRawController._convert_input_data (K := host16) (libm := poly_math)
       (bt_frame 8) bt_with_mapper = (Ok state, bt') /\
     pressed (K := host16) (state DualSenseBTControllerInput.buttons)
       SCButtons.CPADTOUCH = negb (Z.testbit (nth 34 (bt_frame 8) 0) 7)) /\
  (exists usb',
     DS5Controller.input (K := host16) (H := raw_hiddrv) 3 usb_zero_report
       usb_with_mapper = (Ok tt, usb') /\
     pressed (K := host16) (hid_buttons (state (DS5Controller._decoder usb')))
             SCButtons.CPADTOUCH = negb (Z.testbit 0 7)).
Proof.
  apply (cpad_touch_polarity (K := host16) (libm := poly_math) (H := raw_hiddrv)
           (bt_frame 8) bt_with_mapper 3 usb_zero_report usb_with_mapper
           {| received := [] |} 0).
  - exact host16_ok.
  - reflexivity.
  - reflexivity.
  - reflexivity.
  - reflexivity.
  - lia.
Defined.

(** C6, as the spec words it, fails: were the USB polarity the inverse of
    the Bluetooth one, a USB report whose byte 33 has bit 7 clear would
    leave CPADTOUCH clear; it sets it. *)
Lemma cpad_touch_polarity_not_inverted :
  Z.testbit (nth 33 usb_zero_report 0) 7 = false /\
  pressed (K := host16)
    (hid_buttons (state (DS5Controller._decoder
       (snd (DS5Controller.input (K := host16) (H := raw_hiddrv) 3
               usb_zero_report usb_with_mapper)))))
    SCButtons.CPADTOUCH = true /\
  ~ (forall report : list Z,
       List.length report = 64%nat ->
       pressed (K := host16)
         (hid_buttons (state (DS5Controller._decoder
            (snd (DS5Controller.input (K := host16) (H := raw_hiddrv) 3
                    report usb_with_mapper)))))
         SCButtons.CPADTOUCH = Z.testbit (nth 33 report 0) 7).
Proof.
  split; [reflexivity|]. split; [reflexivity|].
  intro Hinv. specialize (Hinv usb_zero_report eq_refl).
  vm_compute in Hinv. discriminate.
Qed.

(** ** C8: frames that are not controller input *)

(** C8. A 78-byte frame whose first byte is not 0x11 (DualShock 4 over
    Bluetooth), respectively not 0x31 (DualSense over Bluetooth), makes
    the input handler return normally with the controller, its stored
    previous state and its mapper exactly as they were. *)
Theorem foreign_frame_dropped {K : scc_constants} {libm : math} {H : hiddrv}
    (data : list Z) (fileno : Z) (now : Q)
    (ds4 : ds4drv.DS4Controller.t) (ds5 : DS5HidRawController.t) :
  List.length data = 78%nat ->
  (nth 0 data 0 <> 0x11 ->
   ds4drv.DS4HIDRawController._input fileno data ds4 = (Ok tt, ds4)) /\
  (nth 0 data 0 <> 0x31 ->
   DS5HidRawController._input data now ds5 = (Ok tt, ds5)).
Proof.
  intro Hlen. destruct data as [|d0 rest]; [discriminate|]. cbn [nth].
  split; intro Hne.
  - unfold ds4drv.DS4HIDRawController._input, bind, lift, getitem.
    cbn [nth_error]. apply Z.eqb_neq in Hne. rewrite Hne. reflexivity.
  - unfold DS5HidRawController._input, bind, lift, getitem.
    cbn [nth_error]. apply Z.eqb_neq in Hne. rewrite Hne. reflexivity.
Qed.

Lemma foreign_frame_dropped_witness :
  (nth 0 (0x01 :: repeat 0 77) 0 <> 0x11 ->
   ds4drv.DS4HIDRawController._input (K := host16) (H := raw_hiddrv) 5
     (0x01 :: repeat 0 77)
     {| ds4drv.DS4Controller._decoder := DS5Controller._decoder usb_with_mapper;
        ds4drv.DS4Controller.mapper := Some {| received := [] |} |}
   = (Ok tt,
      {| ds4drv.DS4Controller._decoder := DS5Controller._decoder usb_with_mapper;
         ds4drv.DS4Controller.mapper := Some {| received := [] |} |})) /\
  (nth 0 (0x01 :: repeat 0 77) 0 <> 0x31 ->
   DS5HidRawController._input (K := host16) (libm := poly_math)
     (0x01 :: repeat 0 77) 1 bt_with_mapper = (Ok tt, bt_with_mapper)).
Proof.
  apply (foreign_frame_dropped (K := host16) (libm := poly_math)
           (H := raw_hiddrv) (0x01 :: repeat 0 77)).
  reflexivity.
Defined.

(** A frame that starts with 0x31 is decoded and reaches the mapper, with
    the previous state as the old one; a foreign frame reaches nobody. *)
Example input_frame_dispatched :
  let run frame :=
    snd (DS5HidRawController._input (K := host16) (libm := poly_math)
           frame 1 bt_with_mapper) in
  option_map (fun m => List.length (received m))
    (DS5HidRawController.mapper (run (bt_frame 8))) = Some 1%nat /\
  option_map (fun m => List.length (received m))
    (DS5HidRawController.mapper (run (0x01 :: repeat 0 77))) = Some 0%nat.
Proof. vm_compute. split; reflexivity. Qed.

(** ** C7: the feedback stop timer *)






Section UsbFeedback.
Context {K : scc_constants} {H : hiddrv}.
Import DS5Controller.









End UsbFeedback.

Section BtFeedback.
Context {K : scc_constants} {libm : math}.
Import DS5HidRawController.

Lemma is_byte_c_ubyte (z : Z) : is_byte (c_ubyte z) = true.
Proof.
  unfold is_byte, c_ubyte.
  pose proof (Z.mod_pos_bound z (2 ^ 8) eq_refl) as [H0 H1].
  apply andb_true_intro. split; [apply Z.leb_le | apply Z.ltb_lt]; lia.
Qed.

Lemma bytearray_bt_bytes (o : DualSenseHIDOutputBT.t) :
  List.length (bytearray DualSenseHIDOutputBT._fields_ o) = 78%nat /\
  is_bytes (bytearray DualSenseHIDOutputBT._fields_ o) = true.
Proof.
  split; [reflexivity|].
  cbn [bytearray DualSenseHIDOutputBT._fields_ flat_map repeat app].
  rewrite !is_bytes_cons, !is_byte_c_ubyte. reflexivity.
Qed.






(** *** Calls that leave the scheduler alone *)









End BtFeedback.



(** Two requests in a row: the stop task of the first (2 s) is canceled,
    that of the second alone is pending, with the floor as its delay. *)
Example feedback_twice :
  let usb := usb_run (K := host16) (H := raw_hiddrv)
               [UsbAttach; UsbFeedback long_pulse; UsbFeedback short_pulse]
               (DS5Controller.init decoder0) in
  let bt := bt_run (K := host16) (libm := poly_math)
              [BtAttach; BtFeedback long_pulse; BtFeedback short_pulse]
              (DS5HidRawController.init 0 0) in
  pending (DS5Controller.scheduler usb) = [{| handle := 1; delay := 0.02 |}] /\
  pending (DS5HidRawController.scheduler bt) = [{| handle := 1; delay := 0.05 |}] /\
  List.length (DS5HidRawController._hidrawdev bt) = 2%nat.
Proof. vm_compute. repeat split; reflexivity. Qed.

(** A long request keeps its own duration, and the task of a request that
    fired leaves nothing pending. *)
Example feedback_long_then_fires :
  let usb := usb_run (K := host16) (H := raw_hiddrv)
               [UsbAttach; UsbFeedback long_pulse]
               (DS5Controller.init decoder0) in
  map (fun t => Qred (delay t)) (pending (DS5Controller.scheduler usb)) = [2%Q] /\
  pending (DS5Controller.scheduler
             (usb_run (K := host16) (H := raw_hiddrv)
                [UsbTimer {| handle := 0; delay := 2 |}] usb)) = [].
Proof. vm_compute. split; reflexivity. Qed.

(** ** C9: the lightbar configuration *)













Section Configure.
Context {K : scc_constants} {H : hiddrv}.
Import DS5Controller.










End Configure.



(** The palette by suffix, the fall-backs to blue, and the scaling. *)
Example configure_samples :
  map (fun '(icon, led_level) =>
         staged_lightbar
           (snd (DS5Controller.configure icon (PyInt led_level) usb0)))
    [ (Some "A-0.svg", 100); (Some "A-1.svg", 100); (Some "A-2.svg", 100);
      (Some "A-3.svg", 100); (Some "A-4.svg", 100);
      (Some "images/sc-5.svg", 100); (Some "A-6.svg", 100);
      (Some "A-7.svg", 100); (Some "A-x.svg", 100); (Some "A.svg", 100);
      (Some ".svg", 100); (Some "", 100); (None, 100);
      (Some "a.b-2.png", 50); (Some "images/sc-5.svg", 50);
      (None, 200); (Some "noext-3", 100) ]%string
  = [ Some (0, 255, 0); Some (0, 0, 255); Some (255, 0, 0);
      Some (255, 255, 0); Some (0, 255, 255);
      Some (255, 102, 0); Some (255, 0, 255);
      Some (0, 0, 255); Some (0, 0, 255); Some (0, 0, 255);
      Some (0, 0, 255); Some (0, 0, 255); Some (0, 0, 255);
      Some (127, 0, 0); Some (127, 51, 0);
      Some (0, 0, 254); None ].
Proof. vm_compute. reflexivity. Qed.

(** Levels outside the integers from 0 to 100: the rounding of binary64
    shows (the level 12820 gives 32690, where exact arithmetic gives
    32691), and a level that is NaN, infinite or beyond the range makes
    [configure] raise. *)
Example configure_level_samples :
  lightbar_channel 1.0 (PyInt 12820) = Ok 32690 /\
  scaled_channel 1.0 12820 = 32691 /\
  staged_lightbar (snd (DS5Controller.configure None (PyInt 12820) usb0))
  = Some (0, 0, 178) /\
  DS5Controller.configure None (PyFloat S754_nan) usb0
  = (Raise ValueError, usb0) /\
  DS5Controller.configure None (PyFloat (S754_infinity false)) usb0
  = (Raise ValueError, usb0) /\
  DS5Controller.configure (Some "A-0.svg"%string)
    (PyFloat (S754_infinity false)) usb0
  = (Raise ValueError, usb0) /\
  DS5Controller.configure (Some "A-2.svg"%string)
    (PyFloat (S754_infinity false)) usb0
  = (Raise OverflowError, usb0) /\
  DS5Controller.configure None (PyInt (2 ^ 1024)) usb0
  = (Raise OverflowError, usb0).
Proof. vm_compute. repeat split; reflexivity. Qed.

(** ** C5: controller IDs *)

Lemma py_in_In (id : string) (ids : list string) :
  py_in id ids = true <-> In id ids.
Proof.
  unfold py_in. rewrite existsb_exists. split.
  - intros (x & Hin & E). apply String.eqb_eq in E. now subst.
  - intro Hin. exists id. split; [exact Hin | apply String.eqb_refl].
Qed.

Lemma str_of_nat_inj (m n : nat) : str_of_nat m = str_of_nat n -> m = n.
Proof.
  unfold str_of_nat. intro E.
  apply DecimalNat.Unsigned.to_uint_inj.
  pose proof (DecimalString.NilEmpty.usu (Nat.to_uint m)) as Hm.
  pose proof (DecimalString.NilEmpty.usu (Nat.to_uint n)) as Hn.
  rewrite E in Hm. congruence.
Qed.

Lemma append_inj_l (p a b : string) : (p ++ a = p ++ b)%string -> a = b.
Proof.
  induction p as [|c p IH]; cbn; [trivial|].
  intro E. injection E as E. now apply IH.
Qed.

Lemma length_append (a b : string) :
  String.length (a ++ b) = (String.length a + String.length b)%nat.
Proof. induction a as [|c a IH]; cbn; [reflexivity | now rewrite IH]. Qed.

Lemma nth_id_inj (base : string) (j k : nat) :
  nth_id base j = nth_id base k -> j = k.
Proof.
  destruct j as [|j], k as [|k]; cbn [nth_id]; intro E.
  - reflexivity.
  - apply (f_equal String.length) in E. rewrite length_append in E.
    cbn in E. lia.
  - apply (f_equal String.length) in E. rewrite length_append in E.
    cbn in E. lia.
  - apply append_inj_l in E. cbn in E. injection E as E.
    now apply str_of_nat_inj.
Qed.

(** The loop, entered with the [k]-th candidate, returns the first
    candidate from [k] on that is not active. *)
Lemma generate_id_loop_sound (base : string) (active : list string)
    (fuel k : nat) (id : string) :
  generate_id_loop base active fuel (nth_id base k) (S k) = Some id ->
  exists j, (k <= j)%nat /\ id = nth_id base j /\ ~ In id active /\
            forall i, (k <= i < j)%nat -> In (nth_id base i) active.
Proof.
  revert k. induction fuel as [|fuel IH]; intros k; cbn [generate_id_loop];
    [discriminate|].
  destruct (py_in (nth_id base k) active) eqn:E.
  - intro Hrun. change (base ++ ":" ++ str_of_nat (S k))%string
      with (nth_id base (S k)) in Hrun.
    destruct (IH (S k) Hrun) as (j & Hj & Hid & Hfree & Hbelow).
    exists j. repeat split; try assumption; [lia|].
    intros i Hi. destruct (Nat.eq_dec i k) as [-> |].
    + now apply py_in_In.
    + apply Hbelow. lia.
  - intro Hrun. injection Hrun as <-. exists k. repeat split; [lia | | lia].
    intro Hin. apply py_in_In in Hin. congruence.
Qed.

(** The loop finds a free candidate when one is within [fuel] steps. *)
Lemma generate_id_loop_total (base : string) (active : list string)
    (fuel k j : nat) :
  (k <= j < k + fuel)%nat -> ~ In (nth_id base j) active ->
  exists id, generate_id_loop base active fuel (nth_id base k) (S k) = Some id.
Proof.
  revert k. induction fuel as [|fuel IH]; intros k Hj Hfree; [lia|].
  cbn [generate_id_loop].
  destruct (py_in (nth_id base k) active) eqn:E; [|eexists; reflexivity].
  change (base ++ ":" ++ str_of_nat (S k))%string with (nth_id base (S k)).
  apply IH; [|exact Hfree].
  destruct (Nat.eq_dec j k) as [-> |]; [|lia].
  apply py_in_In in E. contradiction.
Qed.

Lemma forallb_false_exists {A : Type} (f : A -> bool) (l : list A) :
  forallb f l = false -> exists x, In x l /\ f x = false.
Proof.
  induction l as [|a l IH]; cbn; [discriminate|].
  destruct (f a) eqn:E; cbn.
  - intro Hl. destruct (IH Hl) as (x & Hin & Hx). exists x. now split; [right|].
  - intros _. exists a. now split; [left|].
Qed.

Lemma NoDup_map_injective {A B : Type} (f : A -> B) (l : list A) :
  (forall a b, f a = f b -> a = b) -> NoDup l -> NoDup (map f l).
Proof.
  intros Hinj Hnd. induction Hnd as [|a l Hnotin Hnd IH]; cbn; constructor.
  - intro Hin. apply in_map_iff in Hin as (b & E & Hb).
    apply Hinj in E. now subst.
  - exact IH.
Qed.

(** Among the first [length active + 1] candidates one is not active. *)
Lemma free_candidate (base : string) (active : list string) :
  exists j, (j <= List.length active)%nat /\ ~ In (nth_id base j) active.
Proof.
  set (n := List.length active).
  destruct (forallb (fun j => py_in (nth_id base j) active) (seq 0 (S n)))
    eqn:E.
  - exfalso. rewrite forallb_forall in E.
    assert (NoDup (map (nth_id base) (seq 0 (S n)))) as Hnd.
    { apply NoDup_map_injective; [|apply seq_NoDup].
      intros a b. apply nth_id_inj. }
    assert (incl (map (nth_id base) (seq 0 (S n))) active) as Hincl.
    { intros id Hin. apply in_map_iff in Hin as (j & <- & Hj).
      apply py_in_In. now apply E. }
    pose proof (NoDup_incl_length Hnd Hincl) as Hlen.
    rewrite length_map, length_seq in Hlen. unfold n in Hlen. lia.
  - destruct (forallb_false_exists _ _ E) as (j & Hin & Hj).
    apply in_seq in Hin. exists j. split; [lia|].
    intro Hact. apply py_in_In in Hact. congruence.
Qed.

(** ID generation returns, and returns the first free candidate. *)
Lemma generate_id_first_free (base : string) (active : list string) :
  exists id,
    generate_id_loop base active (S (List.length active)) base 1 = Some id /\
    first_free_id base active id.
Proof.
  destruct (free_candidate base active) as (j & Hj & Hfree).
  destruct (generate_id_loop_total base active (S (List.length active)) 0 j)
    as [id Hrun]; [lia | exact Hfree |].
  exists id. split; [exact Hrun|].
  destruct (generate_id_loop_sound base active _ 0 id Hrun)
    as (k & _ & Hid & Hk & Hbelow).
  exists k. repeat split; try assumption. intros i Hi. apply Hbelow. lia.
Qed.

Section Hotplug.
Variable gen : SCCDaemon -> option string.
Variable base : string.
Hypothesis Hgen : forall daemon,
  exists id, gen daemon = Some id /\
             first_free_id base (get_active_ids daemon) id.

Lemma remove_first_incl (id x : string) (l : list string) :
  In x (remove_first id l) -> In x l.
Proof.
  induction l as [|a l IH]; cbn; [trivial|].
  destruct (String.eqb a id); [now right|].
  intros [-> | Hin]; [now left | right; now apply IH].
Qed.

Lemma remove_first_NoDup (id : string) (l : list string) :
  NoDup l -> NoDup (remove_first id l).
Proof.
  intro Hnd. induction Hnd as [|a l Hnotin Hnd IH]; cbn; [constructor|].
  destruct (String.eqb a id); [exact Hnd|].
  constructor; [|exact IH].
  intro Hin. apply Hnotin. now apply remove_first_incl in Hin.
Qed.

Lemma NoDup_snoc (l : list string) (id : string) :
  NoDup l -> ~ In id l -> NoDup (l ++ [id]).
Proof.
  intros Hnd Hnotin. apply NoDup_app; [exact Hnd | repeat constructor; easy |].
  intros x Hx [<- | []]. contradiction.
Qed.

Lemma hotplug_step_NoDup (daemon : SCCDaemon) (ev : hotplug) :
  NoDup (controllers daemon) ->
  exists daemon', hotplug_step gen daemon ev = Some daemon' /\
                  NoDup (controllers daemon').
Proof.
  intro Hnd. destruct ev as [|id]; cbn [hotplug_step].
  - destruct (Hgen daemon) as (id & -> & k & _ & Hfree & _).
    eexists. split; [reflexivity|]. cbn [add_controller controllers].
    now apply NoDup_snoc.
  - eexists. split; [reflexivity|]. cbn [remove_controller controllers].
    now apply remove_first_NoDup.
Qed.

Lemma hotplug_run_NoDup (evs : list hotplug) (daemon : SCCDaemon) :
  NoDup (controllers daemon) ->
  exists daemon', hotplug_run gen daemon evs = Some daemon' /\
                  NoDup (controllers daemon').
Proof.
  revert daemon. induction evs as [|ev evs IH]; intros daemon Hnd;
    cbn [hotplug_run].
  - now exists daemon.
  - destruct (hotplug_step_NoDup daemon ev Hnd) as (d1 & -> & Hnd1).
    now apply IH.
Qed.

Lemma family_ids_S (n : nat) :
  family_ids base (S n) = family_ids base n ++ [nth_id base n].
Proof. unfold family_ids. now rewrite seq_S, map_app. Qed.

Lemma in_family_ids (id : string) (n : nat) :
  In id (family_ids base n) <-> exists j, (j < n)%nat /\ id = nth_id base j.
Proof.
  unfold family_ids. rewrite in_map_iff. split.
  - intros (j & <- & Hj). apply in_seq in Hj. exists j. split; [lia | reflexivity].
  - intros (j & Hj & ->). exists j. split; [reflexivity | apply in_seq; lia].
Qed.

(** With the first [m] IDs of the family active, the next one is [m]. *)
Lemma next_family_id (others : list string) (m : nat) (id : string) :
  (forall k, ~ In (nth_id base k) others) ->
  first_free_id base (others ++ family_ids base m) id ->
  id = nth_id base m.
Proof.
  intros Hothers (k & -> & Hfree & Hbelow). f_equal.
  destruct (Nat.lt_trichotomy k m) as [Hlt | [-> | Hgt]]; [|reflexivity|].
  - exfalso. apply Hfree. apply in_or_app. right.
    apply in_family_ids. now exists k.
  - exfalso. specialize (Hbelow m Hgt).
    apply in_app_or in Hbelow as [Hin | Hin].
    + now apply (Hothers m).
    + apply in_family_ids in Hin as (j & Hj & E).
      apply nth_id_inj in E. lia.
Qed.

Lemma hotplug_run_connects (n m : nat) (others : list string) :
  (forall k, ~ In (nth_id base k) others) ->
  hotplug_run gen {| controllers := others ++ family_ids base m |}
    (repeat Connect n)
  = Some {| controllers := others ++ family_ids base (m + n) |}.
Proof.
  intro Hothers. revert m. induction n as [|n IH]; intro m;
    cbn [repeat hotplug_run hotplug_step].
  - now rewrite Nat.add_0_r.
  - destruct (Hgen {| controllers := others ++ family_ids base m |})
      as (id & -> & Hfirst).
    cbn [get_active_ids controllers] in Hfirst.
    rewrite (next_family_id others m id Hothers Hfirst).
    unfold add_controller. cbn [controllers].
    rewrite <- app_assoc, <- family_ids_S, IH.
    replace (m + S n)%nat with (S m + n)%nat by lia. reflexivity.
Qed.

(** What ID generation guarantees over the life of a daemon that starts
    with no controller. *)
Lemma hotplug_summary (evs : list hotplug) (n : nat) :
  (forall daemon, exists id,
     gen daemon = Some id /\ first_free_id base (get_active_ids daemon) id) /\
  (exists daemon,
     hotplug_run gen no_controllers evs = Some daemon /\
     NoDup (get_active_ids daemon)) /\
  hotplug_run gen no_controllers (repeat Connect n)
  = Some {| controllers := family_ids base n |}.
Proof.
  split; [exact Hgen|]. split.
  - apply hotplug_run_NoDup. constructor.
  - apply (hotplug_run_connects n 0 []). intros k [].
Qed.

End Hotplug.

(** C5, as the code has it.  [_generate_id] always returns, and returns
    the first of "ds4", "ds4:1", "ds4:2", ... (analogously "ds5") that
    is not among the daemon's active IDs; so over any sequence of
    connections and removals the active IDs never collide, and [n]
    connections with no removal in between get exactly "ds4", "ds4:1", ...,
    "ds4:(n-1)" in order of construction. *)
Theorem generate_id_takes_first_free (evs : list hotplug) (n : nat) :
  ((forall daemon, exists id,
      ds4drv.DS4Controller._generate_id daemon = Some id /\
      first_free_id "ds4" (get_active_ids daemon) id) /\
   (exists daemon,
      hotplug_run ds4drv.DS4Controller._generate_id no_controllers evs
      = Some daemon /\ NoDup (get_active_ids daemon)) /\
   hotplug_run ds4drv.DS4Controller._generate_id no_controllers
     (repeat Connect n) = Some {| controllers := family_ids "ds4" n |}) /\
  ((forall daemon, exists id,
      DS5HidRawController._generate_id daemon = Some id /\
      first_free_id "ds5" (get_active_ids daemon) id) /\
   (exists daemon,
      hotplug_run DS5HidRawController._generate_id no_controllers evs
      = Some daemon /\ NoDup (get_active_ids daemon)) /\
   hotplug_run DS5HidRawController._generate_id no_controllers
     (repeat Connect n) = Some {| controllers := family_ids "ds5" n |}).
Proof.
  split; apply hotplug_summary; intro daemon; apply generate_id_first_free.
Qed.

(** C5, as the spec words it, fails: after two connections and the
    removal of the first controller, the one controller left is "ds4:1",
    not "ds4"; the next connection takes "ds4", so the IDs no longer
    follow the order of construction. *)
Lemma ids_after_removal_not_initial_segment :
  hotplug_run ds4drv.DS4Controller._generate_id no_controllers
    [Connect; Connect; Disconnect "ds4"]
  = Some {| controllers := ["ds4:1"%string] |} /\
  hotplug_run ds4drv.DS4Controller._generate_id no_controllers
    [Connect; Connect; Disconnect "ds4"; Connect]
  = Some {| controllers := ["ds4:1"; "ds4"]%string |} /\
  ~ (forall evs daemon,
       hotplug_run ds4drv.DS4Controller._generate_id no_controllers evs
       = Some daemon ->
       controllers daemon
       = family_ids "ds4" (List.length (controllers daemon))).
Proof.
  split; [reflexivity|]. split; [reflexivity|].
  intro Hall.
  specialize (Hall [Connect; Connect; Disconnect "ds4"%string] _ eq_refl).
  vm_compute in Hall. discriminate.
Qed.

Example ids_of_three_controllers :
  hotplug_run ds4drv.DS4Controller._generate_id
    {| controllers := ["sc"; "ds5"]%string |} [Connect; Connect; Connect]
  = Some {| controllers := ["sc"; "ds5"; "ds4"; "ds4:1"; "ds4:2"]%string |} /\
  DS5HidRawController._generate_id
    {| controllers := ["ds5"; "ds5:1"; "ds5:3"]%string |} = Some "ds5:2"%string.
Proof. vm_compute. split; reflexivity. Qed.

(** ** The Python helpers on samples *)

Example rsplit1_samples :
  rsplit1 "-" "a-b-3" = ["a-b"; "3"]%string /\
  rsplit1 "-" "abc" = ["abc"%string] /\
  rsplit1 "-" "" = [""%string] /\
  rsplit1 "." "a.b.c" = ["a.b"; "c"]%string /\
  rsplit1 "." "." = [""; ""]%string.
Proof. repeat split; reflexivity. Qed.

Example int_of_str_samples :
  map int_of_str
    [" 1 "; "+3"; "-3"; "1_0"; "007"; String (ascii_of_nat 9) "5";
     String (ascii_of_nat 160) "1"]%string
  = [Ok 1; Ok 3; Ok (-3); Ok 10; Ok 7; Ok 5; Ok 1] /\
  map int_of_str
    ["_1"; "1__0"; "1_"; "0x10"; "+ 3"; ""; "+"; "1 2"; "+-3"; "abc";
     String (ascii_of_nat 28) "1"]%string
  = repeat (Raise ValueError) 11.
Proof. split; reflexivity. Qed.

Example py_int_truncates :
  map py_int [7 # 2; -7 # 2; -1 # 2; 0; 255]%Q = [3; -3; 0; 0; 255].
Proof. reflexivity. Qed.

(** A frame of a controller at rest leaves the orientation at the
    identity: the decoded quaternion is (32767, 0, 0, 0). *)
Example quaternion_of_idle_frame :
  match DS5HidRawController._input (K := host16) (libm := poly_math)
          (bt_frame 8) 1 bt_with_mapper with
  | (Ok tt, self) =>
      let st := DS5HidRawController._old_state self in
      [st DualSenseBTControllerInput.q1; st DualSenseBTControllerInput.q2;
       st DualSenseBTControllerInput.q3; st DualSenseBTControllerInput.q4]
      = [32767; 0; 0; 0]
  | _ => False
  end.
Proof. vm_compute. reflexivity. Qed.

(** * More of the drivers

    ** The Bluetooth output path: everything written is a framed report *)

Lemma preserves_ret {S A : Type} (P : S -> Prop) (a : A) : preserves P (ret a).
Proof. intros s Hs. exact Hs. Qed.

Lemma preserves_lift {S A : Type} (P : S -> Prop) (r : result A) :
  preserves P (lift r).
Proof. intros s Hs. exact Hs. Qed.

Lemma preserves_raise {S A : Type} (P : S -> Prop) (e : exn) :
  preserves P (raise (A := A) e).
Proof. intros s Hs. exact Hs. Qed.

Lemma preserves_get {S : Type} (P : S -> Prop) : preserves P get.
Proof. intros s Hs. exact Hs. Qed.

Lemma preserves_modify {S : Type} (P : S -> Prop) (f : S -> S) :
  (forall s, P s -> P (f s)) -> preserves P (modify f).
Proof. intros Hf s Hs. now apply Hf. Qed.

Lemma preserves_bind {S A B : Type} (P : S -> Prop) (m : M S A) (k : A -> M S B) :
  preserves P m -> (forall a, preserves P (k a)) -> preserves P (bind m k).
Proof.
  intros Hm Hk s Hs. unfold bind. specialize (Hm s Hs).
  destruct (m s) as [[a|e] s']; cbn [snd] in *; [now apply Hk | exact Hm].
Qed.

(** [bind] after [get]: the continuation sees the current object. *)
Lemma preserves_bind_get {S B : Type} (P : S -> Prop) (k : S -> M S B) :
  (forall s, P s -> P (snd (k s s))) -> preserves P (bind get k).
Proof. intros Hk s Hs. unfold bind, get. now apply Hk. Qed.

Lemma framed_parts (body : list Z) (c : Z) :
  List.length body = 74%nat -> is_bytes body = true ->
  c = zlib.crc32 (0xA2 :: body) 0 ->
  framed (body ++ [Z.land c 0xFF; Z.land (Z.shiftr c 8) 0xFF;
                   Z.land (Z.shiftr c 16) 0xFF; Z.land (Z.shiftr c 24) 0xFF])
  = true.
Proof.
  intros Hlen Hb Hc. unfold framed.
  assert (0 <= c < 2 ^ 32) as Hr.
  { subst c. apply crc32_range. rewrite is_bytes_cons, Hb. reflexivity. }
  rewrite length_app, Hlen. cbn [List.length Nat.add Nat.eqb andb].
  rewrite is_bytes_app, Hb, !is_bytes_cons, !is_byte_land_ff. cbn [is_bytes forallb andb].
  rewrite (skipn_exact 74) by exact Hlen.
  rewrite (firstn_exact 74) by exact Hlen.
  rewrite little_endian_crc by exact Hr. apply Z.eqb_eq. exact Hc.
Qed.

(** The CRC framing of a serialized output structure. *)
Lemma prepare_buffer_crc_struct (o : DualSenseHIDOutputBT.t) :
  exists buf,
    DS5HidRawController._prepare_buffer_crc
      (bytearray DualSenseHIDOutputBT._fields_ o) = Ok buf /\
    framed buf = true /\
    firstn 74 buf = firstn 74 (bytearray DualSenseHIDOutputBT._fields_ o).
Proof.
  destruct (bytearray_bt_bytes o) as [Hlen Hbytes].
  destruct (split_at_74 _ Hlen) as (a & b & c & d & Hbuf & Hbody).
  pose proof (is_bytes_firstn 74 _ Hbytes) as Hb.
  pose proof (prepare_buffer_crc_body _ a b c d Hbody Hb) as Hrun.
  cbv zeta in Hrun. rewrite <- Hbuf in Hrun.
  eexists. split; [exact Hrun|]. split.
  - now apply framed_parts.
  - now apply firstn_exact.
Qed.

Lemma firstn_74_ids (buf : list Z) (o : DualSenseHIDOutputBT.t) :
  firstn 74 buf = firstn 74 (bytearray DualSenseHIDOutputBT._fields_ o) ->
  nth 0 buf 0 = c_ubyte (o DualSenseHIDOutputBT.operating_mode) /\
  nth 1 buf 0 = c_ubyte (o DualSenseHIDOutputBT.data_id_byte).
Proof.
  intro E. destruct buf as [|b0 [|b1 buf]]; try discriminate.
  cbn in E. injection E as -> -> _. split; reflexivity.
Qed.

Lemma output_report_of_struct (o : DualSenseHIDOutputBT.t) :
  c_ubyte (o DualSenseHIDOutputBT.operating_mode) = 0x31 ->
  c_ubyte (o DualSenseHIDOutputBT.data_id_byte) = 0x02 ->
  exists buf,
    DS5HidRawController._prepare_buffer_crc
      (bytearray DualSenseHIDOutputBT._fields_ o) = Ok buf /\
    bt_output_report buf = true /\
    firstn 74 buf = firstn 74 (bytearray DualSenseHIDOutputBT._fields_ o).
Proof.
  intros H0 H1. destruct (prepare_buffer_crc_struct o) as (buf & Hrun & Hf & Hfirst).
  exists buf. split; [exact Hrun|]. split; [|exact Hfirst].
  destruct (firstn_74_ids buf o Hfirst) as [E0 E1].
  unfold bt_output_report. rewrite Hf, E0, E1, H0, H1. reflexivity.
Qed.

Lemma forallb_dict_set {V : Type} (f : V -> bool) (d : dict V) (k : string) (v : V) :
  forallb f (map snd d) = true -> f v = true ->
  forallb f (map snd (dict_set d k v)) = true.
Proof.
  intros Hd Hv. induction d as [|[k' v'] rest IH]; cbn [dict_set map snd forallb] in *.
  - now rewrite Hv.
  - apply andb_prop in Hd as [H1 H2].
    destruct (String.eqb k' k); cbn [map snd forallb].
    + now rewrite Hv, H2.
    + now rewrite H1, IH.
Qed.

Lemma forallb_rev {A : Type} (f : A -> bool) (l : list A) :
  forallb f (rev l) = forallb f l.
Proof.
  induction l as [|a l IH]; [reflexivity|]. cbn [rev forallb].
  rewrite forallb_app, IH. cbn [forallb]. rewrite andb_true_r. apply andb_comm.
Qed.

Section BtFrames.
Context {K : scc_constants} {libm : math}.
Import DS5HidRawController.

Lemma bt_wf_flush : preserves bt_wf flush.
Proof.
  apply preserves_modify. intros s (Hdev & Hout & H0 & H1).
  unfold bt_wf, set_outputs, set_hidrawdev. cbn [_hidrawdev _outputs _feedback_output].
  repeat split; try assumption.
  rewrite forallb_app, Hdev. unfold popitems. rewrite map_rev, forallb_rev.
  exact Hout.
Qed.

Lemma bt_wf_schedule_output (output_id : string) (buf : list Z) :
  bt_output_report buf = true -> preserves bt_wf (schedule_output output_id buf).
Proof.
  intro Hbuf. apply preserves_modify. intros s (Hdev & Hout & H0 & H1).
  unfold bt_wf, set_outputs. cbn [_hidrawdev _outputs _feedback_output].
  repeat split; try assumption. now apply forallb_dict_set.
Qed.

Lemma bt_wf_set_motor (f : DualSenseHIDOutputBT.field) (v : Z) :
  f = DualSenseHIDOutputBT.motor_left \/ f = DualSenseHIDOutputBT.motor_right ->
  preserves bt_wf (set_motor f v).
Proof.
  intro Hf. apply preserves_modify. intros s (Hdev & Hout & H0 & H1).
  unfold bt_wf, set_feedback_output. cbn [_hidrawdev _outputs _feedback_output].
  repeat split; try assumption; destruct Hf as [-> | ->]; assumption.
Qed.

Lemma bt_wf_send_feedback_output : preserves bt_wf send_feedback_output.
Proof.
  intros s Hs. pose proof Hs as (_ & _ & H0 & H1).
  destruct (output_report_of_struct (_feedback_output s) H0 H1)
    as (buf & Hrun & Hrep & _).
  unfold send_feedback_output, bind at 1, get. unfold bind at 1, lift.
  rewrite Hrun.
  apply (preserves_bind bt_wf (schedule_output "feedback" buf) (fun _ => flush));
    [now apply bt_wf_schedule_output | intros _; apply bt_wf_flush | exact Hs].
Qed.

Lemma bt_wf_mapper_schedule (duration : Q) : preserves bt_wf (mapper_schedule duration).
Proof.
  intros s Hs. unfold mapper_schedule, bind, get, put, ret, raise.
  destruct (mapper s); exact Hs.
Qed.

Lemma bt_wf_clear_feedback : preserves bt_wf clear_feedback.
Proof.
  unfold clear_feedback.
  apply preserves_bind; [apply bt_wf_set_motor; now right | intros _].
  apply preserves_bind; [apply bt_wf_set_motor; now left | intros _].
  apply bt_wf_send_feedback_output.
Qed.

Lemma bt_wf_feedback (data : HapticData) : preserves bt_wf (feedback data).
Proof.
  unfold feedback. cbv zeta.
  apply preserves_bind.
  { destruct (position data).
    - apply bt_wf_set_motor; now left.
    - apply bt_wf_set_motor; now right.
    - apply preserves_bind; [apply bt_wf_set_motor; now right | intros _].
      apply bt_wf_set_motor; now left. }
  intros _. apply preserves_bind; [apply bt_wf_send_feedback_output | intros _].
  apply preserves_bind_get. intros s Hs.
  apply (preserves_bind bt_wf); [| | exact Hs].
  - destruct (_feedback_cancel_task s); [|apply preserves_ret].
    intros s' Hs'. exact Hs.
  - intros _. apply preserves_bind; [apply bt_wf_mapper_schedule | intro task].
    apply preserves_modify. intros s' Hs'. exact Hs'.
Qed.

Lemma bt_wf_timer_fires (task : Task) : preserves bt_wf (timer_fires task).
Proof.
  unfold timer_fires. apply preserves_bind_get. intros s Hs.
  destruct (is_pending task (scheduler s)); [|exact Hs].
  apply (preserves_bind bt_wf); [| | exact Hs].
  - intros s' Hs'. exact Hs.
  - intros _. apply bt_wf_clear_feedback.
Qed.

Lemma bt_wf_calculate_quaternion (st : DualSenseBTControllerInput.t) :
  preserves bt_wf (_calculate_quaternion st).
Proof.
  intros s Hs. destruct (calculate_quaternion_frame st s)
    as (v1 & v2 & v3 & v4 & q & ->). exact Hs.
Qed.

Lemma bt_wf_convert_input_data (data : list Z) :
  preserves bt_wf (_convert_input_data data).
Proof.
  unfold _convert_input_data. cbv zeta.
  repeat (apply preserves_bind;
          [first [apply preserves_lift | apply bt_wf_calculate_quaternion]
          | intro]).
  apply preserves_ret.
Qed.

Lemma bt_wf_input (frame : list Z) (now : Q) : preserves bt_wf (_input frame now).
Proof.
  unfold _input. apply preserves_bind; [apply preserves_lift | intro d0].
  destruct (negb (d0 =? 49)); [apply preserves_ret|].
  apply preserves_bind_get. intros s Hs.
  apply (preserves_bind bt_wf); [| | exact Hs].
  { intros s' Hs'. exact Hs. }
  intros _. apply preserves_bind; [apply bt_wf_convert_input_data | intro st].
  apply preserves_bind_get. intros s1 Hs1.
  apply (preserves_bind bt_wf); [| | exact Hs1].
  { destruct (mapper s1); [|apply preserves_ret]. intros s' Hs'. exact Hs1. }
  intros _. apply preserves_bind; [apply preserves_modify; intros s' Hs'; exact Hs' | intros _].
  apply preserves_bind; [apply bt_wf_flush | intros _].
  apply preserves_modify. intros s' Hs'. exact Hs'.
Qed.

Lemma bt_wf_attach (m : option (Mapper DualSenseBTControllerInput.t)) :
  preserves bt_wf (modify (set_mapper m)).
Proof. apply preserves_modify. intros s Hs. exact Hs. Qed.

Lemma bt_wf_stage_struct (output_id : string) (o : DualSenseHIDOutputBT.t) :
  c_ubyte (o DualSenseHIDOutputBT.operating_mode) = 0x31 ->
  c_ubyte (o DualSenseHIDOutputBT.data_id_byte) = 0x02 ->
  preserves bt_wf
    (bind (lift (_prepare_buffer_crc (bytearray DualSenseHIDOutputBT._fields_ o)))
       (fun tempbuffer => bind (schedule_output output_id tempbuffer) (fun _ => flush))).
Proof.
  intros H0 H1 s Hs.
  destruct (output_report_of_struct o H0 H1) as (buf & Hrun & Hrep & _).
  unfold bind at 1, lift. rewrite Hrun.
  apply (preserves_bind bt_wf (schedule_output output_id buf) (fun _ => flush));
    [now apply bt_wf_schedule_output | intros _; apply bt_wf_flush | exact Hs].
Qed.

Lemma bt_wf_set_operational : preserves bt_wf _set_operational.
Proof. unfold _set_operational. now apply bt_wf_stage_struct. Qed.

Lemma bt_wf_configure (icon : option string) (led_level : number) :
  preserves bt_wf (configure icon led_level).
Proof.
  unfold configure. cbv zeta. apply preserves_bind.
  - destruct icon as [[|c icon]|]; try apply preserves_ret.
    apply preserves_bind; [apply preserves_lift | intros [basename ext]].
    destruct (rsplit1 "-" basename) as [|p parts]; [apply preserves_ret|].
    apply preserves_bind; [apply preserves_lift | intro raw_idx].
    destruct (int_of_str raw_idx) as [icon_idx|[| | |]];
      try apply preserves_raise; try apply preserves_ret.
    destruct (icon_idx <? Z.of_nat (List.length ICON_COLORS));
      [apply preserves_lift | apply preserves_ret].
  - intros [[red green] blue].
    apply preserves_bind; [apply preserves_lift | intro x]. cbv zeta.
    apply preserves_bind; [apply preserves_lift | intro r].
    apply preserves_bind; [apply preserves_lift | intro g].
    apply preserves_bind; [apply preserves_lift | intro b].
    now apply bt_wf_stage_struct.
Qed.

Lemma bt_wf_init (t0 t1 : Q) : bt_wf (init t0 t1).
Proof. repeat split. Qed.

Lemma bt_op_step_wf (op : bt_op) : preserves bt_wf (bt_op_step op).
Proof.
  destruct op as [[| |frame now|data|task]|icon led_level|];
    cbn [bt_op_step bt_step].
  - apply bt_wf_attach.
  - apply bt_wf_attach.
  - apply bt_wf_input.
  - apply bt_wf_feedback.
  - apply bt_wf_timer_fires.
  - apply bt_wf_configure.
  - apply bt_wf_set_operational.
Qed.

Lemma bt_ops_run_wf (ops : list bt_op) (self : t) :
  bt_wf self -> bt_wf (bt_ops_run ops self).
Proof.
  revert self. induction ops as [|op ops IH]; intros self Hwf; [exact Hwf|].
  cbn [bt_ops_run fold_left]. apply IH. now apply bt_op_step_wf.
Qed.

End BtFrames.

(** X1. Whatever is done to a Bluetooth controller after its
    construction (mapper attached or detached, input frames of any
    content, feedback requests, timers coming due, lightbar
    configurations, the mode handshake), every frame it has written to
    the raw HID node is an output report: 78 bytes, report id 0x31, data
    id 0x02, and in bytes 74-77 the little-endian CRC-32 of 0xA2 followed
    by bytes 0-73. *)
Theorem bt_writes_only_framed_reports {K : scc_constants} {libm : math}
    (ops : list bt_op) (t0 t1 : Q) :
  forallb bt_output_report
    (DS5HidRawController._hidrawdev
       (bt_ops_run ops (DS5HidRawController.init t0 t1))) = true.
Proof. apply (bt_ops_run_wf ops), bt_wf_init. Qed.

(** A mode handshake, a pulse that runs out, and a lightbar
    configuration write four frames. *)
Example bt_ops_sample :
  let self :=
    bt_ops_run (K := host16) (libm := poly_math)
      [ BtSetOperational; BtEvent BtAttach; BtEvent (BtFeedback long_pulse);
        BtEvent (BtTimer {| handle := 0; delay := 2 |});
        BtConfigure (Some "A-3.svg"%string) (PyInt 100) ]
      (DS5HidRawController.init 0 0) in
  map (fun frame => (firstn 6 frame, firstn 3 (skipn 46 frame)))
    (DS5HidRawController._hidrawdev self)
  = [ ([0x31; 0x02; 0; 0x55; 0; 0], [0; 0; 200]);
      ([0x31; 0x02; 3; 0; 0; 128], [0; 0; 0]);
      ([0x31; 0x02; 3; 0; 0; 0], [0; 0; 0]);
      ([0x31; 0x02; 0; 4; 0; 0], [255; 255; 0]) ].
Proof. vm_compute. reflexivity. Qed.

(** ** The Bluetooth output path: what each call writes *)

Lemma c_ubyte_c_byte (v : Z) :
  c_ubyte (DualSenseHIDOutputBT.c_byte v) = v mod 256.
Proof.
  unfold c_ubyte, DualSenseHIDOutputBT.c_byte.
  change (2 ^ 8) with 256. change (2 ^ 7) with 128.
  Z.to_euclidean_division_equations. lia.
Qed.

Lemma nth_firstn_lt {A : Type} (n i : nat) (l : list A) (d : A) :
  (i < n)%nat -> nth i (firstn n l) d = nth i l d.
Proof.
  revert i l. induction n as [|n IH]; intros i l Hi; [lia|].
  destruct l as [|a l]; [reflexivity|]. destruct i as [|i]; [reflexivity|].
  cbn [firstn nth]. apply IH. lia.
Qed.

Lemma firstn_eq_nth {A : Type} (n i : nat) (l l' : list A) (d : A) :
  firstn n l = firstn n l' -> (i < n)%nat -> nth i l d = nth i l' d.
Proof.
  intros E Hi. rewrite <- (nth_firstn_lt n i l d Hi), E. now apply nth_firstn_lt.
Qed.

Section BtWrites.
Context {K : scc_constants} {libm : math}.
Import DS5HidRawController.

(** With nothing staged, staging a framed structure and flushing writes
    that one frame and leaves nothing staged. *)
Lemma stage_struct_run (output_id : string) (o : DualSenseHIDOutputBT.t)
    (self : t) :
  _outputs self = [] ->
  exists buf,
    bind (lift (_prepare_buffer_crc (bytearray DualSenseHIDOutputBT._fields_ o)))
      (fun tempbuffer =>
         bind (schedule_output output_id tempbuffer) (fun _ => flush)) self
    = (Ok tt, set_hidrawdev (_hidrawdev self ++ [buf]) self) /\
    framed buf = true /\
    firstn 74 buf = firstn 74 (bytearray DualSenseHIDOutputBT._fields_ o).
Proof.
  intro Hout. destruct (prepare_buffer_crc_struct o) as (buf & Hrun & Hf & Hfirst).
  exists buf. split; [|split; assumption].
  unfold bind, lift, schedule_output, flush, modify. rewrite Hrun.
  unfold set_outputs, set_hidrawdev, popitems.
  cbn [_outputs _hidrawdev _feedback_output _feedback_cancel_task _old_state
       _previous_quat _delta_time _previous_time mapper scheduler].
  rewrite Hout. reflexivity.
Qed.

(** Every call leaves nothing staged. *)
Lemma flushed_flush : preserves (fun s => _outputs s = []) flush.
Proof. intros s _. reflexivity. Qed.

Lemma flushed_stage (output_id : string) (o : DualSenseHIDOutputBT.t) :
  preserves (fun s => _outputs s = [])
    (bind (lift (_prepare_buffer_crc (bytearray DualSenseHIDOutputBT._fields_ o)))
       (fun tempbuffer =>
          bind (schedule_output output_id tempbuffer) (fun _ => flush))).
Proof.
  intros s Hs. destruct (stage_struct_run output_id o s Hs) as (buf & -> & _).
  exact Hs.
Qed.

Lemma flushed_set_motor (f : DualSenseHIDOutputBT.field) (v : Z) :
  preserves (fun s => _outputs s = []) (set_motor f v).
Proof. intros s Hs. exact Hs. Qed.

Lemma flushed_send_feedback_output :
  preserves (fun s => _outputs s = []) send_feedback_output.
Proof.
  intros s Hs. unfold send_feedback_output, bind at 1, get.
  now apply flushed_stage.
Qed.

Lemma flushed_feedback (data : HapticData) :
  preserves (fun s => _outputs s = []) (feedback data).
Proof.
  unfold feedback. cbv zeta. apply preserves_bind.
  { destruct (position data); intros s Hs; exact Hs. }
  intros _. apply preserves_bind; [apply flushed_send_feedback_output | intros _].
  apply preserves_bind_get. intros s Hs.
  apply (preserves_bind (fun s => _outputs s = [])); [| | exact Hs].
  - destruct (_feedback_cancel_task s); [|apply preserves_ret].
    intros s' Hs'. exact Hs.
  - intros _. apply preserves_bind.
    + intros s' Hs'. unfold mapper_schedule, bind, get, put, ret, raise.
      destruct (mapper s'); exact Hs'.
    + intro task. apply preserves_modify. intros s' Hs'. exact Hs'.
Qed.

Lemma flushed_timer_fires (task : Task) :
  preserves (fun s => _outputs s = []) (timer_fires task).
Proof.
  unfold timer_fires. apply preserves_bind_get. intros s Hs.
  destruct (is_pending task (scheduler s)); [|exact Hs].
  apply (preserves_bind (fun s => _outputs s = [])); [| | exact Hs].
  - intros s' Hs'. exact Hs.
  - intros _. unfold clear_feedback.
    apply preserves_bind; [apply flushed_set_motor | intros _].
    apply preserves_bind; [apply flushed_set_motor | intros _].
    apply flushed_send_feedback_output.
Qed.

Lemma flushed_input (frame : list Z) (now : Q) :
  preserves (fun s => _outputs s = []) (_input frame now).
Proof.
  unfold _input. apply preserves_bind; [apply preserves_lift | intro d0].
  destruct (negb (d0 =? 49)); [apply preserves_ret|].
  apply preserves_bind_get. intros s Hs.
  apply (preserves_bind (fun s => _outputs s = [])); [| | exact Hs].
  { intros s' Hs'. exact Hs. }
  intros _. apply preserves_bind.
  { unfold _convert_input_data. cbv zeta.
    repeat (apply preserves_bind;
            [first [apply preserves_lift
                   | intros s' Hs';
                     match goal with
                     | |- context [_calculate_quaternion ?st s'] =>
                         destruct (calculate_quaternion_frame st s')
                           as (v1 & v2 & v3 & v4 & q & ->)
                     end; exact Hs']
            | intro]).
    apply preserves_ret. }
  intro st. apply preserves_bind_get. intros s1 Hs1.
  apply (preserves_bind (fun s => _outputs s = [])); [| | exact Hs1].
  { destruct (mapper s1); [|apply preserves_ret]. intros s' Hs'. exact Hs1. }
  intros _. apply preserves_bind; [apply preserves_modify; intros s' Hs'; exact Hs' | intros _].
  apply preserves_bind; [apply flushed_flush | intros _].
  apply preserves_modify. intros s' Hs'. exact Hs'.
Qed.

Lemma flushed_configure (icon : option string) (led_level : number) :
  preserves (fun s => _outputs s = []) (configure icon led_level).
Proof.
  unfold configure. cbv zeta. apply preserves_bind.
  - destruct icon as [[|c icon]|]; try apply preserves_ret.
    apply preserves_bind; [apply preserves_lift | intros [basename ext]].
    destruct (rsplit1 "-" basename) as [|p parts]; [apply preserves_ret|].
    apply preserves_bind; [apply preserves_lift | intro raw_idx].
    destruct (int_of_str raw_idx) as [icon_idx|[| | |]];
      try apply preserves_raise; try apply preserves_ret.
    destruct (icon_idx <? Z.of_nat (List.length ICON_COLORS));
      [apply preserves_lift | apply preserves_ret].
  - intros [[red green] blue].
    apply preserves_bind; [apply preserves_lift | intro x]. cbv zeta.
    apply preserves_bind; [apply preserves_lift | intro r].
    apply preserves_bind; [apply preserves_lift | intro g].
    apply preserves_bind; [apply preserves_lift | intro b].
    apply flushed_stage.
Qed.

Lemma bt_op_step_flushed (op : bt_op) :
  preserves (fun s => _outputs s = []) (bt_op_step op).
Proof.
  destruct op as [[| |frame now|data|task]|icon led_level|];
    cbn [bt_op_step bt_step].
  - intros s Hs. exact Hs.
  - intros s Hs. exact Hs.
  - apply flushed_input.
  - apply flushed_feedback.
  - apply flushed_timer_fires.
  - apply flushed_configure.
  - unfold _set_operational. apply flushed_stage.
Qed.

Lemma bt_ops_run_flushed (ops : list bt_op) (self : t) :
  _outputs self = [] -> _outputs (bt_ops_run ops self) = [].
Proof.
  revert self. induction ops as [|op ops IH]; intros self Hs; [exact Hs|].
  cbn [bt_ops_run fold_left]. apply IH. now apply (bt_op_step_flushed op).
Qed.

Lemma send_feedback_output_run (self : t) :
  _outputs self = [] ->
  exists buf,
    send_feedback_output self
    = (Ok tt, set_hidrawdev (_hidrawdev self ++ [buf]) self) /\
    framed buf = true /\
    firstn 74 buf
    = firstn 74 (bytearray DualSenseHIDOutputBT._fields_ (_feedback_output self)).
Proof.
  intro Hout. unfold send_feedback_output, bind at 1, get.
  now apply stage_struct_run.
Qed.

(** The feedback record after [feedback] has set the motors. *)
Lemma bt_feedback_run (data : HapticData) (self : t)
    (m : Mapper DualSenseBTControllerInput.t) :
  mapper self = Some m -> _outputs self = [] ->
  exists buf self1 task,
    feedback data self = (Ok tt, self1) /\
    _hidrawdev self1 = _hidrawdev self ++ [buf] /\
    firstn 74 buf
    = firstn 74 (bytearray DualSenseHIDOutputBT._fields_ (_feedback_output self1)) /\
    _outputs self1 = [] /\
    _feedback_cancel_task self1 = Some task /\
    is_pending task (scheduler self1) = true /\
    let normalized_amp := (inject_Z (amplitude data) / 0x8000)%Q in
    (position data <> HapticPos.LEFT ->
     _feedback_output self1 DualSenseHIDOutputBT.motor_right
     = DualSenseHIDOutputBT.c_byte (py_int (normalized_amp * 0xff)%Q)) /\
    (position data <> HapticPos.RIGHT ->
     _feedback_output self1 DualSenseHIDOutputBT.motor_left
     = DualSenseHIDOutputBT.c_byte (py_int (normalized_amp * 0x80)%Q)) /\
    (position data = HapticPos.LEFT ->
     _feedback_output self1 DualSenseHIDOutputBT.motor_right
     = _feedback_output self DualSenseHIDOutputBT.motor_right) /\
    (position data = HapticPos.RIGHT ->
     _feedback_output self1 DualSenseHIDOutputBT.motor_left
     = _feedback_output self DualSenseHIDOutputBT.motor_left).
Proof.
  intros Hm Hout. unfold feedback. cbv zeta.
  set (motors := match position data with
                 | HapticPos.LEFT => _ | HapticPos.RIGHT => _ | HapticPos.BOTH => _
                 end).
  assert (exists fo, motors self = (Ok tt, set_feedback_output fo self) /\
    (position data <> HapticPos.LEFT ->
     fo DualSenseHIDOutputBT.motor_right
     = DualSenseHIDOutputBT.c_byte
         (py_int (inject_Z (amplitude data) / 0x8000 * 0xff)%Q)) /\
    (position data <> HapticPos.RIGHT ->
     fo DualSenseHIDOutputBT.motor_left
     = DualSenseHIDOutputBT.c_byte
         (py_int (inject_Z (amplitude data) / 0x8000 * 0x80)%Q)) /\
    (position data = HapticPos.LEFT ->
     fo DualSenseHIDOutputBT.motor_right
     = _feedback_output self DualSenseHIDOutputBT.motor_right) /\
    (position data = HapticPos.RIGHT ->
     fo DualSenseHIDOutputBT.motor_left
     = _feedback_output self DualSenseHIDOutputBT.motor_left))
    as (fo & Hmotors & Hr & Hl & Hkr & Hkl).
  { subst motors. destruct (position data); eexists;
      (split; [reflexivity|]); repeat split; intro; try congruence; reflexivity. }
  unfold bind at 1. rewrite Hmotors.
  destruct (send_feedback_output_run (set_feedback_output fo self) Hout)
    as (buf & Hsend & _ & Hfirst).
  unfold bind at 1. rewrite Hsend.
  unfold set_feedback_output, set_hidrawdev in *.
  cbn [_outputs _hidrawdev _feedback_output _feedback_cancel_task _old_state
       _previous_quat _delta_time _previous_time mapper scheduler] in *.
  unfold bind, get, put, ret, modify, mapper_schedule, raise.
  unfold set_scheduler, set_feedback_cancel_task, schedule.
  destruct (_feedback_cancel_task self) as [t0|];
    cbn [_outputs _hidrawdev _feedback_output _feedback_cancel_task _old_state
         _previous_quat _delta_time _previous_time mapper scheduler];
    rewrite Hm;
    do 3 eexists; (split; [reflexivity|]);
    cbn [_outputs _hidrawdev _feedback_output _feedback_cancel_task _old_state
         _previous_quat _delta_time _previous_time mapper scheduler];
    (split; [reflexivity|]); (split; [exact Hfirst|]);
    (split; [exact Hout|]); (split; [reflexivity|]);
    (split; [|repeat split; assumption]);
    unfold is_pending; cbn [pending]; rewrite existsb_app; cbn [existsb];
    unfold same_task; rewrite Nat.eqb_refl; cbn [orb]; apply orb_true_r.
Qed.

(** The stop task of a pulse, when it comes due. *)
Lemma bt_timer_run (task : Task) (self : t) :
  is_pending task (scheduler self) = true -> _outputs self = [] ->
  exists buf self2,
    timer_fires task self = (Ok tt, self2) /\
    _hidrawdev self2 = _hidrawdev self ++ [buf] /\
    framed buf = true /\
    nth 4 buf 0 = 0 /\ nth 5 buf 0 = 0.
Proof.
  intros Hp Hout. unfold timer_fires, bind at 1, get. rewrite Hp.
  unfold bind at 1, put. unfold clear_feedback.
  unfold bind at 1, set_motor at 1, modify. unfold bind at 1, set_motor at 1, modify.
  match goal with
  | |- context [send_feedback_output ?s1] =>
      destruct (send_feedback_output_run s1 Hout) as (buf & -> & Hf & Hfirst)
  end.
  do 2 eexists. split; [reflexivity|]. split; [reflexivity|]. split; [exact Hf|].
  split.
  - rewrite (firstn_eq_nth 74 4 _ _ 0 Hfirst) by lia. reflexivity.
  - rewrite (firstn_eq_nth 74 5 _ _ 0 Hfirst) by lia. reflexivity.
Qed.

End BtWrites.

Lemma py_int_scaled (a n d : Z) :
  0 <= a -> 0 <= n -> 0 < d ->
  py_int (inject_Z a / inject_Z d * inject_Z n)%Q = a * n / d.
Proof.
  intros Ha Hn Hd. destruct d as [|p|p]; try lia.
  rewrite (py_int_compat _ ((a * n) # p)).
  - unfold py_int. cbn [Qnum Qden]. apply Z.quot_div_nonneg; lia.
  - unfold Qeq, Qdiv, Qmult, Qinv, inject_Z. cbn [Qnum Qden]. 
    rewrite ?Pos.mul_1_l, ?Pos.mul_1_r. lia.
Qed.



Section BtLightbar.
Context {K : scc_constants} {libm : math}.
Import DS5HidRawController.


(** An icon name without a '.' makes the Bluetooth [configure] raise
    before anything is built. *)
Lemma bt_configure_no_extension (c : ascii) (rest : string)
    (led_level : number) (self : t) :
  rindex "." (String c rest) = None ->
  configure (Some (String c rest)) led_level self = (Raise ValueError, self).
Proof.
  intro Hdot. unfold configure. cbv zeta. unfold rsplit1 at 1. rewrite Hdot.
  reflexivity.
Qed.


End BtLightbar.

(** X2. After any history of calls nothing is left staged on a Bluetooth
    controller: every record that a call stages is written to the raw HID
    node before the call returns. *)
Theorem bt_nothing_left_staged {K : scc_constants} {libm : math}
    (ops : list bt_op) (t0 t1 : Q) :
  DS5HidRawController._outputs
    (bt_ops_run ops (DS5HidRawController.init t0 t1)) = [].
Proof. now apply bt_ops_run_flushed. Qed.

(** X3. The mode handshake [_set_operational], at any moment of a
    controller's life, returns normally, writes exactly one frame - the
    report with light-effect control 0x55 and lightbar blue 200, CRC
    trailer 212, 22, 39, 115 - and changes nothing else. *)
Theorem bt_set_operational_writes_init {K : scc_constants} {libm : math}
    (ops : list bt_op) (t0 t1 : Q) :
  let self := bt_ops_run ops (DS5HidRawController.init t0 t1) in
  DS5HidRawController._set_operational self
  = (Ok tt,
     DS5HidRawController.set_hidrawdev
       (DS5HidRawController._hidrawdev self ++ [bt_init_frame]) self).
Proof.
  intro self.
  assert (DS5HidRawController._outputs self = []) as Hout
    by (now apply bt_ops_run_flushed).
  unfold DS5HidRawController._set_operational.
  replace (DS5HidRawController._prepare_buffer_crc
            (bytearray DualSenseHIDOutputBT._fields_
               DS5HidRawController.init_output))
    with (Ok bt_init_frame) by (vm_compute; reflexivity).
  unfold bind, lift, DS5HidRawController.schedule_output,
    DS5HidRawController.flush, modify.
  unfold DS5HidRawController.set_outputs, DS5HidRawController.set_hidrawdev, popitems.
  cbn [DS5HidRawController._outputs DS5HidRawController._hidrawdev
       DS5HidRawController._feedback_output
       DS5HidRawController._feedback_cancel_task DS5HidRawController._old_state
       DS5HidRawController._previous_quat DS5HidRawController._delta_time
       DS5HidRawController._previous_time DS5HidRawController.mapper
       DS5HidRawController.scheduler].
  rewrite Hout. reflexivity.
Qed.



(** X5. An icon name that is not empty and has no '.' makes the Bluetooth
    [configure] raise [ValueError]; nothing is written or staged and the
    controller is unchanged. *)
Theorem bt_configure_raises_without_extension (icon : string)
    (led_level : number) (self : DS5HidRawController.t) :
  icon <> EmptyString -> contains "." icon = false ->
  DS5HidRawController.configure (Some icon) led_level self
  = (Raise ValueError, self).
Proof.
  intros Hne Hdot. destruct icon as [|c rest]; [congruence|].
  apply bt_configure_no_extension.
  destruct (rindex "." (String c rest)) as [i|] eqn:E; [|reflexivity].
  exfalso. revert i E Hdot. generalize (String c rest). clear.
  induction s as [|a s IH]; intros i E Hc; [discriminate|].
  cbn [rindex contains] in *. apply orb_false_elim in Hc as [Ha Hs].
  destruct (rindex "." s) as [j|] eqn:Ej.
  - now apply (IH j).
  - rewrite Ha in E. discriminate.
Qed.

Lemma bt_configure_raises_without_extension_witness :
  DS5HidRawController.configure (Some "icon-3"%string) (PyInt 100)
    bt_with_mapper
  = (Raise ValueError, bt_with_mapper).
Proof.
  apply (bt_configure_raises_without_extension "icon-3" (PyInt 100)
           bt_with_mapper);
    [discriminate | reflexivity].
Defined.


(** X6. A feedback request on a Bluetooth controller with a mapper
    attached, at any moment of its life and for an amplitude from 0 to
    0x8000, immediately writes exactly one frame.  Byte 4 (right motor) is
    [amplitude * 255 / 0x8000] rounded down unless the request is for the
    left motor only, in which case it keeps the level of the feedback
    record; byte 5 (left motor) is [amplitude / 256] rounded down unless
    the request is for the right motor only.  When the stop task of the
    request comes due it writes one more frame, with zero in both motor
    bytes. *)
Theorem bt_feedback_pulse {K : scc_constants} {libm : math}
    (ops : list bt_op) (t0 t1 : Q) (data : HapticData) :
  let self := bt_ops_run ops (DS5HidRawController.init t0 t1) in
  DS5HidRawController.mapper self <> None ->
  0 <= amplitude data <= 0x8000 ->
  exists start stop self1 self2 task,
    DS5HidRawController.feedback data self = (Ok tt, self1) /\
    DS5HidRawController._hidrawdev self1
    = DS5HidRawController._hidrawdev self ++ [start] /\
    nth 4 start 0
    = match position data with
      | HapticPos.LEFT =>
          c_ubyte (DS5HidRawController._feedback_output self
                     DualSenseHIDOutputBT.motor_right)
      | _ => amplitude data * 255 / 0x8000
      end /\
    nth 5 start 0
    = match position data with
      | HapticPos.RIGHT =>
          c_ubyte (DS5HidRawController._feedback_output self
                     DualSenseHIDOutputBT.motor_left)
      | _ => amplitude data / 256
      end /\
    DS5HidRawController._feedback_cancel_task self1 = Some task /\
    DS5HidRawController.timer_fires task self1 = (Ok tt, self2) /\
    DS5HidRawController._hidrawdev self2
    = DS5HidRawController._hidrawdev self1 ++ [stop] /\
    nth 4 stop 0 = 0 /\ nth 5 stop 0 = 0.
Proof.
  intros self Hm [Ha0 Ha1].
  assert (DS5HidRawController._outputs self = []) as Hout
    by (now apply bt_ops_run_flushed).
  destruct (DS5HidRawController.mapper self) as [m|] eqn:Em; [clear Hm | congruence].
  destruct (bt_feedback_run data self m Em Hout)
    as (start & self1 & task & Hrun & Hdev & Hfirst & Hout1 & Htask & Hp
        & Hr & Hl & Hkr & Hkl).
  cbv zeta in Hr, Hl.
  destruct (bt_timer_run task self1 Hp Hout1)
    as (stop & self2 & Hfire & Hdev2 & _ & H4 & H5).
  exists start, stop, self1, self2, task.
  split; [exact Hrun|]. split; [exact Hdev|].
  assert (py_int (inject_Z (amplitude data) / 0x8000 * 0xff)%Q
          = amplitude data * 255 / 0x8000) as Eright.
  { apply (py_int_scaled (amplitude data) 255 0x8000); lia. }
  assert (py_int (inject_Z (amplitude data) / 0x8000 * 0x80)%Q
          = amplitude data / 256) as Eleft.
  { transitivity (amplitude data * 0x80 / 0x8000).
    - apply (py_int_scaled (amplitude data) 0x80 0x8000); lia.
    - Z.to_euclidean_division_equations. lia. }
  split; [|split; [|repeat split; assumption]].
  - rewrite (firstn_eq_nth 74 4 _ _ 0 Hfirst) by lia.
    change (nth 4 (bytearray DualSenseHIDOutputBT._fields_
                     (DS5HidRawController._feedback_output self1)) 0)
      with (c_ubyte (DS5HidRawController._feedback_output self1
                       DualSenseHIDOutputBT.motor_right)).
    destruct (position data) eqn:Ep.
    + now rewrite Hkr.
    + rewrite Hr by discriminate. rewrite c_ubyte_c_byte, Eright.
      apply Z.mod_small. Z.to_euclidean_division_equations. lia.
    + rewrite Hr by discriminate. rewrite c_ubyte_c_byte, Eright.
      apply Z.mod_small. Z.to_euclidean_division_equations. lia.
  - rewrite (firstn_eq_nth 74 5 _ _ 0 Hfirst) by lia.
    change (nth 5 (bytearray DualSenseHIDOutputBT._fields_
                     (DS5HidRawController._feedback_output self1)) 0)
      with (c_ubyte (DS5HidRawController._feedback_output self1
                       DualSenseHIDOutputBT.motor_left)).
    destruct (position data) eqn:Ep.
    + rewrite Hl by discriminate. rewrite c_ubyte_c_byte, Eleft.
      apply Z.mod_small. Z.to_euclidean_division_equations. lia.
    + now rewrite Hkl.
    + rewrite Hl by discriminate. rewrite c_ubyte_c_byte, Eleft.
      apply Z.mod_small. Z.to_euclidean_division_equations. lia.
Qed.

Lemma bt_feedback_pulse_witness :
  let self :=
    bt_ops_run (K := host16) (libm := poly_math)
      [BtSetOperational; BtEvent BtAttach] (DS5HidRawController.init 0 0) in
  exists start stop self1 self2 task,
    DS5HidRawController.feedback short_pulse self = (Ok tt, self1) /\
    DS5HidRawController._hidrawdev self1
    = DS5HidRawController._hidrawdev self ++ [start] /\
    nth 4 start 0
    = match position short_pulse with
      | HapticPos.LEFT =>
          c_ubyte (DS5HidRawController._feedback_output self
                     DualSenseHIDOutputBT.motor_right)
      | _ => amplitude short_pulse * 255 / 0x8000
      end /\
    nth 5 start 0
    = match position short_pulse with
      | HapticPos.RIGHT =>
          c_ubyte (DS5HidRawController._feedback_output self
                     DualSenseHIDOutputBT.motor_left)
      | _ => amplitude short_pulse / 256
      end /\
    DS5HidRawController._feedback_cancel_task self1 = Some task /\
    DS5HidRawController.timer_fires task self1 = (Ok tt, self2) /\
    DS5HidRawController._hidrawdev self2
    = DS5HidRawController._hidrawdev self1 ++ [stop] /\
    nth 4 stop 0 = 0 /\ nth 5 stop 0 = 0.
Proof.
  apply (bt_feedback_pulse (K := host16) (libm := poly_math)
           [BtSetOperational; BtEvent BtAttach] 0 0 short_pulse).
  - vm_compute. discriminate.
  - cbn. lia.
Defined.

(** The motor bytes of a pulse on both motors at half amplitude, and of
    the stop frame that follows it. *)
Example bt_feedback_pulse_sample :
  let self :=
    bt_ops_run (K := host16) (libm := poly_math)
      [ BtEvent BtAttach; BtEvent (BtFeedback short_pulse);
        BtEvent (BtTimer {| handle := 0; delay := 0.05 |}) ]
      (DS5HidRawController.init 0 0) in
  map (fun frame => (nth 4 frame 0, nth 5 frame 0))
    (DS5HidRawController._hidrawdev self) = [(127, 64); (0, 0)].
Proof. vm_compute. reflexivity. Qed.

(** ** The USB output path: staging and flushing *)

Lemma dict_set_keys {V : Type} (d : dict V) (k : string) (v : V) :
  map fst (dict_set d k v)
  = if py_in k (map fst d) then map fst d else map fst d ++ [k].
Proof.
  induction d as [|[k' v'] rest IH]; [reflexivity|].
  cbn [dict_set map fst py_in existsb]. unfold py_in in IH.
  rewrite (String.eqb_sym k k').
  destruct (String.eqb k' k); cbn [orb map fst]; [reflexivity|].
  rewrite IH. destruct (existsb (String.eqb k) (map fst rest)); reflexivity.
Qed.

Lemma dict_set_keys_NoDup {V : Type} (d : dict V) (k : string) (v : V) :
  NoDup (map fst d) -> NoDup (map fst (dict_set d k v)).
Proof.
  intro Hnd. rewrite dict_set_keys. destruct (py_in k (map fst d)) eqn:E;
    [exact Hnd|].
  apply NoDup_snoc; [exact Hnd|]. intro Hin. apply py_in_In in Hin. congruence.
Qed.

Lemma forallb_dict_set_entries {V : Type} (f : string * V -> bool) (d : dict V)
    (k : string) (v : V) :
  forallb f d = true -> f (k, v) = true -> forallb f (dict_set d k v) = true.
Proof.
  intros Hd Hv. induction d as [|[k' v'] rest IH]; cbn [dict_set forallb] in *.
  - now rewrite Hv.
  - apply andb_prop in Hd as [H1 H2].
    destruct (String.eqb k' k) eqn:E; cbn [forallb].
    + apply String.eqb_eq in E. subst k'. now rewrite Hv, H2.
    + now rewrite H1, IH.
Qed.

Lemma usb_entries_keys (d : dict ds5drv.DS5Controller.output) :
  forallb usb_entry_ok d = true ->
  incl (map fst d) ["feedback"; "lightbar"]%string.
Proof.
  intros Hd k Hk. apply in_map_iff in Hk as ([k' o] & <- & Hin).
  rewrite forallb_forall in Hd. specialize (Hd _ Hin).
  unfold usb_entry_ok in Hd. cbn [fst snd] in *. destruct o as [|o].
  - apply String.eqb_eq in Hd. subst. now left.
  - apply andb_prop in Hd as [Hd _]. apply andb_prop in Hd as [Hd _].
    apply andb_prop in Hd as [Hd _]. apply String.eqb_eq in Hd. subst.
    right. now left.
Qed.


Section UsbOutput.
Context {K : scc_constants} {H : hiddrv}.
Import DS5Controller.

Lemma usb_wf_schedule_output (output_id : string) (o : output) :
  usb_entry_ok (output_id, o) = true ->
  preserves usb_wf (schedule_output output_id o).
Proof.
  intros Ho. apply preserves_modify. intros s (Hnd & Hok & Hlight).
  unfold usb_wf, set_outputs. cbn [_outputs _feedback_output]. split; [|split].
  - now apply dict_set_keys_NoDup.
  - now apply forallb_dict_set_entries.
  - exact Hlight.
Qed.

Lemma usb_wf_set_motor (f : DualSenseHIDOutput.field) (v : Z) :
  f = DualSenseHIDOutput.motor_left \/ f = DualSenseHIDOutput.motor_right ->
  preserves usb_wf (set_motor f v).
Proof.
  intro Hf. apply preserves_modify. intros s (Hnd & Hok & Hlight).
  unfold usb_wf, set_feedback_output. cbn [_outputs _feedback_output].
  repeat split; try assumption. destruct Hf as [-> | ->]; exact Hlight.
Qed.

Lemma usb_wf_mapper_schedule (duration : Q) :
  preserves usb_wf (mapper_schedule duration).
Proof.
  intros s Hs. unfold mapper_schedule, bind, get, put, ret, raise.
  destruct (mapper s); exact Hs.
Qed.

Lemma usb_wf_feedback (data : HapticData) : preserves usb_wf (feedback data).
Proof.
  unfold feedback. cbv zeta. apply preserves_bind.
  { destruct (position data).
    - apply usb_wf_set_motor; now left.
    - apply usb_wf_set_motor; now right.
    - apply preserves_bind; [apply usb_wf_set_motor; now right | intros _].
      apply usb_wf_set_motor; now left. }
  intros _. apply preserves_bind.
  { now apply usb_wf_schedule_output. }
  intros _. apply preserves_bind_get. intros s Hs.
  apply (preserves_bind usb_wf); [| | exact Hs].
  - destruct (_feedback_cancel_task s); [|apply preserves_ret].
    intros s' Hs'. exact Hs.
  - intros _. apply preserves_bind; [apply usb_wf_mapper_schedule | intro task].
    apply preserves_modify. intros s' Hs'. exact Hs'.
Qed.

Lemma usb_wf_timer_fires (task : Task) : preserves usb_wf (timer_fires task).
Proof.
  unfold timer_fires. apply preserves_bind_get. intros s Hs.
  destruct (is_pending task (scheduler s)); [|exact Hs].
  apply (preserves_bind usb_wf); [| | exact Hs].
  - intros s' Hs'. exact Hs.
  - intros _. unfold clear_feedback.
    apply preserves_bind; [apply usb_wf_set_motor; now right | intros _].
    apply preserves_bind; [apply usb_wf_set_motor; now left | intros _].
    now apply usb_wf_schedule_output.
Qed.

Lemma usb_wf_input (endpoint : Z) (data : list Z) :
  preserves usb_wf (input endpoint data).
Proof.
  intros s Hs. unfold input, bind, get, put, modify, lift, ret.
  destruct (decode (_decoder s) data) as [ok dec].
  unfold set_decoder, set_mapper. cbn [mapper fst snd].
  destruct ok; [|exact Hs].
  destruct (mapper s); [|exact Hs].
  destruct (getitem data 33) as [d33|e]; [|exact Hs].
  destruct (negb (Z.shiftr d33 7 =? 0)); exact Hs.
Qed.

Lemma usb_wf_configure (icon : option string) (led_level : number) :
  preserves usb_wf (configure icon led_level).
Proof.
  unfold configure. cbv zeta. apply preserves_bind.
  - destruct icon as [[|c icon]|]; try apply preserves_ret.
    apply preserves_bind; [apply preserves_lift | intros [basename ext]].
    destruct (rsplit1 "-" basename) as [|p parts]; [apply preserves_ret|].
    apply preserves_bind; [apply preserves_lift | intro raw_idx].
    destruct (int_of_str raw_idx) as [icon_idx|[| | |]];
      try apply preserves_raise; try apply preserves_ret.
    destruct (icon_idx <? Z.of_nat (List.length ICON_COLORS));
      [apply preserves_lift | apply preserves_ret].
  - intros [[red green] blue].
    apply preserves_bind; [apply preserves_lift | intro x]. cbv zeta.
    apply preserves_bind; [apply preserves_lift | intro r].
    apply preserves_bind; [apply preserves_lift | intro g].
    apply preserves_bind; [apply preserves_lift | intro b].
    now apply usb_wf_schedule_output.
Qed.

Lemma usb_wf_flush : preserves usb_wf (bind flush (fun _ => ret tt)).
Proof.
  intros s (_ & _ & Hlight). unfold usb_wf. cbn. repeat split; [constructor | exact Hlight].
Qed.

Lemma usb_op_step_wf (op : usb_op) : preserves usb_wf (usb_op_step op).
Proof.
  destruct op as [[| |endpoint data|data|icon led_level|task]|];
    cbn [usb_op_step usb_step].
  - intros s Hs. exact Hs.
  - intros s Hs. exact Hs.
  - apply usb_wf_input.
  - apply usb_wf_feedback.
  - apply usb_wf_configure.
  - apply usb_wf_timer_fires.
  - apply usb_wf_flush.
Qed.

Lemma usb_ops_run_wf (ops : list usb_op) (self : t) :
  usb_wf self -> usb_wf (usb_ops_run ops self).
Proof.
  revert self. induction ops as [|op ops IH]; intros self Hwf; [exact Hwf|].
  cbn [usb_ops_run fold_left]. apply IH. now apply usb_op_step_wf.
Qed.

Lemma usb_wf_init (decoder : HIDDecoder) : usb_wf (init decoder).
Proof. repeat split. constructor. Qed.

Lemma usb_packet_of_struct (o : DualSenseHIDOutput.t) :
  usb_packet (3, ljust 64 0 (bytearray DualSenseHIDOutput._fields_ o)) = true.
Proof.
  unfold usb_packet. cbn [fst snd Z.eqb Pos.eqb andb].
  cbn [ljust bytearray DualSenseHIDOutput._fields_ flat_map repeat app
       List.length Nat.sub Nat.eqb].
  rewrite !is_bytes_cons, !is_byte_c_ubyte. reflexivity.
Qed.

Lemma usb_flush_run (self : t) :
  flush self
  = (Ok (map (fun '(output_id, output) =>
                (3, ljust 64 0 (bytearray DualSenseHIDOutput._fields_
                                  (resolve self output))))
             (popitems (_outputs self))),
     set_outputs [] self).
Proof. reflexivity. Qed.

Lemma usb_flush_writes (self : t) (id : string) (o : output) :
  In (id, o) (_outputs self) ->
  exists writes,
    fst (flush self) = Ok writes /\
    List.length writes = List.length (_outputs self) /\
    In (3, ljust 64 0 (bytearray DualSenseHIDOutput._fields_ (resolve self o)))
       writes.
Proof.
  intro Hin. rewrite usb_flush_run. cbn [fst]. eexists. split; [reflexivity|].
  split.
  - unfold popitems. now rewrite length_map, length_rev.
  - apply in_map_iff. exists (id, o). split; [reflexivity|].
    unfold popitems. now apply in_rev in Hin.
Qed.

Lemma dict_set_In {V : Type} (d : dict V) (k : string) (v : V) :
  In (k, v) (dict_set d k v).
Proof.
  induction d as [|[k' v'] rest IH]; cbn [dict_set]; [now left|].
  destruct (String.eqb k' k) eqn:E.
  - apply String.eqb_eq in E. subst. now left.
  - now right.
Qed.

Lemma dict_set_length_present {V : Type} (d : dict V) (k : string) (v w : V) :
  List.length (dict_set (dict_set d k v) k w) = List.length (dict_set d k v).
Proof.
  induction d as [|[k' v'] rest IH]; cbn [dict_set].
  - rewrite String.eqb_refl. reflexivity.
  - destruct (String.eqb k' k) eqn:E; cbn [dict_set]; rewrite E;
      cbn [List.length]; [reflexivity | now rewrite IH].
Qed.

(** [feedback] with a mapper attached, step by step. *)
Lemma usb_feedback_run (data : HapticData) (self : t)
    (m : Mapper HIDControllerInput) :
  mapper self = Some m ->
  exists self1 task,
    feedback data self = (Ok tt, self1) /\
    _outputs self1 = dict_set (_outputs self) "feedback" the_feedback_output /\
    _feedback_cancel_task self1 = Some task /\
    is_pending task (scheduler self1) = true /\
    _feedback_output self1 DualSenseHIDOutput.motor_right
    = match position data with
      | HapticPos.LEFT => _feedback_output self DualSenseHIDOutput.motor_right
      | _ => c_ubyte (py_int (inject_Z (amplitude data) / 0x8000 * 0xff)%Q)
      end /\
    _feedback_output self1 DualSenseHIDOutput.motor_left
    = match position data with
      | HapticPos.RIGHT => _feedback_output self DualSenseHIDOutput.motor_left
      | _ => c_ubyte (py_int (inject_Z (amplitude data) / 0x8000 * 0x80)%Q)
      end.
Proof.
  intro Hm. unfold feedback. cbv zeta.
  unfold set_motor, schedule_output, mapper_schedule.
  unfold bind, get, put, modify, ret, raise.
  unfold set_scheduler, set_outputs, set_feedback_output,
    set_feedback_cancel_task, schedule.
  destruct (position data); destruct (_feedback_cancel_task self) as [t0|];
    cbn [mapper scheduler _feedback_cancel_task _outputs _feedback_output fst snd];
    rewrite Hm; do 2 eexists; (split; [reflexivity|]);
    cbn [mapper scheduler _feedback_cancel_task _outputs _feedback_output];
    (split; [reflexivity|]); (split; [reflexivity|]);
    (split; [|split; reflexivity]);
    unfold is_pending; cbn [pending]; rewrite existsb_app; cbn [existsb];
    unfold same_task; rewrite Nat.eqb_refl; apply orb_true_r.
Qed.

(** The stop task of a pulse, when it comes due. *)
Lemma usb_timer_run (task : Task) (self : t) :
  is_pending task (scheduler self) = true ->
  exists self2,
    timer_fires task self = (Ok tt, self2) /\
    _outputs self2 = dict_set (_outputs self) "feedback" the_feedback_output /\
    _feedback_output self2 DualSenseHIDOutput.motor_right = 0 /\
    _feedback_output self2 DualSenseHIDOutput.motor_left = 0.
Proof.
  intro Hp. unfold timer_fires, bind at 1, get. rewrite Hp.
  eexists. split; [reflexivity|]. repeat split.
Qed.

Lemma motors_off_packet (self : t) (id : string) (o : output) :
  _feedback_output self DualSenseHIDOutput.motor_right = 0 ->
  _feedback_output self DualSenseHIDOutput.motor_left = 0 ->
  usb_entry_ok (id, o) = true ->
  let data := ljust 64 0 (bytearray DualSenseHIDOutput._fields_ (resolve self o)) in
  nth 3 data 0 = 0 /\ nth 4 data 0 = 0.
Proof.
  intros Hr Hl Ho. cbv zeta.
  change (nth 3 (ljust 64 0 (bytearray DualSenseHIDOutput._fields_
                               (resolve self o))) 0)
    with (c_ubyte (resolve self o DualSenseHIDOutput.motor_right)).
  change (nth 4 (ljust 64 0 (bytearray DualSenseHIDOutput._fields_
                               (resolve self o))) 0)
    with (c_ubyte (resolve self o DualSenseHIDOutput.motor_left)).
  destruct o as [|o]; unfold usb_entry_ok in Ho; cbn [resolve fst snd] in *.
  - now rewrite Hr, Hl.
  - apply andb_prop in Ho as [Ho _]. apply andb_prop in Ho as [Ho E2].
    apply andb_prop in Ho as [_ E1]. apply Z.eqb_eq in E1, E2.
    now rewrite E1, E2.
Qed.

End UsbOutput.

(** X7. At any moment of a USB controller's life - after any calls,
    output cycles included - [flush] returns normally, makes at most two
    interrupt transfers (at most one per purpose, "feedback" and
    "lightbar", however many requests were staged), each of exactly 64
    bytes to endpoint 3, and leaves nothing staged: a second [flush] in a
    row writes nothing. *)
Theorem usb_flush_packets {K : scc_constants} {H : hiddrv}
    (ops : list usb_op) (decoder : HIDDecoder) :
  let self := usb_ops_run ops (DS5Controller.init decoder) in
  exists writes,
    DS5Controller.flush self = (Ok writes, DS5Controller.set_outputs [] self) /\
    (List.length writes <= 2)%nat /\
    forallb usb_packet writes = true /\
    DS5Controller.flush (DS5Controller.set_outputs [] self)
    = (Ok [], DS5Controller.set_outputs [] self).
Proof.
  intro self.
  assert (usb_wf self) as (Hnd & Hok & _)
    by (apply usb_ops_run_wf, usb_wf_init).
  pose proof (usb_entries_keys _ Hok) as Hincl.
  eexists. split; [apply usb_flush_run|]. split; [|split; [|reflexivity]].
  - unfold popitems. rewrite length_map, length_rev.
    pose proof (NoDup_incl_length Hnd Hincl) as Hlen.
    rewrite length_map in Hlen. exact Hlen.
  - apply forallb_forall. intros w Hw. apply in_map_iff in Hw as ([id o] & <- & _).
    apply usb_packet_of_struct.
Qed.

(** X8. A feedback request on a USB controller with a mapper attached,
    for an amplitude from 0 to 0x8000, only stages the pulse: the next
    [flush] sends a packet whose byte 3 (right motor) is
    [amplitude * 255 / 0x8000] and whose byte 4 (left motor) is
    [amplitude / 256], rounded down (a request for one motor keeps the
    level of the other).  What is staged is the controller's own feedback
    record: if the stop task of the request comes due before the output
    cycle, the same number of packets is sent and every one of them has
    zero in both motor bytes, so the pulse never reaches the motors. *)
Theorem usb_feedback_sent_at_flush {K : scc_constants} {H : hiddrv}
    (ops : list usb_op) (decoder : HIDDecoder) (data : HapticData) :
  let self := usb_ops_run ops (DS5Controller.init decoder) in
  DS5Controller.mapper self <> None ->
  0 <= amplitude data <= 0x8000 ->
  exists self1 task self2 writes1 writes2 pulse,
    DS5Controller.feedback data self = (Ok tt, self1) /\
    DS5Controller._feedback_cancel_task self1 = Some task /\
    fst (DS5Controller.flush self1) = Ok writes1 /\
    In (3, pulse) writes1 /\
    nth 3 pulse 0
    = match position data with
      | HapticPos.LEFT =>
          DS5Controller._feedback_output self DualSenseHIDOutput.motor_right mod 256
      | _ => amplitude data * 255 / 0x8000
      end /\
    nth 4 pulse 0
    = match position data with
      | HapticPos.RIGHT =>
          DS5Controller._feedback_output self DualSenseHIDOutput.motor_left mod 256
      | _ => amplitude data / 256
      end /\
    DS5Controller.timer_fires task self1 = (Ok tt, self2) /\
    fst (DS5Controller.flush self2) = Ok writes2 /\
    List.length writes2 = List.length writes1 /\
    forallb (fun w => (nth 3 (snd w) 0 =? 0) && (nth 4 (snd w) 0 =? 0)) writes2
    = true.
Proof.
  intros self Hm [Ha0 Ha1].
  assert (usb_wf self) as Hwf by (apply usb_ops_run_wf, usb_wf_init).
  destruct (DS5Controller.mapper self) as [m|] eqn:Em; [clear Hm | congruence].
  destruct (usb_feedback_run data self m Em)
    as (self1 & task & Hrun & Hout1 & Htask & Hp & Hr & Hl).
  destruct (usb_timer_run task self1 Hp) as (self2 & Hfire & Hout2 & Hr2 & Hl2).
  assert (usb_wf self2) as (_ & Hoff & _).
  { pose proof (usb_wf_timer_fires task self1) as H2. rewrite Hfire in H2.
    apply H2. pose proof (usb_wf_feedback data self Hwf) as H1.
    now rewrite Hrun in H1. }
  destruct (usb_flush_writes self1 "feedback" DS5Controller.the_feedback_output)
    as (writes1 & Hw1 & Hlen1 & Hin1).
  { rewrite Hout1. apply dict_set_In. }
  exists self1, task, self2, writes1.
  rewrite usb_flush_run. cbn [fst]. eexists. eexists.
  split; [exact Hrun|]. split; [exact Htask|]. split; [exact Hw1|].
  split; [exact Hin1|].
  assert (py_int (inject_Z (amplitude data) / 0x8000 * 0xff)%Q
          = amplitude data * 255 / 0x8000) as Eright.
  { apply (py_int_scaled (amplitude data) 255 0x8000); lia. }
  assert (py_int (inject_Z (amplitude data) / 0x8000 * 0x80)%Q
          = amplitude data / 256) as Eleft.
  { transitivity (amplitude data * 0x80 / 0x8000).
    - apply (py_int_scaled (amplitude data) 0x80 0x8000); lia.
    - Z.to_euclidean_division_equations. lia. }
  split; [|split; [|split; [exact Hfire|split; [reflexivity|split]]]].
  - change (nth 3 (ljust 64 0 (bytearray DualSenseHIDOutput._fields_
               (DS5Controller.resolve self1 DS5Controller.the_feedback_output))) 0)
      with (c_ubyte (DS5Controller._feedback_output self1
                       DualSenseHIDOutput.motor_right)).
    rewrite Hr. destruct (position data); [reflexivity| |];
      rewrite Eright; unfold c_ubyte; rewrite Z.mod_mod by lia;
      apply Z.mod_small; Z.to_euclidean_division_equations; lia.
  - change (nth 4 (ljust 64 0 (bytearray DualSenseHIDOutput._fields_
               (DS5Controller.resolve self1 DS5Controller.the_feedback_output))) 0)
      with (c_ubyte (DS5Controller._feedback_output self1
                       DualSenseHIDOutput.motor_left)).
    rewrite Hl. destruct (position data); [|reflexivity|];
      rewrite Eleft; unfold c_ubyte; rewrite Z.mod_mod by lia;
      apply Z.mod_small; Z.to_euclidean_division_equations; lia.
  - rewrite Hlen1. unfold popitems. rewrite length_map, length_rev, Hout2, Hout1.
    apply dict_set_length_present.
  - apply forallb_forall. intros w Hw.
    apply in_map_iff in Hw as ([id o] & <- & Hin). cbn [snd].
    unfold popitems in Hin. apply in_rev in Hin.
    rewrite forallb_forall in Hoff. specialize (Hoff _ Hin).
    destruct (motors_off_packet self2 id o Hr2 Hl2 Hoff) as [-> ->]. reflexivity.
Qed.

Lemma usb_feedback_sent_at_flush_witness :
  let self :=
    usb_ops_run (K := host16) (H := raw_hiddrv)
      [UsbEvent UsbAttach; UsbEvent (UsbConfigure None (PyInt 100))]
      (DS5Controller.init decoder0) in
  exists self1 task self2 writes1 writes2 pulse,
    DS5Controller.feedback short_pulse self = (Ok tt, self1) /\
    DS5Controller._feedback_cancel_task self1 = Some task /\
    fst (DS5Controller.flush self1) = Ok writes1 /\
    In (3, pulse) writes1 /\
    nth 3 pulse 0
    = match position short_pulse with
      | HapticPos.LEFT =>
          DS5Controller._feedback_output self DualSenseHIDOutput.motor_right mod 256
      | _ => amplitude short_pulse * 255 / 0x8000
      end /\
    nth 4 pulse 0
    = match position short_pulse with
      | HapticPos.RIGHT =>
          DS5Controller._feedback_output self DualSenseHIDOutput.motor_left mod 256
      | _ => amplitude short_pulse / 256
      end /\
    DS5Controller.timer_fires task self1 = (Ok tt, self2) /\
    fst (DS5Controller.flush self2) = Ok writes2 /\
    List.length writes2 = List.length writes1 /\
    forallb (fun w => (nth 3 (snd w) 0 =? 0) && (nth 4 (snd w) 0 =? 0)) writes2
    = true.
Proof.
  apply (usb_feedback_sent_at_flush (K := host16) (H := raw_hiddrv)
           [UsbEvent UsbAttach; UsbEvent (UsbConfigure None (PyInt 100))]
           decoder0 short_pulse).
  - vm_compute. discriminate.
  - cbn. lia.
Defined.

(** The first five bytes of what an output cycle sends: after a pulse on
    both motors at half amplitude, and when the stop task ran first. *)
Example usb_flush_sample :
  let sent ops :=
    match DS5Controller.flush
            (usb_ops_run (K := host16) (H := raw_hiddrv) ops
               (DS5Controller.init decoder0)) with
    | (Ok writes, _) => map (fun w => (fst w, firstn 5 (snd w))) writes
    | _ => []
    end in
  sent [UsbEvent UsbAttach; UsbEvent (UsbFeedback short_pulse)]
  = [(3, [2; 3; 0; 127; 64])] /\
  sent [UsbEvent UsbAttach; UsbEvent (UsbFeedback short_pulse);
        UsbEvent (UsbTimer {| handle := 0; delay := 0.02 |})]
  = [(3, [2; 3; 0; 0; 0])] /\
  sent [UsbEvent UsbAttach; UsbEvent (UsbFeedback short_pulse);
        UsbEvent (UsbConfigure None (PyInt 100)); UsbEvent (UsbFeedback long_pulse);
        UsbEvent (UsbConfigure (Some "A-2.svg"%string) (PyInt 100))]
  = [(3, [2; 0; 4; 0; 0]); (3, [2; 3; 0; 127; 128])] /\
  sent [UsbEvent UsbAttach; UsbEvent (UsbFeedback short_pulse); UsbFlush] = [].
Proof. vm_compute. repeat split; reflexivity. Qed.

Section UsbLightbar.
Context {K : scc_constants} {H : hiddrv}.
Import DS5Controller.


End UsbLightbar.



(** ** Decoding a Bluetooth input frame, field by field *)

Lemma bit_is_set_testbit (tempbyte n : Z) :
  0 <= n ->
  DS5HidRawController.bit_is_set tempbyte n = Z.testbit tempbyte n.
Proof.
  intro Hn. unfold DS5HidRawController.bit_is_set.
  rewrite Z.shiftl_1_l.
  destruct (Z.testbit tempbyte n) eqn:E; cbn [negb].
  - apply negb_true_iff, Z.eqb_neq. intro H0.
    assert (Z.testbit (Z.land tempbyte (2 ^ n)) n = true) as Hb.
    { rewrite Z.land_spec, E, Z.pow2_bits_true by lia. reflexivity. }
    rewrite H0, Z.bits_0 in Hb. discriminate.
  - apply negb_false_iff, Z.eqb_eq. apply Z.bits_inj'. intros m Hm.
    rewrite Z.land_spec, Z.bits_0, Z.pow2_bits_eqb by lia.
    destruct (Z.eqb_spec n m) as [<- |]; [now rewrite E | apply andb_false_r].
Qed.

Section DecodeFields.
Context {K : scc_constants} {libm : math}.
Hypothesis HK : constants_ok K.
Import DS5HidRawController.

Lemma button_bit_pressed_same (tempbyte n : Z) (b : SCButtons.t)
    (st : DualSenseBTControllerInput.t) :
  0 <= n ->
  pressed (button_bit tempbyte n b st DualSenseBTControllerInput.buttons) b
  = Z.testbit tempbyte n || pressed (st DualSenseBTControllerInput.buttons) b.
Proof.
  intro Hn. unfold button_bit. rewrite bit_is_set_testbit by exact Hn.
  destruct (Z.testbit tempbyte n); cbn [orb]; [|reflexivity].
  now apply ior_buttons_pressed_same.
Qed.

Ltac peel :=
  repeat first
    [ rewrite (set_other _ _ DualSenseBTControllerInput.buttons) by discriminate
    | rewrite (button_bit_pressed_other HK) by discriminate
    | rewrite (ior_buttons_pressed_other HK) by discriminate
    | rewrite (ior_two_pressed HK)
    | rewrite button_bit_pressed_same by lia ].

(** A frame of 38 bytes or more decodes without an exception; every push
    button of the decoded state. *)
Lemma convert_input_data_buttons (data : list Z) (self : t) :
  (38 <= List.length data)%nat ->
  exists st self',
    _convert_input_data data self = (Ok st, self') /\
    (forall b i n, bt_button_bit b = Some (i, n) ->
       pressed (st DualSenseBTControllerInput.buttons) b
       = Z.testbit (nth i data 0) n) /\
    pressed (st DualSenseBTControllerInput.buttons) SCButtons.RPADTOUCH = false.
Proof.
  intro Hlen.
  do 38 (destruct data as [|? data]; [cbn in Hlen; lia|]). clear Hlen.
  unfold _convert_input_data.
  cbv [bind lift getitem nth_error ret].
  match goal with
  | |- context [_calculate_quaternion ?front self] =>
      destruct (calculate_quaternion_frame front self)
        as (v1 & v2 & v3 & v4 & q & Equat); rewrite Equat; clear Equat
  end.
  cbv beta iota.
  do 2 eexists. split; [reflexivity|].
  cbv zeta.
  match goal with
  | |- context [Z.land ?d 15 =? 8] => set (nibble := Z.land d 15)
  end.
  match goal with
  | |- context [Z.land ?d 128 =? 0] => set (touch := Z.land d 128 =? 0)
  end.
  change (DualSenseBTControllerInput.new DualSenseBTControllerInput.buttons)
    with 0.
  split.
  - intros b i n Hb.
    destruct touch; destruct (nibble =? 8); cbn [negb];
      destruct b; cbn [bt_button_bit] in Hb; try discriminate;
      injection Hb as <- <-; cbn [nth]; peel;
      rewrite (pressed_0 HK); apply orb_false_r.
  - destruct touch; destruct (nibble =? 8); cbn [negb]; peel;
      apply (pressed_0 HK).
Qed.

End DecodeFields.

Lemma is_byte_range (b : Z) : is_byte b = true -> 0 <= b < 256.
Proof.
  unfold is_byte. intro Hb. apply andb_prop in Hb as [H0 H1].
  apply Z.leb_le in H0. apply Z.ltb_lt in H1. lia.
Qed.

Lemma lor_shiftl_disjoint (hi lo n : Z) :
  0 <= n -> 0 <= lo < 2 ^ n -> Z.lor (Z.shiftl hi n) lo = lo + 2 ^ n * hi.
Proof.
  intros Hn Hlo.
  assert (Z.land (Z.shiftl hi n) lo = 0) as Hdisj.
  { apply Z.bits_inj'. intros m Hm. rewrite Z.land_spec, Z.bits_0.
    destruct (Z.ltb_spec m n) as [Hlt | Hge].
    - rewrite Z.shiftl_spec_low by lia. reflexivity.
    - destruct (Z.eq_dec lo 0) as [-> | Hne]; [now rewrite Z.bits_0, andb_false_r|].
      rewrite (Z.bits_above_log2 lo m), andb_false_r; [reflexivity | lia |].
      apply Z.log2_lt_pow2; [lia|].
      apply Z.lt_le_trans with (2 ^ n); [lia|].
      apply Z.pow_le_mono_r; lia. }
  rewrite <- Z.lxor_lor, <- Z.add_nocarry_lxor by exact Hdisj.
  rewrite Z.shiftl_mul_pow2 by lia. lia.
Qed.

Lemma land_15_mod (d : Z) : Z.land d 0x0F = d mod 16.
Proof. change 0x0F with (Z.ones 4). now rewrite Z.land_ones by lia. Qed.

Lemma high_nibble (d : Z) :
  0 <= d < 256 -> Z.shiftr (Z.land d 0xF0) 4 = d / 16.
Proof.
  intro Hd. rewrite Z.shiftr_land. change (Z.shiftr 0xF0 4) with (Z.ones 4).
  rewrite Z.land_ones, Z.shiftr_div_pow2 by lia. change (2 ^ 4) with 16.
  apply Z.mod_small. Z.to_euclidean_division_equations. lia.
Qed.

Lemma c_int16_range (z : Z) : - 2 ^ 15 <= c_int16 z < 2 ^ 15.
Proof.
  unfold c_int16. pose proof (Z.mod_pos_bound (z + 2 ^ 15) (2 ^ 16) eq_refl).
  change (2 ^ 16) with (2 * 2 ^ 15) in *. lia.
Qed.

Lemma int16_le_bytes (hi lo : Z) :
  0 <= lo < 256 ->
  DS5HidRawController.int16_le hi lo = c_int16 (little_endian [lo; hi]).
Proof.
  intro Hlo. unfold DS5HidRawController.int16_le, little_endian, fold_right.
  rewrite (lor_shiftl_disjoint hi lo 8) by (change (2 ^ 8) with 256; lia).
  f_equal. change (2 ^ 8) with 256. lia.
Qed.

Lemma c_ubyte_small (z : Z) : 0 <= z < 256 -> c_ubyte z = z.
Proof. intro Hz. unfold c_ubyte. now apply Z.mod_small. Qed.

Lemma c_int16_range32 (z : Z) : - 2 ^ 31 <= c_int16 z < 2 ^ 31.
Proof. pose proof (c_int16_range z). lia. Qed.

Lemma c_int32_int16 (z k : Z) :
  - 2 <= k <= 2 -> c_int32 (c_int16 z * k) = c_int16 z * k.
Proof.
  intro Hk. apply c_int32_small. pose proof (c_int16_range z). nia.
Qed.

Lemma cpad_x_bytes (d35 d36 : Z) :
  0 <= d35 < 256 ->
  c_uint16 (Z.lor (Z.shiftl (Z.land d36 0x0F) 8) d35) = d35 + 256 * (d36 mod 16).
Proof.
  intro H35. rewrite land_15_mod.
  rewrite (lor_shiftl_disjoint _ d35 8) by (change (2 ^ 8) with 256; lia).
  change (2 ^ 8) with 256. unfold c_uint16. apply Z.mod_small.
  pose proof (Z.mod_pos_bound d36 16 eq_refl). lia.
Qed.

Lemma cpad_y_bytes (d36 d37 : Z) :
  0 <= d36 < 256 ->
  c_uint16 (Z.lor (Z.shiftl (Z.land d37 0x0F) 4) (Z.shiftr (Z.land d36 0xF0) 4))
  = d36 / 16 + 16 * (d37 mod 16).
Proof.
  intro H36. rewrite land_15_mod, high_nibble by exact H36.
  assert (0 <= d36 / 16 < 16) as Hq by (Z.to_euclidean_division_equations; lia).
  rewrite (lor_shiftl_disjoint _ (d36 / 16) 4) by (change (2 ^ 4) with 16; lia).
  change (2 ^ 4) with 16. unfold c_uint16. apply Z.mod_small.
  pose proof (Z.mod_pos_bound d37 16 eq_refl). lia.
Qed.

Section DecodeAxes.
Context {K : scc_constants} {libm : math}.
Import DS5HidRawController.

(** The motion, trigger and touch-position fields of a decoded frame. *)
Lemma convert_input_data_axes (data : list Z) (self : t) :
  (38 <= List.length data)%nat -> is_bytes data = true ->
  exists st self',
    _convert_input_data data self = (Ok st, self') /\
    let s16 := fun lo hi => c_int16 (little_endian [nth lo data 0; nth hi data 0]) in
    st DualSenseBTControllerInput.ltrig = nth 6 data 0 /\
    st DualSenseBTControllerInput.rtrig = nth 7 data 0 /\
    st DualSenseBTControllerInput.gpitch = s16 17%nat 18%nat /\
    st DualSenseBTControllerInput.gyaw = - s16 19%nat 20%nat /\
    st DualSenseBTControllerInput.groll = - s16 21%nat 22%nat /\
    st DualSenseBTControllerInput.accel_x = 2 * s16 23%nat 24%nat /\
    st DualSenseBTControllerInput.accel_y = - 2 * s16 27%nat 28%nat /\
    st DualSenseBTControllerInput.accel_z = 2 * s16 25%nat 26%nat /\
    st DualSenseBTControllerInput.cpad_x
    = nth 35 data 0 + 256 * (nth 36 data 0 mod 16) /\
    st DualSenseBTControllerInput.cpad_y
    = nth 36 data 0 / 16 + 16 * (nth 37 data 0 mod 16).
Proof.
  intros Hlen Hbytes.
  do 38 (destruct data as [|? data]; [cbn in Hlen; lia|]). clear Hlen.
  repeat (rewrite is_bytes_cons in Hbytes;
          apply andb_prop in Hbytes as [?%is_byte_range Hbytes]).
  clear Hbytes.
  unfold _convert_input_data.
  cbv [bind lift getitem nth_error ret].
  match goal with
  | |- context [_calculate_quaternion ?front self] =>
      destruct (calculate_quaternion_frame front self)
        as (v1 & v2 & v3 & v4 & q & Equat); rewrite Equat; clear Equat
  end.
  cbv beta iota.
  do 2 eexists. split; [reflexivity|].
  cbv zeta. cbn [nth].
  match goal with
  | |- context [Z.land ?d 15 =? 8] => set (nibble := Z.land d 15)
  end.
  match goal with
  | |- context [Z.land ?d 128 =? 0] => set (touch := Z.land d 128 =? 0)
  end.
  destruct touch; destruct (nibble =? 8); cbn [negb]; repeat split;
    repeat first
      [ rewrite set_other by discriminate
      | rewrite button_bit_field by discriminate
      | rewrite ior_buttons_field by discriminate
      | rewrite set_same ];
    cbn [DualSenseBTControllerInput.ctype];
    rewrite ?int16_le_bytes by assumption;
    first
      [ apply c_ubyte_small; assumption
      | rewrite c_int32_int16 by lia; lia
      | apply c_int32_small, c_int16_range32
      | apply cpad_x_bytes; assumption
      | apply cpad_y_bytes; assumption ].
Qed.

End DecodeAxes.

(** X10. For every Bluetooth input frame of 38 bytes or more, decoding
    succeeds and each push button is reported exactly when its bit is
    set: bits 7-4 of byte 9 are Y, B, A, X; bits 7-0 of byte 10 are RPAD,
    STICKPRESS, START, BACK, RT, LT, RB, LB; bits 0 and 1 of byte 11 are
    C and CPADPRESS.  RPADTOUCH is never reported on this path. *)
Theorem bt_buttons_decode {K : scc_constants} {libm : math}
    (data : list Z) (self : DS5HidRawController.t) :
  constants_ok K ->
  (38 <= List.length data)%nat ->
  exists state self',
    DS5HidRawController._convert_input_data data self = (Ok state, self') /\
    (forall b i n, bt_button_bit b = Some (i, n) ->
       pressed (state DualSenseBTControllerInput.buttons) b
       = Z.testbit (nth i data 0) n) /\
    pressed (state DualSenseBTControllerInput.buttons) SCButtons.RPADTOUCH = false.
Proof. intros HK Hlen. now apply convert_input_data_buttons. Qed.

Lemma bt_buttons_decode_witness :
  exists state self',
    DS5HidRawController._convert_input_data (K := host16) (libm := poly_math)
      (bt_frame 0x28) bt_with_mapper = (Ok state, self') /\
    (forall b i n, bt_button_bit b = Some (i, n) ->
       pressed (K := host16) (state DualSenseBTControllerInput.buttons) b
       = Z.testbit (nth i (bt_frame 0x28) 0) n) /\
    pressed (K := host16) (state DualSenseBTControllerInput.buttons)
      SCButtons.RPADTOUCH = false.
Proof.
  apply (bt_buttons_decode (K := host16) (libm := poly_math)
           (bt_frame 0x28) bt_with_mapper).
  - exact host16_ok.
  - cbn. lia.
Defined.

(** X11. For every Bluetooth input frame of 38 bytes or more: the
    triggers are bytes 6 and 7; the gyro and accelerometer fields are the
    signed 16-bit little-endian numbers at bytes 17-28 with the signs and
    factors of the driver (pitch as is, yaw and roll negated, accel x and
    z doubled, accel y times -2), stored without wrapping; touch x is the
    12-bit number made of byte 35 and the low nibble of byte 36, and touch
    y is the 8-bit number made of the high nibble of byte 36 and the low
    nibble of byte 37 (the high nibble of byte 37 is not read). *)
Theorem bt_axes_decode {K : scc_constants} {libm : math}
    (data : list Z) (self : DS5HidRawController.t) :
  (38 <= List.length data)%nat -> is_bytes data = true ->
  exists state self',
    DS5HidRawController._convert_input_data data self = (Ok state, self') /\
    let s16 := fun lo hi => c_int16 (little_endian [nth lo data 0; nth hi data 0]) in
    state DualSenseBTControllerInput.ltrig = nth 6 data 0 /\
    state DualSenseBTControllerInput.rtrig = nth 7 data 0 /\
    state DualSenseBTControllerInput.gpitch = s16 17%nat 18%nat /\
    state DualSenseBTControllerInput.gyaw = - s16 19%nat 20%nat /\
    state DualSenseBTControllerInput.groll = - s16 21%nat 22%nat /\
    state DualSenseBTControllerInput.accel_x = 2 * s16 23%nat 24%nat /\
    state DualSenseBTControllerInput.accel_y = - 2 * s16 27%nat 28%nat /\
    state DualSenseBTControllerInput.accel_z = 2 * s16 25%nat 26%nat /\
    state DualSenseBTControllerInput.cpad_x
    = nth 35 data 0 + 256 * (nth 36 data 0 mod 16) /\
    state DualSenseBTControllerInput.cpad_y
    = nth 36 data 0 / 16 + 16 * (nth 37 data 0 mod 16) /\
    0 <= state DualSenseBTControllerInput.cpad_x < 4096 /\
    0 <= state DualSenseBTControllerInput.cpad_y < 256.
Proof.
  intros Hlen Hbytes.
  destruct (convert_input_data_axes data self Hlen Hbytes)
    as (st & self' & Hrun & Hl & Hr & Hp & Hy & Hro & Hax & Hay & Haz & Hcx & Hcy).
  exists st, self'. split; [exact Hrun|]. cbv zeta in *.
  repeat (split; [assumption|]).
  assert (0 <= nth 35 data 0 < 256 /\ 0 <= nth 36 data 0 < 256) as [H35 H36].
  { unfold is_bytes in Hbytes. rewrite forallb_forall in Hbytes.
    split; apply is_byte_range, Hbytes, nth_In; lia. }
  pose proof (Z.mod_pos_bound (nth 36 data 0) 16 eq_refl).
  pose proof (Z.mod_pos_bound (nth 37 data 0) 16 eq_refl).
  rewrite Hcx, Hcy. split; [lia|].
  Z.to_euclidean_division_equations. lia.
Qed.

Lemma bt_axes_decode_witness :
  exists state self',
    DS5HidRawController._convert_input_data (K := host16) (libm := poly_math)
      (bt_frame 8) bt_with_mapper = (Ok state, self') /\
    let s16 := fun lo hi =>
      c_int16 (little_endian [nth lo (bt_frame 8) 0; nth hi (bt_frame 8) 0]) in
    state DualSenseBTControllerInput.ltrig = nth 6 (bt_frame 8) 0 /\
    state DualSenseBTControllerInput.rtrig = nth 7 (bt_frame 8) 0 /\
    state DualSenseBTControllerInput.gpitch = s16 17%nat 18%nat /\
    state DualSenseBTControllerInput.gyaw = - s16 19%nat 20%nat /\
    state DualSenseBTControllerInput.groll = - s16 21%nat 22%nat /\
    state DualSenseBTControllerInput.accel_x = 2 * s16 23%nat 24%nat /\
    state DualSenseBTControllerInput.accel_y = - 2 * s16 27%nat 28%nat /\
    state DualSenseBTControllerInput.accel_z = 2 * s16 25%nat 26%nat /\
    state DualSenseBTControllerInput.cpad_x
    = nth 35 (bt_frame 8) 0 + 256 * (nth 36 (bt_frame 8) 0 mod 16) /\
    state DualSenseBTControllerInput.cpad_y
    = nth 36 (bt_frame 8) 0 / 16 + 16 * (nth 37 (bt_frame 8) 0 mod 16) /\
    0 <= state DualSenseBTControllerInput.cpad_x < 4096 /\
    0 <= state DualSenseBTControllerInput.cpad_y < 256.
Proof.
  apply (bt_axes_decode (K := host16) (libm := poly_math)
           (bt_frame 8) bt_with_mapper).
  - cbn. lia.
  - reflexivity.
Defined.

(** A frame with the largest negative gyro sample and a touch at the far
    corner: the yaw leaves the 16-bit range and touch y is cut to 8
    bits. *)
Example bt_axes_sample :
  let frame :=
    [0x31; 0; 128; 128; 128; 128; 9; 200; 0; 8; 0; 0] ++ repeat 0 5
    ++ [0x34; 0x12; 0x00; 0x80; 0xFF; 0xFF] ++ [2; 0; 0; 0; 0xFE; 0xFF]
    ++ repeat 0 5 ++ [0x00; 0xFF; 0xFF; 0xFF] ++ repeat 0 40 in
  match DS5HidRawController._convert_input_data (K := host16) (libm := poly_math)
          frame bt_with_mapper with
  | (Ok st, _) =>
      map st [ DualSenseBTControllerInput.ltrig; DualSenseBTControllerInput.rtrig;
               DualSenseBTControllerInput.gpitch; DualSenseBTControllerInput.gyaw;
               DualSenseBTControllerInput.groll;
               DualSenseBTControllerInput.accel_x;
               DualSenseBTControllerInput.accel_y;
               DualSenseBTControllerInput.cpad_x;
               DualSenseBTControllerInput.cpad_y ]
      = [9; 200; 0x1234; 32768; 1; 4; 4; 4095; 255]
  | _ => False
  end.
Proof. vm_compute. reflexivity. Qed.

(** ** Receiving a Bluetooth input frame *)

Section BtInput.
Context {K : scc_constants} {libm : math}.
Import DS5HidRawController.

(** A frame of fewer than 38 bytes makes the decoder raise; only the
    running quaternion can have changed by then. *)
Lemma convert_input_data_short (data : list Z) (self : t) :
  (List.length data < 38)%nat ->
  exists self',
    _convert_input_data data self = (Raise IndexError, self') /\
    (self' = self \/ exists q, self' = set_previous_quat q self).
Proof.
  intro Hlen.
  do 38 (destruct data as [|? data];
         [ clear Hlen; unfold _convert_input_data;
           cbv [bind lift getitem nth_error ret];
           try match goal with
               | |- context [_calculate_quaternion ?front self] =>
                   destruct (calculate_quaternion_frame front self)
                     as (v1 & v2 & v3 & v4 & q & Equat); rewrite Equat; clear Equat
               end;
           cbv beta iota; eexists;
           (split; [reflexivity|]);
           first [left; reflexivity | right; eexists; reflexivity]
         |]).
  cbn in Hlen. lia.
Qed.

Lemma convert_input_data_returns (data : list Z) (self : t) :
  (38 <= List.length data)%nat ->
  exists st q,
    _convert_input_data data self = (Ok st, set_previous_quat q self).
Proof.
  intro Hlen.
  do 38 (destruct data as [|? data]; [cbn in Hlen; lia|]). clear Hlen.
  unfold _convert_input_data.
  cbv [bind lift getitem nth_error ret].
  match goal with
  | |- context [_calculate_quaternion ?front self] =>
      destruct (calculate_quaternion_frame front self)
        as (v1 & v2 & v3 & v4 & q & Equat); rewrite Equat; clear Equat
  end.
  cbv beta iota. do 2 eexists. reflexivity.
Qed.

Lemma chained_snoc {State : Type} (l : list (State * State)) (last new : State) :
  chained l last -> chained (l ++ [(last, new)]) new.
Proof.
  induction l as [|[a b] l IH]; [reflexivity|].
  cbn [chained app]. destruct l as [|[c d] l].
  - intros ->. cbn. split; reflexivity.
  - intros [-> Hrest]. cbn [app]. split; [reflexivity|]. now apply IH.
Qed.

End BtInput.

(** What [_input] does with a frame that is too short. *)
Lemma input_short_run {K : scc_constants} {libm : math}
    (frame : list Z) (now : Q) (self : DS5HidRawController.t) :
  (List.length frame < 38)%nat ->
  frame = [] \/ nth 0 frame 0 = 0x31 ->
  exists self',
    DS5HidRawController._input frame now self = (Raise IndexError, self') /\
    DS5HidRawController.mapper self' = DS5HidRawController.mapper self /\
    DS5HidRawController._old_state self' = DS5HidRawController._old_state self /\
    DS5HidRawController._previous_time self'
    = DS5HidRawController._previous_time self /\
    DS5HidRawController._outputs self' = DS5HidRawController._outputs self /\
    DS5HidRawController._hidrawdev self' = DS5HidRawController._hidrawdev self.
Proof.
  intros Hlen Hhead. destruct frame as [|d0 rest].
  - exists self. repeat split.
  - destruct Hhead as [|Hhead]; [discriminate|]. cbn [nth] in Hhead. subst d0.
    unfold DS5HidRawController._input, bind at 1, lift, getitem.
    cbn [nth_error Z.eqb Pos.eqb negb].
    unfold bind at 1, get. unfold bind at 1, put.
    destruct (convert_input_data_short (49 :: rest)
                (DS5HidRawController.set_delta_time
                   (now - DS5HidRawController._previous_time self)%Q self) Hlen)
      as (self' & Hrun & Hself').
    unfold bind at 1. rewrite Hrun. exists self'. split; [reflexivity|].
    destruct Hself' as [-> | [q ->]]; repeat split.
Qed.

(** X12. An input frame of fewer than 38 bytes that is empty or starts
    with 0x31 makes the Bluetooth [_input] raise [IndexError]: nothing
    reaches the mapper, and the stored previous state, the time of the
    previous frame, the staged outputs and the device are as they were. *)
Theorem bt_input_short_frame {K : scc_constants} {libm : math}
    (frame : list Z) (now : Q) (self : DS5HidRawController.t) :
  (List.length frame < 38)%nat ->
  frame = [] \/ nth 0 frame 0 = 0x31 ->
  exists self',
    DS5HidRawController._input frame now self = (Raise IndexError, self') /\
    DS5HidRawController.mapper self' = DS5HidRawController.mapper self /\
    DS5HidRawController._old_state self' = DS5HidRawController._old_state self /\
    DS5HidRawController._previous_time self'
    = DS5HidRawController._previous_time self /\
    DS5HidRawController._outputs self' = DS5HidRawController._outputs self /\
    DS5HidRawController._hidrawdev self' = DS5HidRawController._hidrawdev self.
Proof. apply input_short_run. Qed.

Lemma bt_input_short_frame_witness :
  exists self',
    DS5HidRawController._input (K := host16) (libm := poly_math)
      (firstn 30 (bt_frame 8)) 1 bt_with_mapper = (Raise IndexError, self') /\
    DS5HidRawController.mapper self' = DS5HidRawController.mapper bt_with_mapper /\
    DS5HidRawController._old_state self'
    = DS5HidRawController._old_state bt_with_mapper /\
    DS5HidRawController._previous_time self'
    = DS5HidRawController._previous_time bt_with_mapper /\
    DS5HidRawController._outputs self'
    = DS5HidRawController._outputs bt_with_mapper /\
    DS5HidRawController._hidrawdev self'
    = DS5HidRawController._hidrawdev bt_with_mapper.
Proof.
  apply (bt_input_short_frame (K := host16) (libm := poly_math)
           (firstn 30 (bt_frame 8)) 1 bt_with_mapper).
  - cbn. lia.
  - right. reflexivity.
Defined.

(** What [_input] does with a full frame. *)
Lemma input_long_run {K : scc_constants} {libm : math}
    (frame : list Z) (now : Q) (self : DS5HidRawController.t) :
  (38 <= List.length frame)%nat ->
  nth 0 frame 0 = 0x31 ->
  exists state self',
    DS5HidRawController._input frame now self = (Ok tt, self') /\
    fst (DS5HidRawController._convert_input_data frame
           (DS5HidRawController.set_delta_time
              (now - DS5HidRawController._previous_time self)%Q self))
    = Ok state /\
    DS5HidRawController._old_state self' = state /\
    DS5HidRawController.mapper self'
    = option_map (Mapper_input (DS5HidRawController._old_state self) state)
        (DS5HidRawController.mapper self) /\
    DS5HidRawController._delta_time self'
    = (now - DS5HidRawController._previous_time self)%Q /\
    DS5HidRawController._previous_time self' = now /\
    DS5HidRawController._outputs self' = [] /\
    DS5HidRawController._hidrawdev self'
    = DS5HidRawController._hidrawdev self
      ++ map snd (popitems (DS5HidRawController._outputs self)).
Proof.
  intros Hlen Hhead. destruct frame as [|d0 rest]; [cbn in Hlen; lia|].
  cbn [nth] in Hhead. subst d0.
  unfold DS5HidRawController._input, bind at 1, lift, getitem.
  cbn [nth_error Z.eqb Pos.eqb negb].
  unfold bind at 1, get. unfold bind at 1, put.
  destruct (convert_input_data_returns (49 :: rest)
              (DS5HidRawController.set_delta_time
                 (now - DS5HidRawController._previous_time self)%Q self) Hlen)
    as (st & q & Hrun).
  unfold bind at 1. rewrite Hrun. cbn [fst].
  unfold bind, get, put, modify, ret, DS5HidRawController.flush.
  unfold DS5HidRawController.set_previous_quat, DS5HidRawController.set_delta_time.
  cbn [DS5HidRawController.mapper].
  destruct (DS5HidRawController.mapper self) as [m|];
    exists st; eexists; (split; [reflexivity|]); repeat split.
Qed.

(** X13. An input frame of 38 bytes or more that starts with 0x31 makes
    the Bluetooth [_input] return normally.  The decoded state becomes the
    stored previous state; an attached mapper receives exactly one more
    pair, (stored previous state, decoded state), and a detached one
    nothing; the elapsed time used for the quaternion is the time since
    the previous frame, and the time of this frame is kept for the next;
    whatever was staged is written. *)
Theorem bt_input_dispatches {K : scc_constants} {libm : math}
    (frame : list Z) (now : Q) (self : DS5HidRawController.t) :
  (38 <= List.length frame)%nat ->
  nth 0 frame 0 = 0x31 ->
  exists state self',
    DS5HidRawController._input frame now self = (Ok tt, self') /\
    fst (DS5HidRawController._convert_input_data frame
           (DS5HidRawController.set_delta_time
              (now - DS5HidRawController._previous_time self)%Q self))
    = Ok state /\
    DS5HidRawController._old_state self' = state /\
    DS5HidRawController.mapper self'
    = option_map (Mapper_input (DS5HidRawController._old_state self) state)
        (DS5HidRawController.mapper self) /\
    DS5HidRawController._delta_time self'
    = (now - DS5HidRawController._previous_time self)%Q /\
    DS5HidRawController._previous_time self' = now /\
    DS5HidRawController._outputs self' = [] /\
    DS5HidRawController._hidrawdev self'
    = DS5HidRawController._hidrawdev self
      ++ map snd (popitems (DS5HidRawController._outputs self)).
Proof. apply input_long_run. Qed.

Lemma bt_input_dispatches_witness :
  exists state self',
    DS5HidRawController._input (K := host16) (libm := poly_math)
      (bt_frame 8) 1 bt_with_mapper = (Ok tt, self') /\
    fst (DS5HidRawController._convert_input_data (K := host16) (libm := poly_math)
           (bt_frame 8)
           (DS5HidRawController.set_delta_time
              (1 - DS5HidRawController._previous_time bt_with_mapper)%Q
              bt_with_mapper))
    = Ok state /\
    DS5HidRawController._old_state self' = state /\
    DS5HidRawController.mapper self'
    = option_map
        (Mapper_input (DS5HidRawController._old_state bt_with_mapper) state)
        (DS5HidRawController.mapper bt_with_mapper) /\
    DS5HidRawController._delta_time self'
    = (1 - DS5HidRawController._previous_time bt_with_mapper)%Q /\
    DS5HidRawController._previous_time self' = 1%Q /\
    DS5HidRawController._outputs self' = [] /\
    DS5HidRawController._hidrawdev self'
    = DS5HidRawController._hidrawdev bt_with_mapper
      ++ map snd (popitems (DS5HidRawController._outputs bt_with_mapper)).
Proof.
  apply (bt_input_dispatches (K := host16) (libm := poly_math)
           (bt_frame 8) 1 bt_with_mapper).
  - cbn. lia.
  - reflexivity.
Defined.

Section BtChain.
Context {K : scc_constants} {libm : math}.
Import DS5HidRawController.

Lemma keeps_io_stage (m0 : option (Mapper DualSenseBTControllerInput.t))
    (o0 : DualSenseBTControllerInput.t) (output_id : string)
    (o : DualSenseHIDOutputBT.t) :
  preserves (fun s => mapper s = m0 /\ _old_state s = o0)
    (bind (lift (_prepare_buffer_crc (bytearray DualSenseHIDOutputBT._fields_ o)))
       (fun tempbuffer =>
          bind (schedule_output output_id tempbuffer) (fun _ => flush))).
Proof.
  intros s Hs. unfold bind, lift, schedule_output, flush, modify.
  destruct (_prepare_buffer_crc (bytearray DualSenseHIDOutputBT._fields_ o));
    exact Hs.
Qed.

Lemma keeps_io_send_feedback_output
    (m0 : option (Mapper DualSenseBTControllerInput.t))
    (o0 : DualSenseBTControllerInput.t) :
  preserves (fun s => mapper s = m0 /\ _old_state s = o0) send_feedback_output.
Proof.
  intros s Hs. unfold send_feedback_output, bind at 1, get.
  now apply keeps_io_stage.
Qed.

Lemma keeps_io_feedback (m0 : option (Mapper DualSenseBTControllerInput.t))
    (o0 : DualSenseBTControllerInput.t) (data : HapticData) :
  preserves (fun s => mapper s = m0 /\ _old_state s = o0) (feedback data).
Proof.
  unfold feedback. cbv zeta. apply preserves_bind.
  { destruct (position data); intros s Hs; exact Hs. }
  intros _. apply preserves_bind; [apply keeps_io_send_feedback_output | intros _].
  apply preserves_bind_get. intros s Hs.
  apply (preserves_bind (fun s => mapper s = m0 /\ _old_state s = o0));
    [| | exact Hs].
  - destruct (_feedback_cancel_task s); [|apply preserves_ret].
    intros s' Hs'. exact Hs.
  - intros _. apply preserves_bind.
    + intros s' Hs'. unfold mapper_schedule, bind, get, put, ret, raise, schedule.
      destruct Hs' as [H1 H2].
      destruct (mapper s') eqn:E; cbn [snd mapper _old_state set_scheduler];
        rewrite ?E; split; assumption.
    + intro task. apply preserves_modify. intros s' Hs'. exact Hs'.
Qed.

Lemma keeps_io_timer_fires (m0 : option (Mapper DualSenseBTControllerInput.t))
    (o0 : DualSenseBTControllerInput.t) (task : Task) :
  preserves (fun s => mapper s = m0 /\ _old_state s = o0) (timer_fires task).
Proof.
  unfold timer_fires. apply preserves_bind_get. intros s Hs.
  destruct (is_pending task (scheduler s)); [|exact Hs].
  apply (preserves_bind (fun s => mapper s = m0 /\ _old_state s = o0));
    [| | exact Hs].
  - intros s' Hs'. exact Hs.
  - intros _. unfold clear_feedback.
    apply preserves_bind; [intros s' Hs'; exact Hs' | intros _].
    apply preserves_bind; [intros s' Hs'; exact Hs' | intros _].
    apply keeps_io_send_feedback_output.
Qed.

Lemma keeps_io_configure (m0 : option (Mapper DualSenseBTControllerInput.t))
    (o0 : DualSenseBTControllerInput.t) (icon : option string)
    (led_level : number) :
  preserves (fun s => mapper s = m0 /\ _old_state s = o0)
    (configure icon led_level).
Proof.
  unfold configure. cbv zeta. apply preserves_bind.
  - destruct icon as [[|c icon]|]; try apply preserves_ret.
    apply preserves_bind; [apply preserves_lift | intros [basename ext]].
    destruct (rsplit1 "-" basename) as [|p parts]; [apply preserves_ret|].
    apply preserves_bind; [apply preserves_lift | intro raw_idx].
    destruct (int_of_str raw_idx) as [icon_idx|[| | |]];
      try apply preserves_raise; try apply preserves_ret.
    destruct (icon_idx <? Z.of_nat (List.length ICON_COLORS));
      [apply preserves_lift | apply preserves_ret].
  - intros [[red green] blue].
    apply preserves_bind; [apply preserves_lift | intro x]. cbv zeta.
    apply preserves_bind; [apply preserves_lift | intro r].
    apply preserves_bind; [apply preserves_lift | intro g].
    apply preserves_bind; [apply preserves_lift | intro b].
    apply keeps_io_stage.
Qed.

Lemma bt_chain_input (frame : list Z) (now : Q) : preserves bt_chain (_input frame now).
Proof.
  intros s Hs. destruct frame as [|d0 rest]; [exact Hs|].
  destruct (Z.eqb_spec d0 0x31) as [-> | Hne].
  - destruct (Nat.lt_ge_cases (List.length (49 :: rest)) 38) as [Hshort | Hlong].
    + destruct (input_short_run (49 :: rest) now s Hshort (or_intror eq_refl))
        as (s' & -> & Hm & Ho & _).
      unfold bt_chain. cbn [snd]. now rewrite Hm, Ho.
    + destruct (input_long_run (49 :: rest) now s Hlong eq_refl)
        as (st & s' & -> & _ & Ho & Hm & _).
      unfold bt_chain in *. cbn [snd]. rewrite Hm, Ho.
      destruct (mapper s) as [m|]; cbn [option_map]; [|exact I].
      unfold Mapper_input. cbn [received]. now apply chained_snoc.
  - unfold _input, bind, lift, getitem. cbn [nth_error].
    apply Z.eqb_neq in Hne. rewrite Hne. exact Hs.
Qed.

Lemma bt_chain_keeps {A : Type} (m : M t A) :
  (forall m0 o0, preserves (fun s => mapper s = m0 /\ _old_state s = o0) m) ->
  preserves bt_chain m.
Proof.
  intros Hm s Hs. destruct (Hm (mapper s) (_old_state s) s (conj eq_refl eq_refl))
    as [E1 E2].
  unfold bt_chain in *. now rewrite E1, E2.
Qed.

Lemma bt_op_step_chain (op : bt_op) : preserves bt_chain (bt_op_step op).
Proof.
  destruct op as [[| |frame now|data|task]|icon led_level|];
    cbn [bt_op_step bt_step].
  - intros s _. exact I.
  - intros s _. exact I.
  - apply bt_chain_input.
  - apply bt_chain_keeps. intros. apply keeps_io_feedback.
  - apply bt_chain_keeps. intros. apply keeps_io_timer_fires.
  - apply bt_chain_keeps. intros. apply keeps_io_configure.
  - apply bt_chain_keeps. intros. unfold _set_operational. apply keeps_io_stage.
Qed.

Lemma bt_ops_run_chain (ops : list bt_op) (self : t) :
  bt_chain self -> bt_chain (bt_ops_run ops self).
Proof.
  revert self. induction ops as [|op ops IH]; intros self Hs; [exact Hs|].
  cbn [bt_ops_run fold_left]. apply IH. now apply bt_op_step_chain.
Qed.

End BtChain.

(** X14. At every moment of a Bluetooth controller's life the pairs that
    the attached mapper has received since it was attached form a gapless
    chain: the old state of each pair is the new state of the pair before
    it, and the new state of the last pair is the controller's stored
    previous state.  Frames that are dropped or that raise, feedback,
    timers and lightbar configurations do not break the chain. *)
Theorem bt_mapper_sees_chain {K : scc_constants} {libm : math}
    (ops : list bt_op) (t0 t1 : Q) :
  bt_chain (bt_ops_run ops (DS5HidRawController.init t0 t1)).
Proof. apply bt_ops_run_chain. exact I. Qed.

(** Two frames in a row: the second pair starts where the first ended. *)
Example bt_chain_sample :
  let self :=
    bt_ops_run (K := host16) (libm := poly_math)
      [ BtEvent BtAttach; BtEvent (BtInput (bt_frame 2) 1);
        BtEvent (BtInput (firstn 20 (bt_frame 4)) 2);
        BtEvent (BtInput (bt_frame 6) 3) ]
      (DS5HidRawController.init 0 0) in
  option_map
    (fun m => map (fun p => (fst p DualSenseBTControllerInput.lpad_x,
                             snd p DualSenseBTControllerInput.lpad_x))
                  (received m))
    (DS5HidRawController.mapper self)
  = Some [(0, 32767); (32767, -32768)].
Proof. vm_compute. reflexivity. Qed.

(** ** Input through the HID decoder (USB, and DualShock 4 over Bluetooth) *)

Section PressedOther.
Context {K : scc_constants}.
Hypothesis HK : constants_ok K.

Lemma pressed_land_lnot_other (z : Z) (b b' : SCButtons.t) :
  b' <> b -> pressed (Z.land z (Z.lnot (flag b'))) b = pressed z b.
Proof.
  intro Hne. unfold pressed. rewrite <- Z.land_assoc.
  assert (Z.land (Z.lnot (flag b')) (flag b) = flag b) as ->; [|reflexivity].
  pose proof (flag_disjoint K HK b' b Hne) as Hd.
  apply Z.bits_inj'. intros n Hn.
  rewrite Z.land_spec, Z.lnot_spec by exact Hn.
  assert (Z.testbit (Z.land (flag b') (flag b)) n = false) as Hbit
    by (rewrite Hd; apply Z.bits_0).
  rewrite Z.land_spec in Hbit.
  destruct (Z.testbit (flag b') n), (Z.testbit (flag b) n);
    cbn in *; congruence.
Qed.

(** The state that [input] hands to the mapper: the decoded state with
    the CPADTOUCH flag set or cleared, and nothing else touched. *)
Lemma touch_override (d : HIDDecoder) (touched : bool) :
  let buttons := hid_buttons (state d) in
  let d' :=
    set_state_buttons d
      (if touched then Z.lor buttons (flag SCButtons.CPADTOUCH)
       else Z.land buttons (Z.lnot (flag SCButtons.CPADTOUCH))) in
  old_state d' = old_state d /\
  hid_axes (state d') = hid_axes (state d) /\
  pressed (hid_buttons (state d')) SCButtons.CPADTOUCH = touched /\
  forall b, b <> SCButtons.CPADTOUCH ->
    pressed (hid_buttons (state d')) b = pressed buttons b.
Proof.
  cbv zeta. split; [reflexivity|]. split; [reflexivity|].
  cbn [set_state_buttons state hid_buttons]. split.
  - rewrite pressed_c_uint32 by exact HK. destruct touched.
    + apply pressed_lor_same.
    + apply (pressed_land_lnot_same HK).
  - intros b Hb. rewrite pressed_c_uint32 by exact HK. destruct touched.
    + apply (pressed_lor_other HK). congruence.
    + apply pressed_land_lnot_other. congruence.
Qed.

End PressedOther.

Section HidInput.
Context {K : scc_constants} {H : hiddrv}.
Hypothesis HK : constants_ok K.

(** [DS5Controller.input], case by case. *)
Lemma ds5_input_run (endpoint : Z) (data : list Z) (self : DS5Controller.t) :
  let '(ok, dec) := decode (DS5Controller._decoder self) data in
  match ok, DS5Controller.mapper self, nth_error data 33 with
  | true, Some m, Some d33 =>
      exists dec',
        DS5Controller.input endpoint data self
        = (Ok tt,
           DS5Controller.set_mapper
             (Some (Mapper_input (old_state dec') (state dec') m))
             (DS5Controller.set_decoder dec' self)) /\
        old_state dec' = old_state dec /\
        hid_axes (state dec') = hid_axes (state dec) /\
        pressed (hid_buttons (state dec')) SCButtons.CPADTOUCH
        = (Z.shiftr d33 7 =? 0) /\
        forall b, b <> SCButtons.CPADTOUCH ->
          pressed (hid_buttons (state dec')) b
          = pressed (hid_buttons (state dec)) b
  | true, Some m, None =>
      DS5Controller.input endpoint data self
      = (Raise IndexError, DS5Controller.set_decoder dec self)
  | _, _, _ =>
      DS5Controller.input endpoint data self
      = (Ok tt, DS5Controller.set_decoder dec self)
  end.
Proof.
  unfold DS5Controller.input, bind, get, put, lift, modify, ret, getitem.
  destruct (decode (DS5Controller._decoder self) data) as [ok dec].
  cbn [DS5Controller.mapper DS5Controller.set_decoder].
  destruct ok; [|destruct (DS5Controller.mapper self), (nth_error data 33); reflexivity].
  destruct (DS5Controller.mapper self) as [m|];
    [|destruct (nth_error data 33); reflexivity].
  destruct (nth_error data 33) as [d33|]; [|reflexivity].
  destruct (touch_override HK dec (Z.shiftr d33 7 =? 0)) as (Ho & Ha & Ht & Hb).
  destruct (Z.shiftr d33 7 =? 0); cbn [negb];
    eexists; (split; [reflexivity|]); repeat split; assumption.
Qed.

(** [DS4Controller.input], case by case. *)
Lemma ds4_input_run (endpoint : Z) (data : list Z) (self : ds4drv.DS4Controller.t) :
  let '(ok, dec) := decode (ds4drv.DS4Controller._decoder self) data in
  match ok, ds4drv.DS4Controller.mapper self, nth_error data 35 with
  | true, Some m, Some d35 =>
      exists dec',
        ds4drv.DS4Controller.input endpoint data self
        = (Ok tt,
           {| ds4drv.DS4Controller._decoder := dec';
              ds4drv.DS4Controller.mapper :=
                Some (Mapper_input (old_state dec') (state dec') m) |}) /\
        old_state dec' = old_state dec /\
        hid_axes (state dec') = hid_axes (state dec) /\
        pressed (hid_buttons (state dec')) SCButtons.CPADTOUCH
        = (Z.shiftr d35 7 =? 0) /\
        forall b, b <> SCButtons.CPADTOUCH ->
          pressed (hid_buttons (state dec')) b
          = pressed (hid_buttons (state dec)) b
  | true, Some m, None =>
      ds4drv.DS4Controller.input endpoint data self
      = (Raise IndexError,
         {| ds4drv.DS4Controller._decoder := dec;
            ds4drv.DS4Controller.mapper := Some m |})
  | _, _, _ =>
      ds4drv.DS4Controller.input endpoint data self
      = (Ok tt,
         {| ds4drv.DS4Controller._decoder := dec;
            ds4drv.DS4Controller.mapper := ds4drv.DS4Controller.mapper self |})
  end.
Proof.
  unfold ds4drv.DS4Controller.input, bind, get, put, lift, modify, ret, getitem.
  destruct (decode (ds4drv.DS4Controller._decoder self) data) as [ok dec].
  cbn [ds4drv.DS4Controller.mapper ds4drv.DS4Controller._decoder].
  destruct ok;
    [|destruct (ds4drv.DS4Controller.mapper self), (nth_error data 35); reflexivity].
  destruct (ds4drv.DS4Controller.mapper self) as [m|];
    [|destruct (nth_error data 35); reflexivity].
  destruct (nth_error data 35) as [d35|]; [|reflexivity].
  destruct (touch_override HK dec (Z.shiftr d35 7 =? 0)) as (Ho & Ha & Ht & Hb).
  unfold ds4drv.DS4Controller.set_buttons.
  cbn [ds4drv.DS4Controller.mapper ds4drv.DS4Controller._decoder].
  destruct (Z.shiftr d35 7 =? 0); cbn [negb];
    eexists; (split; [reflexivity|]); repeat split; assumption.
Qed.

End HidInput.

(** X16. [DS5Controller.input] on a report.  When the decoder rejects the
    report or no mapper is attached, it returns normally and nothing
    reaches a mapper.  When the decoder accepts it and a mapper is
    attached, a report of fewer than 34 bytes raises [IndexError] and
    nothing is delivered; a longer one delivers exactly one pair, the
    decoder's previous state and the decoded state in which only the
    CPADTOUCH flag has been overridden (set when byte 33 is below 128):
    every other button and the axes are as the decoder produced them. *)
Theorem usb_input_cases {K : scc_constants} {H : hiddrv}
    (endpoint : Z) (data : list Z) (self : DS5Controller.t) :
  constants_ok K ->
  let ok := fst (decode (DS5Controller._decoder self) data) in
  let dec := snd (decode (DS5Controller._decoder self) data) in
  (ok = false \/ DS5Controller.mapper self = None ->
   DS5Controller.input endpoint data self
   = (Ok tt, DS5Controller.set_decoder dec self)) /\
  (ok = true -> DS5Controller.mapper self <> None ->
   (List.length data <= 33)%nat ->
   DS5Controller.input endpoint data self
   = (Raise IndexError, DS5Controller.set_decoder dec self)) /\
  (forall m d33,
     ok = true -> DS5Controller.mapper self = Some m ->
     nth_error data 33 = Some d33 ->
     exists dec',
       DS5Controller.input endpoint data self
       = (Ok tt,
          DS5Controller.set_mapper
            (Some (Mapper_input (old_state dec') (state dec') m))
            (DS5Controller.set_decoder dec' self)) /\
       old_state dec' = old_state dec /\
       hid_axes (state dec') = hid_axes (state dec) /\
       pressed (hid_buttons (state dec')) SCButtons.CPADTOUCH
       = (Z.shiftr d33 7 =? 0) /\
       forall b, b <> SCButtons.CPADTOUCH ->
         pressed (hid_buttons (state dec')) b
         = pressed (hid_buttons (state dec)) b).
Proof.
  intros HK ok dec. pose proof (ds5_input_run HK endpoint data self) as Hrun.
  subst ok dec. destruct (decode (DS5Controller._decoder self) data) as [ok dec].
  cbn [fst snd]. split; [|split].
  - intros [-> | Hm].
    + destruct (DS5Controller.mapper self), (nth_error data 33); exact Hrun.
    + rewrite Hm in Hrun. destruct ok, (nth_error data 33); exact Hrun.
  - intros -> Hm Hlen. destruct (DS5Controller.mapper self) as [m|]; [|congruence].
    assert (nth_error data 33 = None) as E by (apply nth_error_None; lia).
    rewrite E in Hrun. exact Hrun.
  - intros m d33 -> Hm H33. rewrite Hm, H33 in Hrun. exact Hrun.
Qed.

Lemma usb_input_cases_witness :
  let ok := fst (decode (hiddrv := raw_hiddrv)
                   (DS5Controller._decoder usb_with_mapper) usb_zero_report) in
  let dec := snd (decode (hiddrv := raw_hiddrv)
                    (DS5Controller._decoder usb_with_mapper) usb_zero_report) in
  (ok = false \/ DS5Controller.mapper usb_with_mapper = None ->
   DS5Controller.input (K := host16) (H := raw_hiddrv) 3 usb_zero_report
     usb_with_mapper
   = (Ok tt, DS5Controller.set_decoder dec usb_with_mapper)) /\
  (ok = true -> DS5Controller.mapper usb_with_mapper <> None ->
   (List.length usb_zero_report <= 33)%nat ->
   DS5Controller.input (K := host16) (H := raw_hiddrv) 3 usb_zero_report
     usb_with_mapper
   = (Raise IndexError, DS5Controller.set_decoder dec usb_with_mapper)) /\
  (forall m d33,
     ok = true -> DS5Controller.mapper usb_with_mapper = Some m ->
     nth_error usb_zero_report 33 = Some d33 ->
     exists dec',
       DS5Controller.input (K := host16) (H := raw_hiddrv) 3 usb_zero_report
         usb_with_mapper
       = (Ok tt,
          DS5Controller.set_mapper
            (Some (Mapper_input (old_state dec') (state dec') m))
            (DS5Controller.set_decoder dec' usb_with_mapper)) /\
       old_state dec' = old_state dec /\
       hid_axes (state dec') = hid_axes (state dec) /\
       pressed (K := host16) (hid_buttons (state dec')) SCButtons.CPADTOUCH
       = (Z.shiftr d33 7 =? 0) /\
       forall b, b <> SCButtons.CPADTOUCH ->
         pressed (K := host16) (hid_buttons (state dec')) b
         = pressed (K := host16) (hid_buttons (state dec)) b).
Proof.
  apply (usb_input_cases (K := host16) (H := raw_hiddrv) 3 usb_zero_report
           usb_with_mapper).
  exact host16_ok.
Defined.

(** X17. The Bluetooth input of a DualShock 4, on a frame that starts
    with 0x11: the decoder is given the frame without its first two bytes.
    When it rejects them or no mapper is attached, nothing is delivered.
    When it accepts them and a mapper is attached, a frame of fewer than
    38 bytes raises [IndexError] and nothing is delivered; a longer one
    delivers exactly one pair, in which only the CPADTOUCH flag has been
    overridden: it is set when byte 37 of the frame is below 128. *)
Theorem ds4_raw_input_cases {K : scc_constants} {H : hiddrv}
    (fileno : Z) (frame : list Z) (self : ds4drv.DS4Controller.t) :
  constants_ok K ->
  nth_error frame 0 = Some 0x11 ->
  let ok := fst (decode (ds4drv.DS4Controller._decoder self) (skipn 2 frame)) in
  let dec := snd (decode (ds4drv.DS4Controller._decoder self) (skipn 2 frame)) in
  (ok = false \/ ds4drv.DS4Controller.mapper self = None ->
   ds4drv.DS4HIDRawController._input fileno frame self
   = (Ok tt,
      {| ds4drv.DS4Controller._decoder := dec;
         ds4drv.DS4Controller.mapper := ds4drv.DS4Controller.mapper self |})) /\
  (ok = true -> ds4drv.DS4Controller.mapper self <> None ->
   (List.length frame < 38)%nat ->
   ds4drv.DS4HIDRawController._input fileno frame self
   = (Raise IndexError,
      {| ds4drv.DS4Controller._decoder := dec;
         ds4drv.DS4Controller.mapper := ds4drv.DS4Controller.mapper self |})) /\
  (forall m d37,
     ok = true -> ds4drv.DS4Controller.mapper self = Some m ->
     nth_error frame 37 = Some d37 ->
     exists dec',
       ds4drv.DS4HIDRawController._input fileno frame self
       = (Ok tt,
          {| ds4drv.DS4Controller._decoder := dec';
             ds4drv.DS4Controller.mapper :=
               Some (Mapper_input (old_state dec') (state dec') m) |}) /\
       old_state dec' = old_state dec /\
       hid_axes (state dec') = hid_axes (state dec) /\
       pressed (hid_buttons (state dec')) SCButtons.CPADTOUCH
       = (Z.shiftr d37 7 =? 0) /\
       forall b, b <> SCButtons.CPADTOUCH ->
         pressed (hid_buttons (state dec')) b
         = pressed (hid_buttons (state dec)) b).
Proof.
  intros HK Hhead ok dec.
  assert (ds4drv.DS4HIDRawController._input fileno frame self
          = ds4drv.DS4Controller.input fileno (skipn 2 frame) self) as ->.
  { unfold ds4drv.DS4HIDRawController._input, bind, lift, getitem.
    rewrite Hhead. reflexivity. }
  assert (nth_error (skipn 2 frame) 35 = nth_error frame 37) as Hidx
    by (rewrite nth_error_skipn; reflexivity).
  pose proof (ds4_input_run HK fileno (skipn 2 frame) self) as Hrun.
  subst ok dec.
  destruct (decode (ds4drv.DS4Controller._decoder self) (skipn 2 frame))
    as [ok dec].
  cbn [fst snd]. rewrite Hidx in Hrun. split; [|split].
  - intros [-> | Hm].
    + destruct (ds4drv.DS4Controller.mapper self), (nth_error frame 37);
        exact Hrun.
    + rewrite Hm in Hrun |- *. destruct ok, (nth_error frame 37); exact Hrun.
  - intros -> Hm Hlen.
    destruct (ds4drv.DS4Controller.mapper self) as [m|]; [|congruence].
    assert (nth_error frame 37 = None) as E by (apply nth_error_None; lia).
    rewrite E in Hrun. exact Hrun.
  - intros m d37 -> Hm H37. rewrite Hm, H37 in Hrun. exact Hrun.
Qed.

Lemma ds4_raw_input_cases_witness :
  let ok := fst (decode (hiddrv := raw_hiddrv)
                   (ds4drv.DS4Controller._decoder ds4_with_mapper)
                   (skipn 2 (ds4_frame 0x80))) in
  let dec := snd (decode (hiddrv := raw_hiddrv)
                    (ds4drv.DS4Controller._decoder ds4_with_mapper)
                    (skipn 2 (ds4_frame 0x80))) in
  (ok = false \/ ds4drv.DS4Controller.mapper ds4_with_mapper = None ->
   ds4drv.DS4HIDRawController._input (K := host16) (H := raw_hiddrv) 5
     (ds4_frame 0x80) ds4_with_mapper
   = (Ok tt,
      {| ds4drv.DS4Controller._decoder := dec;
         ds4drv.DS4Controller.mapper :=
           ds4drv.DS4Controller.mapper ds4_with_mapper |})) /\
  (ok = true -> ds4drv.DS4Controller.mapper ds4_with_mapper <> None ->
   (List.length (ds4_frame 0x80) < 38)%nat ->
   ds4drv.DS4HIDRawController._input (K := host16) (H := raw_hiddrv) 5
     (ds4_frame 0x80) ds4_with_mapper
   = (Raise IndexError,
      {| ds4drv.DS4Controller._decoder := dec;
         ds4drv.DS4Controller.mapper :=
           ds4drv.DS4Controller.mapper ds4_with_mapper |})) /\
  (forall m d37,
     ok = true -> ds4drv.DS4Controller.mapper ds4_with_mapper = Some m ->
     nth_error (ds4_frame 0x80) 37 = Some d37 ->
     exists dec',
       ds4drv.DS4HIDRawController._input (K := host16) (H := raw_hiddrv) 5
         (ds4_frame 0x80) ds4_with_mapper
       = (Ok tt,
          {| ds4drv.DS4Controller._decoder := dec';
             ds4drv.DS4Controller.mapper :=
               Some (Mapper_input (old_state dec') (state dec') m) |}) /\
       old_state dec' = old_state dec /\
       hid_axes (state dec') = hid_axes (state dec) /\
       pressed (K := host16) (hid_buttons (state dec')) SCButtons.CPADTOUCH
       = (Z.shiftr d37 7 =? 0) /\
       forall b, b <> SCButtons.CPADTOUCH ->
         pressed (K := host16) (hid_buttons (state dec')) b
         = pressed (K := host16) (hid_buttons (state dec)) b).
Proof.
  apply (ds4_raw_input_cases (K := host16) (H := raw_hiddrv) 5
           (ds4_frame 0x80) ds4_with_mapper).
  - exact host16_ok.
  - reflexivity.
Defined.

(** The touch flag and the number of pairs delivered, for DualShock 4
    frames with the touch bit set and clear, a frame cut short and a
    foreign frame. *)
Example ds4_raw_input_sample :
  map (fun frame =>
         match ds4drv.DS4HIDRawController._input (K := host16) (H := raw_hiddrv)
                 5 frame ds4_with_mapper with
         | (r, self) =>
             (match r with Ok _ => true | Raise _ => false end,
              option_map (fun m => List.length (received m))
                (ds4drv.DS4Controller.mapper self),
              pressed (K := host16)
                (hid_buttons (state (ds4drv.DS4Controller._decoder self)))
                SCButtons.CPADTOUCH)
         end)
    [ds4_frame 0x80; ds4_frame 0x05; firstn 37 (ds4_frame 0); 0x01 :: repeat 0 77]
  = [ (true, Some 1%nat, false); (true, Some 1%nat, true);
      (false, Some 0%nat, false); (true, Some 0%nat, false) ].
Proof. vm_compute. reflexivity. Qed.

(** * The evdev fallback controllers *)

(** The two drivers' handlers are the same code. *)
Lemma ds4_touchpad_input_eq {K : scc_constants} {E : evdevdrv.ECODES} :
  @ds4drv.DS4EvdevController._touchpad_input K E
  = @DS5EvdevController._touchpad_input K E.
Proof. reflexivity. Qed.

Lemma ds4_gyro_input_eq {E : evdevdrv.ECODES} :
  @ds4drv.DS4EvdevController._gyro_input E = @DS5EvdevController._gyro_input E.
Proof. reflexivity. Qed.

Section EvdevTouchpad.
Import evdevdrv.
Context {K : scc_constants} {E : ECODES}.

Ltac split_ifs :=
  repeat match goal with
         | |- context [if ?c then _ else _] => destruct c eqn:?
         end.

Lemma touchpad_events_app (a b : list InputEvent) (s : ControllerInput)
    (r : bool) :
  DS5EvdevController.touchpad_events (a ++ b) s r
  = DS5EvdevController.touchpad_events b
      (fst (DS5EvdevController.touchpad_events a s r))
      (snd (DS5EvdevController.touchpad_events a s r)).
Proof.
  revert s r. induction a as [|e a IH]; intros s r; [reflexivity|].
  cbn [app DS5EvdevController.touchpad_events]. cbv zeta.
  split_ifs; apply IH.
Qed.

(** The loop has replaced the state exactly when it met an effective
    event. *)
Lemma touchpad_events_replaced (evs : list InputEvent) (s : ControllerInput)
    (r : bool) :
  snd (DS5EvdevController.touchpad_events evs s r)
  = r || existsb touch_effective evs.
Proof.
  revert s r. induction evs as [|e evs IH]; intros s r.
  - cbn. now rewrite orb_false_r.
  - cbn [DS5EvdevController.touchpad_events existsb]. cbv zeta.
    unfold touch_effective at 1.
    split_ifs; rewrite IH; cbn; now rewrite ?orb_true_r.
Qed.

Lemma touchpad_input_run (read : Read) (self : EvdevController.t) :
  DS5EvdevController._touchpad_input read self
  = if negb (raises_OSError read) && existsb touch_effective (events read)
    then DS5EvdevController.store
           (fst (DS5EvdevController.touchpad_events (events read)
                   (EvdevController._state self) false)) self
    else self.
Proof.
  unfold DS5EvdevController._touchpad_input. cbv zeta.
  pose proof (touchpad_events_replaced (events read)
                (EvdevController._state self) false) as Hr.
  destruct (DS5EvdevController.touchpad_events (events read)
              (EvdevController._state self) false) as [s' r'].
  cbn [fst snd] in *. subst r'. cbn [orb].
  destruct (raises_OSError read); reflexivity.
Qed.

Lemma touchpad_events_idle (evs : list InputEvent) (s : ControllerInput)
    (r : bool) :
  existsb touch_effective evs = false ->
  fst (DS5EvdevController.touchpad_events evs s r) = s.
Proof.
  revert s r. induction evs as [|e evs IH]; intros s r; [reflexivity|].
  cbn [DS5EvdevController.touchpad_events existsb]. cbv zeta.
  unfold touch_effective at 1.
  split_ifs; cbn [orb andb negb]; try discriminate; apply IH.
Qed.

Lemma touchpad_input_state (evs : list InputEvent) (self : EvdevController.t) :
  EvdevController._state
    (DS5EvdevController._touchpad_input
       {| events := evs; raises_OSError := false |} self)
  = fst (DS5EvdevController.touchpad_events evs
           (EvdevController._state self) false).
Proof.
  rewrite touchpad_input_run. cbn [events raises_OSError negb andb].
  destruct (existsb touch_effective evs) eqn:He.
  - reflexivity.
  - now rewrite touchpad_events_idle.
Qed.

Section Frame.
Hypothesis HK : constants_ok K.

Lemma touchpad_events_frame (evs : list InputEvent) (s : ControllerInput)
    (r : bool) :
  let s' := fst (DS5EvdevController.touchpad_events evs s r) in
  gpitch s' = gpitch s /\ groll s' = groll s /\ gyaw s' = gyaw s /\
  others s' = others s /\
  forall b, b <> SCButtons.CPADPRESS -> b <> SCButtons.CPADTOUCH ->
            pressed (buttons s') b = pressed (buttons s) b.
Proof.
  cbv zeta. revert s r. induction evs as [|e evs IH]; intros s r.
  - cbn. repeat split; reflexivity.
  - cbn [DS5EvdevController.touchpad_events]. cbv zeta.
    split_ifs;
      match goal with
      | |- context [DS5EvdevController.touchpad_events evs ?s1 ?r1] =>
          destruct (IH s1 r1) as (H1 & H2 & H3 & H4 & H5)
      end;
      (split; [exact H1|]; split; [exact H2|]; split; [exact H3|];
       split; [exact H4|]; intros b Hp Ht; rewrite (H5 b Hp Ht);
       cbn [buttons replace_buttons replace_buttons_cpad replace_cpad_x
            replace_cpad_y];
       try reflexivity).
    + now apply (pressed_lor_other HK).
    + now apply (pressed_land_lnot_other HK).
    + now apply (pressed_lor_other HK).
    + now apply (pressed_land_lnot_other HK).
Qed.


Lemma touchpad_last_button (evs : list InputEvent) (e : InputEvent)
    (s : ControllerInput) :
  BTN_LEFT <> BTN_TOUCH -> type e <> EV_ABS -> type e <> 0 ->
  let s1 := fst (DS5EvdevController.touchpad_events evs s false) in
  let s' := fst (DS5EvdevController.touchpad_events (evs ++ [e]) s false) in
  (code e = BTN_LEFT ->
   pressed (buttons s') SCButtons.CPADPRESS = (value e =? 1) /\
   pressed (buttons s') SCButtons.CPADTOUCH
   = pressed (buttons s1) SCButtons.CPADTOUCH /\
   cpad_x s' = cpad_x s1 /\ cpad_y s' = cpad_y s1) /\
  (code e = BTN_TOUCH ->
   pressed (buttons s') SCButtons.CPADTOUCH = (value e =? 1) /\
   pressed (buttons s') SCButtons.CPADPRESS
   = pressed (buttons s1) SCButtons.CPADPRESS /\
   (value e = 1 -> cpad_x s' = cpad_x s1 /\ cpad_y s' = cpad_y s1) /\
   (value e <> 1 -> cpad_x s' = 0 /\ cpad_y s' = 0)).
Proof.
  intros Hne Habs Hsyn. cbv zeta. rewrite touchpad_events_app.
  destruct (DS5EvdevController.touchpad_events evs s false) as [s1 r1].
  cbn [fst snd DS5EvdevController.touchpad_events]. cbv zeta.
  apply Z.eqb_neq in Habs, Hsyn. rewrite Habs, Hsyn.
  split; intro Hc; rewrite Hc.
  - rewrite Z.eqb_refl. destruct (value e =? 1) eqn:Hv;
      cbn [fst buttons cpad_x cpad_y replace_buttons].
    + split; [apply pressed_lor_same|].
      split; [now apply (pressed_lor_other HK)|]. now split.
    + split; [apply (pressed_land_lnot_same HK)|].
      split; [now apply (pressed_land_lnot_other HK)|]. now split.
  - assert ((BTN_TOUCH =? BTN_LEFT) = false) as -> by (apply Z.eqb_neq; congruence).
    rewrite Z.eqb_refl. destruct (value e =? 1) eqn:Hv;
      cbn [fst buttons cpad_x cpad_y replace_buttons replace_buttons_cpad].
    + split; [apply pressed_lor_same|].
      split; [now apply (pressed_lor_other HK)|].
      split; [now split|]. apply Z.eqb_eq in Hv. intro; contradiction.
    + split; [apply (pressed_land_lnot_same HK)|].
      split; [now apply (pressed_land_lnot_other HK)|].
      split; [|now split]. apply Z.eqb_neq in Hv. intro; contradiction.
Qed.

End Frame.

Lemma py_int_times_ratio (v n d : Z) :
  0 <= v -> 0 <= n -> 0 < d ->
  py_int (inject_Z v * (inject_Z n / inject_Z d))%Q = v * n / d.
Proof.
  intros Hv Hn Hd.
  rewrite <- (py_int_scaled v n d Hv Hn Hd). apply py_int_compat.
  field. intro H. apply (Qeq_bool_neq (inject_Z d) 0); [|exact H].
  unfold Qeq_bool, inject_Z. cbn. apply Z.eqb_neq. lia.
Qed.

Lemma touchpad_last_position (evs : list InputEvent) (e : InputEvent)
    (s : ControllerInput) :
  0 <= STICK_PAD_MAX -> type e = EV_ABS -> 0 <= value e ->
  let s1 := fst (DS5EvdevController.touchpad_events evs s false) in
  let s' := fst (DS5EvdevController.touchpad_events (evs ++ [e]) s false) in
  (code e = ABS_MT_POSITION_X ->
   cpad_x s' = STICK_PAD_MIN + value e * STICK_PAD_MAX / 940 /\
   cpad_y s' = cpad_y s1 /\ buttons s' = buttons s1) /\
  (code e = ABS_MT_POSITION_Y -> ABS_MT_POSITION_Y <> ABS_MT_POSITION_X ->
   cpad_y s' = STICK_PAD_MAX - value e * STICK_PAD_MAX / 470 /\
   cpad_x s' = cpad_x s1 /\ buttons s' = buttons s1).
Proof.
  intros Hmax Habs Hv. cbv zeta. rewrite touchpad_events_app.
  destruct (DS5EvdevController.touchpad_events evs s false) as [s1 r1].
  cbn [fst snd DS5EvdevController.touchpad_events]. cbv zeta.
  rewrite Habs, Z.eqb_refl.
  split.
  - intro Hc. rewrite Hc, Z.eqb_refl.
    cbn [fst buttons cpad_x cpad_y replace_cpad_x].
    split; [|now split]. f_equal.
    unfold DS5EvdevController.TOUCH_FACTOR_X.
    rewrite <- (py_int_times_ratio (value e) STICK_PAD_MAX 940) by lia.
    apply py_int_compat.
    assert (940.0 == inject_Z 940)%Q as -> by reflexivity. reflexivity.
  - intros Hc Hne. rewrite Hc.
    assert ((ABS_MT_POSITION_Y =? ABS_MT_POSITION_X) = false) as ->
      by (now apply Z.eqb_neq).
    rewrite Z.eqb_refl. cbn [fst buttons cpad_x cpad_y replace_cpad_y].
    split; [|now split]. f_equal.
    unfold DS5EvdevController.TOUCH_FACTOR_Y.
    rewrite <- (py_int_times_ratio (value e) STICK_PAD_MAX 470) by lia.
    apply py_int_compat.
    assert (470.0 == inject_Z 470)%Q as -> by reflexivity. reflexivity.
Qed.

End EvdevTouchpad.

Lemma find_append {A : Type} (f : A -> bool) (l1 l2 : list A) :
  find f (l1 ++ l2)
  = match find f l1 with Some x => Some x | None => find f l2 end.
Proof.
  induction l1 as [|a l1 IH]; cbn; [reflexivity|].
  destruct (f a); [reflexivity | exact IH].
Qed.

Section EvdevGyro.
Import evdevdrv.
Context {E : ECODES}.

Lemma gyro_map_unknown (c : Z) :
  display_get DS5EvdevController.GYRO_MAP c = None
  <-> existsb (fun k => k =? c) gyro_codes = false.
Proof.
  unfold display_get, DS5EvdevController.GYRO_MAP, gyro_codes.
  cbn [rev app find fst existsb option_map].
  destruct (ABS_RX =? c), (ABS_RY =? c), (ABS_RZ =? c), (ABS_X =? c),
    (ABS_Y =? c), (ABS_Z =? c); cbn; split; congruence.
Qed.

Lemma gyro_scale (v : Z) : py_int (inject_Z v * 0.01)%Q = Z.quot v 100.
Proof. unfold py_int. cbn [Qnum Qden Qmult inject_Z]. now rewrite Z.mul_1_r. Qed.

(** The loop raises for the first EV_ABS event with an unknown code. *)
Lemma gyro_events_raises (evs : list InputEvent) (s : ControllerInput)
    (r : bool) :
  match first_unknown evs with
  | Some k => DS5EvdevController.gyro_events evs s r = inl (KeyError k)
  | None => exists s' r', DS5EvdevController.gyro_events evs s r = inr (s', r')
  end.
Proof.
  revert s r. induction evs as [|e evs IH]; intros s r.
  - cbn. now exists s, r.
  - unfold first_unknown. cbn [find DS5EvdevController.gyro_events].
    destruct (type e =? EV_ABS) eqn:Ht; cbn [andb].
    + destruct (existsb (fun c => c =? code e) gyro_codes) eqn:Hk; cbn [negb].
      * destruct (display_get DS5EvdevController.GYRO_MAP (code e))
          as [[[a|] f]|] eqn:Hg.
        -- apply IH.
        -- apply IH.
        -- apply gyro_map_unknown in Hg. congruence.
      * apply gyro_map_unknown in Hk. rewrite Hk. reflexivity.
    + apply IH.
Qed.

Lemma last_abs_cons (c : Z) (e : InputEvent) (evs : list InputEvent) :
  last_abs c (e :: evs)
  = match last_abs c evs with
    | Some v => Some v
    | None => if (type e =? EV_ABS) && (code e =? c) then Some (value e) else None
    end.
Proof.
  unfold last_abs. cbn [rev]. rewrite find_append.
  destruct (find _ (rev evs)); [reflexivity|]. cbn [find].
  destruct ((type e =? EV_ABS) && (code e =? c)); reflexivity.
Qed.

Section Distinct.
Hypothesis Hnd : NoDup gyro_codes.

Lemma gyro_map_lookup (c : Z) :
  display_get DS5EvdevController.GYRO_MAP c
  = if c =? ABS_RX then Some (Some axis_gpitch, 0.01%Q)
    else if c =? ABS_RY then Some (Some axis_gyaw, 0.01%Q)
    else if c =? ABS_RZ then Some (Some axis_groll, 0.01%Q)
    else if existsb (fun k => k =? c) [ABS_X; ABS_Y; ABS_Z]
         then display_get DS5EvdevController.GYRO_MAP c
         else None.
Proof.
  unfold gyro_codes in Hnd.
  inversion Hnd as [|? ? Hrx H1]; subst. inversion H1 as [|? ? Hry H2]; subst.
  inversion H2 as [|? ? Hrz H3]; subst. clear Hnd H1 H2 H3. cbn [In] in *.
  unfold display_get, DS5EvdevController.GYRO_MAP.
  cbn [rev app find fst existsb option_map].
  destruct (Z.eqb_spec c ABS_RX) as [-> | Nrx].
  - destruct (Z.eqb_spec ABS_Z ABS_RX); [exfalso; tauto|].
    destruct (Z.eqb_spec ABS_Y ABS_RX); [exfalso; tauto|].
    destruct (Z.eqb_spec ABS_X ABS_RX); [exfalso; tauto|].
    destruct (Z.eqb_spec ABS_RZ ABS_RX); [exfalso; tauto|].
    destruct (Z.eqb_spec ABS_RY ABS_RX); [exfalso; tauto|].
    now rewrite Z.eqb_refl.
  - destruct (Z.eqb_spec c ABS_RY) as [-> | Nry].
    + destruct (Z.eqb_spec ABS_Z ABS_RY); [exfalso; tauto|].
      destruct (Z.eqb_spec ABS_Y ABS_RY); [exfalso; tauto|].
      destruct (Z.eqb_spec ABS_X ABS_RY); [exfalso; tauto|].
      destruct (Z.eqb_spec ABS_RZ ABS_RY); [exfalso; tauto|].
      now rewrite Z.eqb_refl.
    + destruct (Z.eqb_spec c ABS_RZ) as [-> | Nrz].
      * destruct (Z.eqb_spec ABS_Z ABS_RZ); [exfalso; tauto|].
        destruct (Z.eqb_spec ABS_Y ABS_RZ); [exfalso; tauto|].
        destruct (Z.eqb_spec ABS_X ABS_RZ); [exfalso; tauto|].
        now rewrite Z.eqb_refl.
      * destruct (Z.eqb_spec ABS_Z c), (Z.eqb_spec ABS_Y c),
          (Z.eqb_spec ABS_X c); cbn [orb]; try reflexivity;
        destruct (Z.eqb_spec ABS_RZ c); try congruence;
        destruct (Z.eqb_spec ABS_RY c); try congruence;
        destruct (Z.eqb_spec ABS_RX c); try congruence; reflexivity.
Qed.

Lemma gyro_map_discarded (c : Z) (a : axis) (f : Q) :
  c <> ABS_RX -> c <> ABS_RY -> c <> ABS_RZ ->
  display_get DS5EvdevController.GYRO_MAP c <> Some (Some a, f).
Proof.
  intros Nrx Nry Nrz.
  unfold display_get, DS5EvdevController.GYRO_MAP.
  cbn [rev app find fst option_map].
  destruct (ABS_Z =? c); [discriminate|].
  destruct (ABS_Y =? c); [discriminate|].
  destruct (ABS_X =? c); [discriminate|].
  destruct (Z.eqb_spec ABS_RZ c); [congruence|].
  destruct (Z.eqb_spec ABS_RY c); [congruence|].
  destruct (Z.eqb_spec ABS_RX c); [congruence|]. discriminate.
Qed.

(** The fields after the loop: each gyro field holds the scaled value of
    the last event for it, the rest of the state is as before. *)
Lemma gyro_events_fields (evs : list InputEvent) (s s' : ControllerInput)
    (r r' : bool) :
  DS5EvdevController.gyro_events evs s r = inr (s', r') ->
  gpitch s' = match last_abs ABS_RX evs with
              | Some v => Z.quot v 100 | None => gpitch s end /\
  gyaw s' = match last_abs ABS_RY evs with
            | Some v => Z.quot v 100 | None => gyaw s end /\
  groll s' = match last_abs ABS_RZ evs with
             | Some v => Z.quot v 100 | None => groll s end /\
  buttons s' = buttons s /\ cpad_x s' = cpad_x s /\ cpad_y s' = cpad_y s /\
  others s' = others s /\
  r' = r || match last_abs ABS_RX evs, last_abs ABS_RY evs, last_abs ABS_RZ evs with
            | None, None, None => false
            | _, _, _ => true
            end.
Proof.
  assert (ABS_RX <> ABS_RY /\ ABS_RX <> ABS_RZ /\ ABS_RY <> ABS_RZ)
    as (Nxy & Nxz & Nyz).
  { unfold gyro_codes in Hnd.
    inversion Hnd as [|? ? Hrx H1]; subst. inversion H1 as [|? ? Hry H2]; subst.
    cbn [In] in *. repeat split; intro Heq; symmetry in Heq; tauto. }
  revert s r. induction evs as [|e evs IH]; intros s r.
  - cbn. intro H. injection H as <- <-. rewrite orb_false_r.
    repeat split; reflexivity.
  - cbn [DS5EvdevController.gyro_events]. rewrite !last_abs_cons.
    destruct (type e =? EV_ABS) eqn:Ht; cbn [andb].
    + rewrite gyro_map_lookup.
      destruct (Z.eqb_spec (code e) ABS_RX) as [Hc | Nrx].
      { rewrite Hc.
        assert ((ABS_RX =? ABS_RY) = false) as -> by now apply Z.eqb_neq.
        assert ((ABS_RX =? ABS_RZ) = false) as -> by now apply Z.eqb_neq.
        intro Hrun. apply IH in Hrun as (H1 & H2 & H3 & H4 & H5 & H6 & H7 & H8).
        cbn [replace_axis gpitch gyaw groll buttons cpad_x cpad_y others] in *.
        rewrite gyro_scale in H1.
        rewrite H1, H2, H3, H4, H5, H6, H7, H8.
        destruct (last_abs ABS_RX evs), (last_abs ABS_RY evs),
          (last_abs ABS_RZ evs); cbn; rewrite ?orb_true_r;
          repeat split; reflexivity. }
      destruct (Z.eqb_spec (code e) ABS_RY) as [Hc | Nry].
      { rewrite Hc.
        assert ((ABS_RY =? ABS_RZ) = false) as -> by now apply Z.eqb_neq.
        intro Hrun. apply IH in Hrun as (H1 & H2 & H3 & H4 & H5 & H6 & H7 & H8).
        cbn [replace_axis gpitch gyaw groll buttons cpad_x cpad_y others] in *.
        rewrite gyro_scale in H2.
        rewrite H1, H2, H3, H4, H5, H6, H7, H8.
        destruct (last_abs ABS_RX evs), (last_abs ABS_RY evs),
          (last_abs ABS_RZ evs); cbn; rewrite ?orb_true_r;
          repeat split; reflexivity. }
      destruct (Z.eqb_spec (code e) ABS_RZ) as [Hc | Nrz].
      { intro Hrun. apply IH in Hrun as (H1 & H2 & H3 & H4 & H5 & H6 & H7 & H8).
        cbn [replace_axis gpitch gyaw groll buttons cpad_x cpad_y others] in *.
        rewrite gyro_scale in H3.
        rewrite H1, H2, H3, H4, H5, H6, H7, H8.
        destruct (last_abs ABS_RX evs), (last_abs ABS_RY evs),
          (last_abs ABS_RZ evs); cbn; rewrite ?orb_true_r;
          repeat split; reflexivity. }
      destruct (existsb (fun k => k =? code e) [ABS_X; ABS_Y; ABS_Z]);
        [|discriminate].
      pose proof (gyro_map_discarded (code e)) as Hd.
      destruct (display_get DS5EvdevController.GYRO_MAP (code e))
        as [[[a|] f]|]; [exfalso; now apply (Hd a f) | | discriminate].
      intro Hrun. apply IH in Hrun as (H1 & H2 & H3 & H4 & H5 & H6 & H7 & H8).
      rewrite H1, H2, H3, H4, H5, H6, H7, H8.
      destruct (last_abs ABS_RX evs), (last_abs ABS_RY evs),
        (last_abs ABS_RZ evs); repeat split; reflexivity.
    + intro Hrun. apply IH in Hrun as (H1 & H2 & H3 & H4 & H5 & H6 & H7 & H8).
      rewrite H1, H2, H3, H4, H5, H6, H7, H8.
      destruct (last_abs ABS_RX evs), (last_abs ABS_RY evs),
        (last_abs ABS_RZ evs); repeat split; reflexivity.
Qed.

End Distinct.
End EvdevGyro.

(** ** The touchpad handler *)

(** X18.  [_touchpad_input] hands a batch of touchpad events to the
    mapper once, as the pair of the state before and the state after,
    exactly when the read did not fail and the batch holds a touch
    position or a BTN_LEFT or BTN_TOUCH event; otherwise, and whenever the
    read fails, the controller is left as it was.  The DualShock 4 and
    the DualSense handlers agree. *)
Theorem evdev_touchpad_dispatch {K : scc_constants} {E : evdevdrv.ECODES}
    (read : evdevdrv.Read) (self : evdevdrv.EvdevController.t)
    (m : Mapper evdevdrv.ControllerInput) :
  evdevdrv.EvdevController.mapper self = Some m ->
  let self' := DS5EvdevController._touchpad_input read self in
  ds4drv.DS4EvdevController._touchpad_input read self = self' /\
  if negb (evdevdrv.raises_OSError read)
     && existsb touch_effective (evdevdrv.events read)
  then evdevdrv.EvdevController.mapper self'
       = Some (Mapper_input (evdevdrv.EvdevController._state self)
                 (evdevdrv.EvdevController._state self') m)
  else self' = self.
Proof.
  intro Hm. cbv zeta. split; [reflexivity|].
  rewrite touchpad_input_run.
  destruct (negb (evdevdrv.raises_OSError read)
            && existsb touch_effective (evdevdrv.events read)); [|reflexivity].
  unfold DS5EvdevController.store. cbn. now rewrite Hm.
Qed.

Lemma evdev_touchpad_dispatch_witness :
  evdevdrv.EvdevController.mapper
    (DS5EvdevController._touchpad_input (K := host16) (E := linux_ecodes)
       (batch [touch_key 1; touch_column 940]) evdev_idle)
  = Some {| received :=
      [ (evdevdrv.EvdevController._state evdev_idle,
         {| evdevdrv.buttons := 4; evdevdrv.cpad_x := -1; evdevdrv.cpad_y := 0;
            evdevdrv.gpitch := 0; evdevdrv.groll := 0; evdevdrv.gyaw := 0;
            evdevdrv.others := [] |}) ] |}.
Proof.
  exact (proj2 (evdev_touchpad_dispatch (K := host16) (E := linux_ecodes)
                  (batch [touch_key 1; touch_column 940])
                  evdev_idle {| received := [] |} eq_refl)).
Defined.

(** A batch is handed on even when it leaves the state as it was, and a
    batch whose read fails is lost with all that was read. *)
Example touchpad_dispatch_samples :
  evdevdrv.EvdevController.mapper
    (DS5EvdevController._touchpad_input (K := host16) (E := linux_ecodes)
       {| evdevdrv.events :=
            [ {| evdevdrv.type := 1; evdevdrv.code := 0x110; evdevdrv.value := 0 |} ];
          evdevdrv.raises_OSError := false |} evdev_idle)
  = Some {| received :=
      [ (evdevdrv.EvdevController._state evdev_idle,
         evdevdrv.EvdevController._state evdev_idle) ] |} /\
  DS5EvdevController._touchpad_input (K := host16) (E := linux_ecodes)
    {| evdevdrv.events :=
         [ {| evdevdrv.type := 1; evdevdrv.code := 0x110; evdevdrv.value := 1 |} ];
       evdevdrv.raises_OSError := true |} evdev_idle
  = evdev_idle.
Proof. split; reflexivity. Qed.

(** X19.  A touchpad batch changes nothing of the state but the touch
    position and the CPADPRESS and CPADTOUCH buttons: the gyro values, the
    other fields and every other button are as before. *)
Theorem evdev_touchpad_keeps_rest {K : scc_constants} {E : evdevdrv.ECODES}
    (read : evdevdrv.Read) (self : evdevdrv.EvdevController.t) :
  constants_ok K ->
  let s := evdevdrv.EvdevController._state self in
  let s' := evdevdrv.EvdevController._state
              (DS5EvdevController._touchpad_input read self) in
  evdevdrv.EvdevController._state
    (ds4drv.DS4EvdevController._touchpad_input read self) = s' /\
  evdevdrv.gpitch s' = evdevdrv.gpitch s /\
  evdevdrv.groll s' = evdevdrv.groll s /\
  evdevdrv.gyaw s' = evdevdrv.gyaw s /\
  evdevdrv.others s' = evdevdrv.others s /\
  forall b, b <> SCButtons.CPADPRESS -> b <> SCButtons.CPADTOUCH ->
            pressed (evdevdrv.buttons s') b = pressed (evdevdrv.buttons s) b.
Proof.
  intro HK. cbv zeta. split; [reflexivity|].
  rewrite touchpad_input_run.
  destruct (negb (evdevdrv.raises_OSError read)
            && existsb touch_effective (evdevdrv.events read)).
  - unfold DS5EvdevController.store. cbn [evdevdrv.EvdevController._state].
    apply (touchpad_events_frame HK).
  - repeat split; reflexivity.
Qed.

Lemma evdev_touchpad_keeps_rest_witness :
  evdevdrv.gpitch
    (evdevdrv.EvdevController._state
       (DS5EvdevController._touchpad_input (K := host16) (E := linux_ecodes)
          (batch [touch_key 1]) evdev_idle)) = 0 /\
  pressed (K := host16)
    (evdevdrv.buttons
       (evdevdrv.EvdevController._state
          (DS5EvdevController._touchpad_input (K := host16) (E := linux_ecodes)
             (batch [touch_key 1]) evdev_idle))) SCButtons.A = false.
Proof.
  destruct (evdev_touchpad_keeps_rest (K := host16) (E := linux_ecodes)
              (batch [touch_key 1]) evdev_idle host16_ok)
    as (_ & H1 & _ & _ & _ & H5).
  split; [exact H1|].
  exact (H5 SCButtons.A ltac:(discriminate) ltac:(discriminate)).
Defined.

(** X20.  The last BTN_LEFT or BTN_TOUCH event of a batch decides the
    button: value 1 presses CPADPRESS or CPADTOUCH, any other value
    releases it; releasing the touch also puts the touch position back to
    (0, 0), whereas BTN_LEFT and a touch press leave the position alone. *)
Theorem evdev_touch_buttons {K : scc_constants} {E : evdevdrv.ECODES}
    (evs : list evdevdrv.InputEvent) (e : evdevdrv.InputEvent)
    (self : evdevdrv.EvdevController.t) :
  constants_ok K ->
  evdevdrv.BTN_LEFT <> evdevdrv.BTN_TOUCH ->
  evdevdrv.type e <> evdevdrv.EV_ABS -> evdevdrv.type e <> 0 ->
  let before :=
    evdevdrv.EvdevController._state
      (DS5EvdevController._touchpad_input
         {| evdevdrv.events := evs; evdevdrv.raises_OSError := false |} self) in
  let after :=
    evdevdrv.EvdevController._state
      (DS5EvdevController._touchpad_input
         {| evdevdrv.events := evs ++ [e]; evdevdrv.raises_OSError := false |}
         self) in
  (evdevdrv.code e = evdevdrv.BTN_LEFT ->
   pressed (evdevdrv.buttons after) SCButtons.CPADPRESS
   = (evdevdrv.value e =? 1) /\
   pressed (evdevdrv.buttons after) SCButtons.CPADTOUCH
   = pressed (evdevdrv.buttons before) SCButtons.CPADTOUCH /\
   evdevdrv.cpad_x after = evdevdrv.cpad_x before /\
   evdevdrv.cpad_y after = evdevdrv.cpad_y before) /\
  (evdevdrv.code e = evdevdrv.BTN_TOUCH ->
   pressed (evdevdrv.buttons after) SCButtons.CPADTOUCH
   = (evdevdrv.value e =? 1) /\
   pressed (evdevdrv.buttons after) SCButtons.CPADPRESS
   = pressed (evdevdrv.buttons before) SCButtons.CPADPRESS /\
   (evdevdrv.value e = 1 ->
    evdevdrv.cpad_x after = evdevdrv.cpad_x before /\
    evdevdrv.cpad_y after = evdevdrv.cpad_y before) /\
   (evdevdrv.value e <> 1 ->
    evdevdrv.cpad_x after = 0 /\ evdevdrv.cpad_y after = 0)).
Proof.
  intros HK Hne Habs Hsyn. cbv zeta. rewrite !touchpad_input_state.
  now apply touchpad_last_button.
Qed.

Lemma evdev_touch_buttons_witness :
  pressed (K := host16)
    (evdevdrv.buttons
       (evdevdrv.EvdevController._state
          (DS5EvdevController._touchpad_input (K := host16) (E := linux_ecodes)
             (batch ([touch_key 1; touch_column 100] ++ [touch_key 0]))
             evdev_idle))) SCButtons.CPADTOUCH = false /\
  evdevdrv.cpad_x
    (evdevdrv.EvdevController._state
       (DS5EvdevController._touchpad_input (K := host16) (E := linux_ecodes)
          (batch ([touch_key 1; touch_column 100] ++ [touch_key 0]))
          evdev_idle)) = 0.
Proof.
  destruct (evdev_touch_buttons (K := host16) (E := linux_ecodes)
              [touch_key 1; touch_column 100] (touch_key 0)
              evdev_idle host16_ok ltac:(discriminate) ltac:(discriminate)
              ltac:(discriminate)) as [_ H].
  destruct (H eq_refl) as (H1 & _ & _ & H4).
  split; [exact H1|]. apply H4. discriminate.
Defined.

(** X21.  The last touch position event of a batch sets the coordinate:
    a value [v >= 0] on ABS_MT_POSITION_X gives
    [cpad_x = STICK_PAD_MIN + floor(v * STICK_PAD_MAX / 940)], on
    ABS_MT_POSITION_Y [cpad_y = STICK_PAD_MAX - floor(v * STICK_PAD_MAX / 470)];
    the other coordinate and the buttons stay.  Nothing clamps the result. *)
Theorem evdev_touch_position {K : scc_constants} {E : evdevdrv.ECODES}
    (evs : list evdevdrv.InputEvent) (e : evdevdrv.InputEvent)
    (self : evdevdrv.EvdevController.t) :
  0 <= STICK_PAD_MAX ->
  evdevdrv.type e = evdevdrv.EV_ABS -> 0 <= evdevdrv.value e ->
  let before :=
    evdevdrv.EvdevController._state
      (DS5EvdevController._touchpad_input
         {| evdevdrv.events := evs; evdevdrv.raises_OSError := false |} self) in
  let after :=
    evdevdrv.EvdevController._state
      (DS5EvdevController._touchpad_input
         {| evdevdrv.events := evs ++ [e]; evdevdrv.raises_OSError := false |}
         self) in
  (evdevdrv.code e = evdevdrv.ABS_MT_POSITION_X ->
   evdevdrv.cpad_x after
   = STICK_PAD_MIN + evdevdrv.value e * STICK_PAD_MAX / 940 /\
   evdevdrv.cpad_y after = evdevdrv.cpad_y before /\
   evdevdrv.buttons after = evdevdrv.buttons before) /\
  (evdevdrv.code e = evdevdrv.ABS_MT_POSITION_Y ->
   evdevdrv.ABS_MT_POSITION_Y <> evdevdrv.ABS_MT_POSITION_X ->
   evdevdrv.cpad_y after
   = STICK_PAD_MAX - evdevdrv.value e * STICK_PAD_MAX / 470 /\
   evdevdrv.cpad_x after = evdevdrv.cpad_x before /\
   evdevdrv.buttons after = evdevdrv.buttons before).
Proof.
  intros Hmax Habs Hv. cbv zeta. rewrite !touchpad_input_state.
  now apply touchpad_last_position.
Qed.

Lemma evdev_touch_position_witness :
  evdevdrv.cpad_x
    (evdevdrv.EvdevController._state
       (DS5EvdevController._touchpad_input (K := host16) (E := linux_ecodes)
          (batch ([touch_key 1] ++ [touch_column 1919])) evdev_idle))
  = -32768 + 1919 * 32767 / 940.
Proof.
  exact (proj1 (proj1 (evdev_touch_position (K := host16) (E := linux_ecodes)
                         [touch_key 1] (touch_column 1919)
                         evdev_idle ltac:(discriminate) eq_refl
                         ltac:(discriminate)) eq_refl)).
Defined.

(** On the 16-bit host the centre column 940 gives -1, the column 1880
    the top of the range less one; the last column of a pad 1920 wide
    and the last row of a pad 1080 high leave the stick range. *)
Example touch_position_samples :
  map (fun v =>
         evdevdrv.cpad_x
           (evdevdrv.EvdevController._state
              (DS5EvdevController._touchpad_input (K := host16)
                 (E := linux_ecodes)
                 {| evdevdrv.events :=
                      [ {| evdevdrv.type := 3; evdevdrv.code := 0x35;
                           evdevdrv.value := v |} ];
                    evdevdrv.raises_OSError := false |} evdev_idle)))
      [0; 940; 1880; 1919]
  = [-32768; -1; 32766; 34125] /\
  map (fun v =>
         evdevdrv.cpad_y
           (evdevdrv.EvdevController._state
              (DS5EvdevController._touchpad_input (K := host16)
                 (E := linux_ecodes)
                 {| evdevdrv.events :=
                      [ {| evdevdrv.type := 3; evdevdrv.code := 0x36;
                           evdevdrv.value := v |} ];
                    evdevdrv.raises_OSError := false |} evdev_idle)))
      [0; 470; 940; 1079]
  = [32767; 0; -32767; -42457].
Proof. split; vm_compute; reflexivity. Qed.

(** On binary64 the coordinates come out the same. *)
Lemma touch_binary64_agrees (value : Z) :
  0 <= value <= 4095 ->
  touch_x_binary64 (K := host16) value
  = Ok (STICK_PAD_MIN (scc_constants := host16)
        + py_int (inject_Z value
                  * DS5EvdevController.TOUCH_FACTOR_X (K := host16))%Q) /\
  touch_y_binary64 (K := host16) value
  = Ok (STICK_PAD_MAX (scc_constants := host16)
        - py_int (inject_Z value
                  * DS5EvdevController.TOUCH_FACTOR_Y (K := host16))%Q).
Proof.
  intro Hv.
  assert (forallb (fun n =>
            let v := Z.of_nat n in
            match touch_x_binary64 (K := host16) v,
                  touch_y_binary64 (K := host16) v with
            | Ok x, Ok y =>
                (x =? STICK_PAD_MIN (scc_constants := host16)
                      + py_int (inject_Z v
                                * DS5EvdevController.TOUCH_FACTOR_X (K := host16))%Q)
                && (y =? STICK_PAD_MAX (scc_constants := host16)
                         - py_int (inject_Z v
                                   * DS5EvdevController.TOUCH_FACTOR_Y
                                       (K := host16))%Q)
            | _, _ => false
            end) (seq 0 4096) = true) as Hall by (vm_compute; reflexivity).
  rewrite forallb_forall in Hall.
  specialize (Hall (Z.to_nat value)).
  rewrite Z2Nat.id in Hall by lia.
  cbv zeta in Hall.
  assert (In (Z.to_nat value) (seq 0 4096)) as Hin by (apply in_seq; lia).
  specialize (Hall Hin).
  destruct (touch_x_binary64 value) as [x|] eqn:Ex; [|discriminate].
  destruct (touch_y_binary64 value) as [y|] eqn:Ey; [|discriminate].
  apply andb_prop in Hall as [Hx Hy].
  apply Z.eqb_eq in Hx. apply Z.eqb_eq in Hy. split; congruence.
Qed.

(** ** The gyro handler *)

Lemma gyro_input_run {E : evdevdrv.ECODES} (read : evdevdrv.Read)
    (self : evdevdrv.EvdevController.t) :
  match first_unknown (evdevdrv.events read) with
  | Some k =>
      DS5EvdevController._gyro_input read self = (inl (evdevdrv.KeyError k), self)
  | None =>
      exists s' r',
        DS5EvdevController.gyro_events (evdevdrv.events read)
          (evdevdrv.EvdevController._state self) false = inr (s', r') /\
        DS5EvdevController._gyro_input read self
        = (inr tt,
           if negb (evdevdrv.raises_OSError read) && r'
           then DS5EvdevController.store s' self else self)
  end.
Proof.
  pose proof (gyro_events_raises (evdevdrv.events read)
                (evdevdrv.EvdevController._state self) false) as H.
  unfold DS5EvdevController._gyro_input. cbv zeta.
  destruct (first_unknown (evdevdrv.events read)) as [k|].
  - now rewrite H.
  - destruct H as (s' & r' & H). exists s', r'. split; [exact H|].
    rewrite H. destruct (evdevdrv.raises_OSError read), r'; reflexivity.
Qed.

(** X22.  [_gyro_input] raises [KeyError] exactly when the batch holds an
    EV_ABS event whose code is none of ABS_RX, ABS_RY, ABS_RZ, ABS_X, ABS_Y
    and ABS_Z: the key is the code of the first such event, and the
    controller is left as it was, so the events read before it are lost.
    Without such an event the handler returns normally, and when the read
    fails it leaves the controller as it was. *)
Theorem evdev_gyro_key_error {E : evdevdrv.ECODES} (read : evdevdrv.Read)
    (self : evdevdrv.EvdevController.t) :
  ds4drv.DS4EvdevController._gyro_input read self
  = DS5EvdevController._gyro_input read self /\
  match first_unknown (evdevdrv.events read) with
  | Some k =>
      DS5EvdevController._gyro_input read self = (inl (evdevdrv.KeyError k), self)
  | None =>
      fst (DS5EvdevController._gyro_input read self) = inr tt /\
      (evdevdrv.raises_OSError read = true ->
       snd (DS5EvdevController._gyro_input read self) = self)
  end.
Proof.
  split; [reflexivity|].
  pose proof (gyro_input_run read self) as H.
  destruct (first_unknown (evdevdrv.events read)) as [k|]; [exact H|].
  destruct H as (s' & r' & _ & ->). cbn [fst snd]. split; [reflexivity|].
  now intros ->.
Qed.

(** An event of the accelerometer's fourth axis in the middle of a batch:
    the pitch that was read before it is lost. *)
Example gyro_key_error_sample :
  DS5EvdevController._gyro_input (E := linux_ecodes)
    (batch [gyro_axis 0x03 1234; gyro_axis 0x06 1; gyro_axis 0x04 99]) evdev_idle
  = (inl (evdevdrv.KeyError 0x06), evdev_idle).
Proof. reflexivity. Qed.

(** X23.  When the six codes of the gyro table are distinct, a batch that
    is read without error sets [gpitch], [gyaw] and [groll] to the value of
    the last ABS_RX, ABS_RY and ABS_RZ event, divided by 100 and truncated
    toward zero, and leaves a field with no such event, the buttons and the
    touch position as they were; ABS_X, ABS_Y and ABS_Z events are read and
    dropped.  The mapper gets the one pair of states if the batch held an
    event for one of the three fields, and nothing otherwise. *)
Theorem evdev_gyro_last_event_wins {E : evdevdrv.ECODES}
    (read : evdevdrv.Read) (self : evdevdrv.EvdevController.t)
    (m : Mapper evdevdrv.ControllerInput) :
  NoDup gyro_codes ->
  first_unknown (evdevdrv.events read) = None ->
  evdevdrv.raises_OSError read = false ->
  evdevdrv.EvdevController.mapper self = Some m ->
  let evs := evdevdrv.events read in
  let s := evdevdrv.EvdevController._state self in
  let self' := snd (DS5EvdevController._gyro_input read self) in
  let s' := evdevdrv.EvdevController._state self' in
  evdevdrv.gpitch s'
  = match last_abs evdevdrv.ABS_RX evs with
    | Some v => Z.quot v 100 | None => evdevdrv.gpitch s end /\
  evdevdrv.gyaw s'
  = match last_abs evdevdrv.ABS_RY evs with
    | Some v => Z.quot v 100 | None => evdevdrv.gyaw s end /\
  evdevdrv.groll s'
  = match last_abs evdevdrv.ABS_RZ evs with
    | Some v => Z.quot v 100 | None => evdevdrv.groll s end /\
  evdevdrv.buttons s' = evdevdrv.buttons s /\
  evdevdrv.cpad_x s' = evdevdrv.cpad_x s /\
  evdevdrv.cpad_y s' = evdevdrv.cpad_y s /\
  evdevdrv.others s' = evdevdrv.others s /\
  match last_abs evdevdrv.ABS_RX evs, last_abs evdevdrv.ABS_RY evs,
        last_abs evdevdrv.ABS_RZ evs with
  | None, None, None => self' = self
  | _, _, _ => evdevdrv.EvdevController.mapper self' = Some (Mapper_input s s' m)
  end.
Proof.
  intros Hnd Hknown Hread Hm. cbv zeta.
  pose proof (gyro_input_run read self) as H. rewrite Hknown in H.
  destruct H as (s' & r' & Hrun & ->). cbn [snd]. rewrite Hread. cbn [negb andb].
  destruct (gyro_events_fields Hnd _ _ _ _ _ Hrun)
    as (H1 & H2 & H3 & H4 & H5 & H6 & H7 & H8).
  cbn [orb] in H8.
  assert (evdevdrv.EvdevController._state
            (if r' then DS5EvdevController.store s' self else self) = s'
          \/ r' = false) as Hs.
  { destruct r'; [left; reflexivity | right; reflexivity]. }
  destruct r'.
  - unfold DS5EvdevController.store.
    cbn [evdevdrv.EvdevController._state evdevdrv.EvdevController.mapper].
    rewrite Hm.
    repeat (split; [assumption|]).
    destruct (last_abs evdevdrv.ABS_RX (evdevdrv.events read)),
      (last_abs evdevdrv.ABS_RY (evdevdrv.events read)),
      (last_abs evdevdrv.ABS_RZ (evdevdrv.events read));
      try reflexivity; discriminate.
  - destruct (last_abs evdevdrv.ABS_RX (evdevdrv.events read)),
      (last_abs evdevdrv.ABS_RY (evdevdrv.events read)),
      (last_abs evdevdrv.ABS_RZ (evdevdrv.events read));
      try discriminate.
    repeat split; reflexivity.
Qed.

Lemma linux_gyro_codes_distinct : NoDup (gyro_codes (E := linux_ecodes)).
Proof.
  unfold gyro_codes. cbn.
  repeat (constructor; [cbn; intuition discriminate|]). constructor.
Qed.

Lemma evdev_gyro_last_event_wins_witness :
  evdevdrv.gpitch
    (evdevdrv.EvdevController._state
       (snd (DS5EvdevController._gyro_input (E := linux_ecodes)
               (batch [gyro_axis 0x03 1234; gyro_axis 0x00 77;
                       gyro_axis 0x03 (-250)]) evdev_idle)))
  = Z.quot (-250) 100.
Proof.
  exact (proj1 (evdev_gyro_last_event_wins (E := linux_ecodes)
                  (batch [gyro_axis 0x03 1234; gyro_axis 0x00 77;
                          gyro_axis 0x03 (-250)])
                  evdev_idle {| received := [] |}
                  linux_gyro_codes_distinct eq_refl eq_refl eq_refl)).
Defined.

Example gyro_batch_sample :
  DS5EvdevController._gyro_input (E := linux_ecodes)
    (batch [gyro_axis 0x03 1234; gyro_axis 0x00 77; gyro_axis 0x05 (-199);
            gyro_axis 0x03 (-250)]) evdev_idle
  = (inr tt,
     let s' := {| evdevdrv.buttons := 0; evdevdrv.cpad_x := 0;
                  evdevdrv.cpad_y := 0; evdevdrv.gpitch := -2;
                  evdevdrv.groll := -1; evdevdrv.gyaw := 0;
                  evdevdrv.others := [] |} in
     {| evdevdrv.EvdevController._state := s';
        evdevdrv.EvdevController.mapper :=
          Some {| received :=
                    [(evdevdrv.EvdevController._state evdev_idle, s')] |} |}) /\
  DS5EvdevController._gyro_input (E := linux_ecodes)
    (batch [gyro_axis 0x00 77; gyro_axis 0x01 5; gyro_axis 0x02 9]) evdev_idle
  = (inr tt, evdev_idle).
Proof. split; reflexivity. Qed.

(** On binary64 the gyro values come out the same: for every value of
    twelve bits, and for the multiples of 100 of sixteen bits, whose
    hundredth is the integer that the truncation must not miss. *)
Lemma gyro_binary64_agrees (value : Z) :
  - 2048 <= value <= 2047 ->
  gyro_binary64 value = Ok (py_int (inject_Z value * 0.01)%Q).
Proof.
  intro Hv.
  assert (forallb (fun n =>
            let v := Z.of_nat n - 2048 in
            match gyro_binary64 v with
            | Ok g => g =? py_int (inject_Z v * 0.01)%Q
            | _ => false
            end) (seq 0 4096) = true) as Hall by (vm_compute; reflexivity).
  rewrite forallb_forall in Hall.
  specialize (Hall (Z.to_nat (value + 2048))).
  rewrite Z2Nat.id in Hall by lia.
  cbv zeta in Hall. replace (value + 2048 - 2048) with value in Hall by lia.
  assert (In (Z.to_nat (value + 2048)) (seq 0 4096)) as Hin
    by (apply in_seq; lia).
  specialize (Hall Hin).
  destruct (gyro_binary64 value) as [g|]; [|discriminate].
  apply Z.eqb_eq in Hall. congruence.
Qed.

Example gyro_binary64_hundreds :
  forallb (fun n =>
             let v := 100 * (Z.of_nat n - 327) in
             match gyro_binary64 v with
             | Ok g => g =? Z.of_nat n - 327
             | _ => false
             end) (seq 0 655) = true.
Proof. vm_compute. reflexivity. Qed.

(** ** The evdev fallback: finding the three nodes *)

Section MakeEvdevDevice.
Context {E : evdevdrv.ECODES}.

Lemma fold_left_last_match {A : Type} (f : A -> bool) (l : list A)
    (init : option A) :
  fold_left (fun acc x => if f x then Some x else acc) l init
  = match last_match f l with Some x => Some x | None => init end.
Proof.
  unfold last_match. induction l as [|x l IH] using rev_ind; [reflexivity|].
  rewrite fold_left_app, rev_app_distr. cbn [fold_left rev app find].
  destruct (f x); [reflexivity | exact IH].
Qed.

Lemma fold_left_roles (prefix : string) (l : list evdevdrv.InputDevice) :
  fold_left
    (fun '(gyro, touchpad) device =>
       if startswith (evdevdrv.phys device) prefix then
         let axes := evdevdrv.get_axes device in
         let count := List.length axes in
         if (count =? 6)%nat then
           if existsb (Z.eqb evdevdrv.ABS_MT_POSITION_X) axes
           then (gyro, Some device)
           else (Some device, touchpad)
         else if (count =? 4)%nat then (gyro, Some device)
         else (gyro, touchpad)
       else (gyro, touchpad))
    l (None, None)
  = (last_match (gyro_node prefix) l, last_match (touchpad_node prefix) l).
Proof.
  unfold last_match. induction l as [|x l IH] using rev_ind; [reflexivity|].
  rewrite fold_left_app, rev_app_distr, IH. cbn [fold_left rev app find].
  unfold gyro_node, touchpad_node. cbv zeta.
  destruct (startswith (evdevdrv.phys x) prefix); cbn [andb]; [|reflexivity].
  destruct (List.length (evdevdrv.get_axes x) =? 6)%nat eqn:H6; cbn [andb orb].
  - apply Nat.eqb_eq in H6. rewrite H6. cbn [Nat.eqb orb].
    destruct (existsb (Z.eqb evdevdrv.ABS_MT_POSITION_X) (evdevdrv.get_axes x));
      reflexivity.
  - destruct (List.length (evdevdrv.get_axes x) =? 4)%nat; reflexivity.
Qed.

Lemma last_Some {A : Type} (l : list A) :
  last (map Some l) None = match rev l with [] => None | d :: _ => Some d end.
Proof.
  induction l as [|x l IH] using rev_ind; [reflexivity|].
  rewrite map_app, rev_app_distr. cbn [map rev app]. apply last_last.
Qed.

Lemma make_evdev_device_run (devices : list evdevdrv.InputDevice) :
  make_evdev_device devices
  = match rev devices with
    | [] => None
    | device :: _ =>
        let prefix := split_first "/" (evdevdrv.phys device) in
        match last_match controller_node devices,
              last_match (gyro_node prefix) devices,
              last_match (touchpad_node prefix) devices with
        | Some controllerdevice, Some gyro, Some touchpad =>
            Some (controllerdevice, gyro, touchpad)
        | _, _, _ => None
        end
    end.
Proof.
  unfold make_evdev_device. cbv zeta.
  rewrite (fold_left_last_match controller_node), last_Some.
  destruct (rev devices) as [|d ds] eqn:Hrev.
  - unfold last_match. rewrite Hrev. reflexivity.
  - rewrite fold_left_roles.
    destruct (last_match controller_node devices); reflexivity.
Qed.

Lemma split_first_prefix (sep : ascii) (s : string) :
  startswith s (split_first sep s) = true.
Proof.
  unfold startswith. induction s as [|c s IH]; [reflexivity|].
  cbn [split_first]. destruct (Ascii.eqb c sep); [reflexivity|].
  cbn [String.prefix]. destruct (ascii_dec c c); [exact IH | contradiction].
Qed.

Lemma find_only {A : Type} (f : A -> bool) (l : list A) (x : A) :
  In x l -> f x = true -> (forall y, In y l -> f y = true -> y = x) ->
  find f l = Some x.
Proof.
  intros Hin Hx Huniq. induction l as [|a l IH]; [contradiction|].
  cbn [find]. destruct (f a) eqn:Ha.
  - f_equal. apply Huniq; [now left | exact Ha].
  - apply IH.
    + destruct Hin as [-> | Hin]; [congruence | exact Hin].
    + intros y Hy. apply Huniq. now right.
Qed.

End MakeEvdevDevice.

(** X24.  [make_evdev_device] gives each role to the last node listed
    that fits it: the controller is the last node with 8 axes, the motion
    sensor the last node with 6 axes and no ABS_MT_POSITION_X, the touchpad
    the last node with 4 axes or with 6 axes and ABS_MT_POSITION_X, where
    sensor and touchpad must be at the address (the text of [phys] before
    the first "/") of the last node of the list, whichever node that is.
    A device is made only when all three are found.  Both drivers have the
    same function. *)
Theorem make_evdev_device_roles {E : evdevdrv.ECODES}
    (devices : list evdevdrv.InputDevice) :
  ds4drv.make_evdev_device devices = make_evdev_device devices /\
  make_evdev_device devices
  = match rev devices with
    | [] => None
    | device :: _ =>
        let prefix := split_first "/" (evdevdrv.phys device) in
        match last_match controller_node devices,
              last_match (gyro_node prefix) devices,
              last_match (touchpad_node prefix) devices with
        | Some controllerdevice, Some gyro, Some touchpad =>
            Some (controllerdevice, gyro, touchpad)
        | _, _, _ => None
        end
    end.
Proof. split; [reflexivity | apply make_evdev_device_run]. Qed.

(** The address is that of the last node, not of the controller: sensor
    and touchpad of another address are taken when they come last, and
    those of the controller's address are not found when a node of
    another address comes last. *)
Example make_evdev_device_address_samples :
  make_evdev_device (E := linux_ecodes)
    [pad_node "usb-1/input0"; motion_node "usb-2/input0";
     touch_node "usb-2/input0"]
  = Some (pad_node "usb-1/input0", motion_node "usb-2/input0",
          touch_node "usb-2/input0") /\
  make_evdev_device (E := linux_ecodes)
    [pad_node "usb-1/input0"; motion_node "usb-1/input0";
     touch_node "usb-1/input0"; pad_node "usb-2/input0"]
  = None /\
  make_evdev_device (E := linux_ecodes) [] = None /\
  make_evdev_device (E := linux_ecodes)
    [motion_node "usb-1/input0"; touch_node "usb-1/input0"]
  = None.
Proof. repeat split; reflexivity. Qed.

Section ThreeNodes.
Context {E : evdevdrv.ECODES}.
Variables c g t : evdevdrv.InputDevice.
Variable devices : list evdevdrv.InputDevice.
Hypothesis Hc : List.length (evdevdrv.get_axes c) = 8%nat.
Hypothesis Hg : List.length (evdevdrv.get_axes g) = 6%nat.
Hypothesis Hg' : ~ In evdevdrv.ABS_MT_POSITION_X (evdevdrv.get_axes g).
Hypothesis Ht :
  List.length (evdevdrv.get_axes t) = 4%nat
  \/ (List.length (evdevdrv.get_axes t) = 6%nat
      /\ In evdevdrv.ABS_MT_POSITION_X (evdevdrv.get_axes t)).
Hypothesis Hpg :
  split_first "/" (evdevdrv.phys g) = split_first "/" (evdevdrv.phys c).
Hypothesis Hpt :
  split_first "/" (evdevdrv.phys t) = split_first "/" (evdevdrv.phys c).
Hypothesis Hdevices : forall d, In d devices <-> In d [c; g; t].

Lemma has_mt_x (axes : list Z) :
  existsb (Z.eqb evdevdrv.ABS_MT_POSITION_X) axes = true
  <-> In evdevdrv.ABS_MT_POSITION_X axes.
Proof.
  rewrite existsb_exists. split.
  - intros (x & Hin & Hx). apply Z.eqb_eq in Hx. now subst.
  - intro Hin. exists evdevdrv.ABS_MT_POSITION_X. split; [exact Hin|].
    apply Z.eqb_refl.
Qed.

Lemma three_nodes_run :
  make_evdev_device devices = Some (c, g, t).
Proof.
  rewrite make_evdev_device_run.
  assert (forall d, In d (rev devices) <-> d = c \/ d = g \/ d = t) as Hin.
  { intro d. rewrite <- in_rev, Hdevices. cbn [In]. intuition congruence. }
  destruct (rev devices) as [|d ds] eqn:Hrev.
  { exfalso. apply (proj2 (Hin c)). now left. }
  assert (split_first "/" (evdevdrv.phys d) = split_first "/" (evdevdrv.phys c))
    as Hprefix.
  { destruct (proj1 (Hin d) (or_introl eq_refl)) as [-> | [-> | ->]];
      [reflexivity | exact Hpg | exact Hpt]. }
  cbv zeta. rewrite Hprefix. unfold last_match. rewrite Hrev.
  assert (existsb (Z.eqb evdevdrv.ABS_MT_POSITION_X) (evdevdrv.get_axes g)
          = false) as Hgx.
  { destruct (existsb _ (evdevdrv.get_axes g)) eqn:Hx; [|reflexivity].
    apply has_mt_x in Hx. contradiction. }
  rewrite (find_only controller_node (d :: ds) c).
  2:{ apply Hin. now left. }
  2:{ unfold controller_node. now rewrite Hc. }
  2:{ intros y Hy. apply Hin in Hy. unfold controller_node.
      destruct Hy as [-> | [-> | ->]]; [reflexivity | |].
      - rewrite Hg. discriminate.
      - destruct Ht as [-> | [-> _]]; discriminate. }
  rewrite (find_only (gyro_node _) (d :: ds) g).
  2:{ apply Hin. right. now left. }
  2:{ unfold gyro_node. rewrite <- Hpg, split_first_prefix, Hg, Hgx.
      reflexivity. }
  2:{ intros y Hy. apply Hin in Hy. unfold gyro_node.
      destruct Hy as [-> | [-> | ->]]; [| reflexivity |].
      - rewrite Hc, andb_false_r. discriminate.
      - destruct Ht as [-> | [-> Hx]].
        + rewrite andb_false_r. discriminate.
        + apply has_mt_x in Hx. rewrite Hx, andb_false_r. discriminate. }
  rewrite (find_only (touchpad_node _) (d :: ds) t).
  2:{ apply Hin. right. now right. }
  2:{ unfold touchpad_node. rewrite <- Hpt, split_first_prefix.
      destruct Ht as [-> | [-> Hx]]; [reflexivity|].
      apply has_mt_x in Hx. now rewrite Hx. }
  2:{ intros y Hy. apply Hin in Hy. unfold touchpad_node.
      destruct Hy as [-> | [-> | ->]]; [| | reflexivity].
      - rewrite Hc, andb_false_r. discriminate.
      - rewrite Hg, Hgx, andb_false_r. discriminate. }
  reflexivity.
Qed.

End ThreeNodes.

(** X25.  Three nodes at one address, one with 8 axes, one with 6 axes
    and no ABS_MT_POSITION_X, and one with 4 axes or with 6 axes and
    ABS_MT_POSITION_X, are taken as controller, motion sensor and touchpad
    in whatever order they are listed. *)
Theorem make_evdev_device_three_nodes {E : evdevdrv.ECODES}
    (c g t : evdevdrv.InputDevice) (devices : list evdevdrv.InputDevice) :
  List.length (evdevdrv.get_axes c) = 8%nat ->
  List.length (evdevdrv.get_axes g) = 6%nat ->
  ~ In evdevdrv.ABS_MT_POSITION_X (evdevdrv.get_axes g) ->
  (List.length (evdevdrv.get_axes t) = 4%nat
   \/ (List.length (evdevdrv.get_axes t) = 6%nat
       /\ In evdevdrv.ABS_MT_POSITION_X (evdevdrv.get_axes t))) ->
  split_first "/" (evdevdrv.phys g) = split_first "/" (evdevdrv.phys c) ->
  split_first "/" (evdevdrv.phys t) = split_first "/" (evdevdrv.phys c) ->
  (forall d, In d devices <-> In d [c; g; t]) ->
  make_evdev_device devices = Some (c, g, t)
  /\ ds4drv.make_evdev_device devices = Some (c, g, t).
Proof.
  intros. split; [|change (make_evdev_device devices = Some (c, g, t))];
    now apply three_nodes_run.
Qed.

Lemma make_evdev_device_three_nodes_witness :
  make_evdev_device (E := linux_ecodes)
    [touch_node "usb-1/input2"; pad_node "usb-1/input0";
     motion_node "usb-1/input1"]
  = Some (pad_node "usb-1/input0", motion_node "usb-1/input1",
          touch_node "usb-1/input2").
Proof.
  refine (proj1 (make_evdev_device_three_nodes (E := linux_ecodes)
                   (pad_node "usb-1/input0") (motion_node "usb-1/input1")
                   (touch_node "usb-1/input2")
                   [touch_node "usb-1/input2"; pad_node "usb-1/input0";
                    motion_node "usb-1/input1"]
                   eq_refl eq_refl _ (or_intror (conj eq_refl _))
                   eq_refl eq_refl _)).
  - cbn. intuition discriminate.
  - cbn. tauto.
  - intro d. cbn. tauto.
Defined.

(** ** Controllers of every class on one daemon *)

Lemma generate_id_of_first_free (c : controller_class) :
  exists base, forall daemon, exists id,
    generate_id_of c daemon = Some id /\
    first_free_id base (get_active_ids daemon) id.
Proof.
  destruct c; [exists "ds4"%string | exists "ds4"%string | exists "ds5"%string
              | exists "ds5"%string | exists "ds5"%string];
    intro daemon; apply generate_id_first_free.
Qed.

Lemma plug_run_NoDup (evs : list plug) (daemon : SCCDaemon) :
  NoDup (controllers daemon) ->
  exists daemon', plug_run daemon evs = Some daemon' /\
                  NoDup (controllers daemon').
Proof.
  revert daemon. induction evs as [|ev evs IH]; intros daemon Hnd;
    cbn [plug_run].
  - now exists daemon.
  - assert (exists d1, plug_step daemon ev = Some d1 /\ NoDup (controllers d1))
      as (d1 & -> & Hnd1).
    { destruct ev as [c|id]; cbn [plug_step].
      - destruct (generate_id_of_first_free c) as [base Hgen].
        apply (hotplug_step_NoDup _ base Hgen daemon Connect Hnd).
      - eexists. split; [reflexivity|]. cbn [remove_controller controllers].
        now apply remove_first_NoDup. }
    now apply IH.
Qed.

(** X26.  Controllers of all classes of both drivers (USB, Bluetooth and
    evdev; DualShock 4 and DualSense) can be connected and removed in any
    order on one daemon: ID generation always returns, the active IDs
    never collide, and the classes of one family draw from one sequence
    of IDs. *)
Theorem mixed_hotplug_ids_distinct (evs : list plug) :
  (exists daemon,
     plug_run no_controllers evs = Some daemon /\
     NoDup (get_active_ids daemon)) /\
  (forall daemon,
     generate_id_of ds4_evdev daemon = generate_id_of ds4_hid daemon /\
     generate_id_of ds5_hid daemon = generate_id_of ds5_hidraw daemon /\
     generate_id_of ds5_evdev daemon = generate_id_of ds5_hidraw daemon).
Proof.
  split.
  - apply plug_run_NoDup. constructor.
  - intro daemon. repeat split; reflexivity.
Qed.

Example mixed_hotplug_sample :
  plug_run no_controllers
    [Plug ds4_hid; Plug ds5_evdev; Plug ds4_evdev; Plug ds5_hidraw;
     Unplug "ds4"; Plug ds5_hid; Plug ds4_evdev]
  = Some {| controllers := ["ds5"; "ds4:1"; "ds5:1"; "ds5:2"; "ds4"]%string |}.
Proof. vm_compute. reflexivity. Qed.
